(** * geodiff-app: the Google Play scraping client and the crawl orchestrators

    A shallow embedding of the Python sources

      - [gpcrawler/mpyscraper/element.py], [utils.py], [api.py], [exceptions.py],
        [constants/regex.py]  (the scraping protocol client),
      - [gpcrawler/metadata_crawl.py]  (the metadata crawl workers),
      - [apk-downloader/crawler.py]  (the download orchestrator),

    followed by the properties proved about it.

    Conventions of the embedding.
      - A Python [str] is a [string]; its characters are the code points below 256.
      - A value decoded from JSON is a [value]; a Python float is a binary64 [float].
      - A [dict] is an association list in insertion order.
      - A Python call that may raise returns a [result]; code that also talks to the
        network runs in the monad [M], which threads the trace of issued requests.
      - Standard-library services whose code is not part of the repository
        ([json.loads], [int] on a string, [html.unescape], the rendering of floats and
        containers, the quotient of two integers as a float) are
        the fields of the class [Runtime]; every general theorem holds for all of them.
      - Resource limits of the interpreter (recursion depth, memory), rate limiting and
        the choice of a proxy do not change any computed value and are not modelled. *)

From Stdlib Require Import String Ascii List ZArith Lia Bool Arith PeanoNat.
From Stdlib Require Import DecimalString.
From Corelib Require Import PrimFloat.
Import ListNotations.

#[local] Set Warnings "-register-all".
#[local] Open Scope string_scope.
#[local] Open Scope list_scope.

(** Concatenation of Python strings. *)
Notation "a +++ b" := (String.append a b) (at level 60, right associativity).

(* ================================================================== *)
(** * Part I. The embedding *)
(* ================================================================== *)

(** ** Python runtime: exceptions, results, values, strings *)

Module Py.

(** The exception classes the sources raise or catch.  [JSONDecodeError] and
    [UnicodeDecodeError] are subclasses of [ValueError]; [URLError] is a subclass
    of [OSError]; the three scraper classes derive from
    [GooglePlayScraperException] (exceptions.py). *)
Inductive exn : Type :=
| KeyError
| IndexError
| TypeError
| ValueError
| AttributeError
| JSONDecodeError
| UnicodeDecodeError
| OSError
| URLError
| InvalidURLError
| NotFoundError
| ExtraHTTPError (code : Z)
| OtherException (name : string).

Inductive result (A : Type) : Type :=
| Ok (a : A)
| Raise (e : exn).
Arguments Ok {A} a.
Arguments Raise {A} e.

Definition bind {A B : Type} (r : result A) (k : A -> result B) : result B :=
  match r with
  | Ok a => k a
  | Raise e => Raise e
  end.

Declare Scope result_scope.
Delimit Scope result_scope with R.
Notation "x <- e ;; k" := (bind e (fun x => k))
  (at level 61, e at next level, right associativity) : result_scope.

Fixpoint mapM {A B : Type} (f : A -> result B) (l : list A) : result (list B) :=
  match l with
  | [] => Ok []
  | a :: l' =>
      match f a with
      | Raise e => Raise e
      | Ok b =>
          match mapM f l' with
          | Raise e => Raise e
          | Ok bs => Ok (b :: bs)
          end
      end
  end.

(** A decoded JSON tree, which is also the type of every Python object the
    scraper passes around. *)
Inductive value : Type :=
| VNone
| VBool (b : bool)
| VInt (z : Z)
| VFloat (f : float)
| VStr (s : string)
| VList (l : list value)
| VDict (d : list (string * value)).

Definition dict : Type := list (string * value).

(** Python truth value: [bool(v)]. *)
Definition truthy (v : value) : bool :=
  match v with
  | VNone => false
  | VBool b => b
  | VInt z => negb (z =? 0)%Z
  | VFloat f => negb (PrimFloat.eqb f 0%float)
  | VStr s => negb (String.eqb s EmptyString)
  | VList l => match l with [] => false | _ => true end
  | VDict d => match d with [] => false | _ => true end
  end.

Definition is_None (v : value) : bool :=
  match v with VNone => true | _ => false end.

(** *** Strings *)

Definition dquote : string := String (ascii_of_nat 34) EmptyString.

Fixpoint drop (n : nat) (s : string) : string :=
  match n, s with
  | O, _ => s
  | S n', String _ s' => drop n' s'
  | S _, EmptyString => EmptyString
  end.

(** [find_sub needle s]: the text before and after the leftmost occurrence of
    [needle] in [s]. *)
Fixpoint find_sub (needle s : string) : option (string * string) :=
  if prefix needle s then Some (EmptyString, drop (String.length needle) s)
  else
    match s with
    | EmptyString => None
    | String c s' =>
        match find_sub needle s' with
        | Some (b, a) => Some (String c b, a)
        | None => None
        end
    end.

(** [needle in s], that is [s.find(needle) != -1]. *)
Definition contains (needle s : string) : bool :=
  match find_sub needle s with Some _ => true | None => false end.

Definition startswith (p s : string) : bool := prefix p s.

(** [str.isspace] on the code points below 256; it is also the class [\s] of a
    [str] pattern. *)
Definition is_space (c : ascii) : bool :=
  let n := nat_of_ascii c in
  (((9 <=? n) && (n <=? 13)) || ((28 <=? n) && (n <=? 32)) || (n =? 133) || (n =? 160))%nat.

Fixpoint lstrip_with (p : ascii -> bool) (s : string) : string :=
  match s with
  | EmptyString => EmptyString
  | String c s' => if p c then lstrip_with p s' else s
  end.

Fixpoint rstrip_with (p : ascii -> bool) (s : string) : string :=
  match s with
  | EmptyString => EmptyString
  | String c s' =>
      match rstrip_with p s' with
      | EmptyString => if p c then EmptyString else String c EmptyString
      | r => String c r
      end
  end.

(** [s.strip()] *)
Definition strip (s : string) : string := rstrip_with is_space (lstrip_with is_space s).

Fixpoint mem_ascii (c : ascii) (cs : string) : bool :=
  match cs with
  | EmptyString => false
  | String d cs' => Ascii.eqb c d || mem_ascii c cs'
  end.

(** [s.lstrip(chars)] *)
Definition lstrip_chars (chars s : string) : string :=
  lstrip_with (fun c => mem_ascii c chars) s.

(** [s.split(sep)] for a non-empty separator. *)
Fixpoint split_fuel (fuel : nat) (sep s : string) : list string :=
  match fuel with
  | O => [s]
  | S fuel' =>
      match find_sub sep s with
      | None => [s]
      | Some (b, a) => b :: split_fuel fuel' sep a
      end
  end.

Definition split (sep s : string) : list string :=
  split_fuel (String.length s) sep s.

Fixpoint join (sep : string) (l : list string) : string :=
  match l with
  | [] => EmptyString
  | [x] => x
  | x :: l' => x +++ sep +++ join sep l'
  end.

(** [s.replace(old, new)] for a non-empty [old]. *)
Definition replace (old new s : string) : string := join new (split old s).

(** [l[i]] on a Python sequence of length [length l]: negative indexes count
    from the end, anything outside raises [IndexError]. *)
Definition seq_index {A : Type} (l : list A) (i : Z) : result A :=
  let n := Z.of_nat (List.length l) in
  let j := if (i <? 0)%Z then (i + n)%Z else i in
  if ((0 <=? j) && (j <? n))%Z then
    match nth_error l (Z.to_nat j) with
    | Some a => Ok a
    | None => Raise IndexError
    end
  else Raise IndexError.

Definition chars (s : string) : list value :=
  map (fun c => VStr (String c EmptyString)) (list_ascii_of_string s).

(** [source[i]] for an integer [i]. *)
Definition getitem (source : value) (i : Z) : result value :=
  match source with
  | VList l => seq_index l i
  | VStr s => seq_index (chars s) i
  | VDict _ => Raise KeyError
  | _ => Raise TypeError
  end.

(** [len(source)] *)
Definition len (source : value) : result Z :=
  match source with
  | VList l => Ok (Z.of_nat (List.length l))
  | VStr s => Ok (Z.of_nat (String.length s))
  | VDict d => Ok (Z.of_nat (List.length d))
  | _ => Raise TypeError
  end.

(** Iterating over an object: [for x in source]. *)
Definition iter (source : value) : result (list value) :=
  match source with
  | VList l => Ok l
  | VStr s => Ok (chars s)
  | VDict d => Ok (map (fun kv => VStr (fst kv)) d)
  | _ => Raise TypeError
  end.

(** *** Dictionaries with string keys *)

Fixpoint dict_get {A : Type} (d : list (string * A)) (k : string) : option A :=
  match d with
  | [] => None
  | (k', v) :: d' => if String.eqb k k' then Some v else dict_get d' k
  end.

(** [d[k]] *)
Definition dict_getitem {A : Type} (d : list (string * A)) (k : string) : result A :=
  match dict_get d k with
  | Some v => Ok v
  | None => Raise KeyError
  end.

(** [d[k] = v]: an existing key keeps its place. *)
Fixpoint dict_set {A : Type} (d : list (string * A)) (k : string) (v : A) : list (string * A) :=
  match d with
  | [] => [(k, v)]
  | (k', v') :: d' =>
      if String.eqb k k' then (k', v) :: d' else (k', v') :: dict_set d' k v
  end.

Definition dict_keys {A : Type} (d : list (string * A)) : list string := map fst d.

(** [k in s] for a set of strings kept as a list. *)
Definition mem_string (k : string) (l : list string) : bool :=
  existsb (String.eqb k) l.

(** *** Services of the standard library *)

Class Runtime : Type := {
  (** [json.loads] on a [str]: the decoded tree, or nothing when the text is not JSON *)
  json_decode : string -> option value;
  (** [int] on a [str]: the number, or nothing when the text is not a literal *)
  int_of_str : string -> option Z;
  (** [str] of a float, a list or a dict *)
  str_compound : value -> string;
  (** [html.unescape] *)
  html_unescape : string -> string;
  (** [a / b] on two [int]s, the divisor not zero *)
  int_true_div : Z -> Z -> float
}.

(** [json.loads(v)] *)
Definition json_loads `{Runtime} (v : value) : result value :=
  match v with
  | VStr s =>
      match json_decode s with
      | Some t => Ok t
      | None => Raise JSONDecodeError
      end
  | _ => Raise TypeError
  end.

(** [int(s)] *)
Definition py_int `{Runtime} (s : string) : result Z :=
  match int_of_str s with
  | Some z => Ok z
  | None => Raise ValueError
  end.

Definition str_of_Z (z : Z) : string := NilZero.string_of_int (Z.to_int z).

Definition str_of_bool (b : bool) : string := if b then "True" else "False".

(** [str(v)], which is also what [format] puts in place of an empty field
    specification. *)
Definition str `{Runtime} (v : value) : string :=
  match v with
  | VNone => "None"
  | VBool b => str_of_bool b
  | VInt z => str_of_Z z
  | VStr s => s
  | _ => str_compound v
  end.

End Py.

Import Py.

(** ** mpyscraper/exceptions.py *)

Module exceptions.

(** [isinstance(e, GooglePlayScraperException)]: the base class and its three
    subclasses [InvalidURLError], [NotFoundError], [ExtraHTTPError]. *)
Definition is_GooglePlayScraperException (e : exn) : bool :=
  match e with
  | InvalidURLError | NotFoundError | ExtraHTTPError _ => true
  | _ => false
  end.

(** [isinstance(e, ValueError)] *)
Definition is_ValueError (e : exn) : bool :=
  match e with
  | ValueError | JSONDecodeError | UnicodeDecodeError => true
  | _ => false
  end.

(** [isinstance(e, OSError)] *)
Definition is_OSError (e : exn) : bool :=
  match e with
  | OSError | URLError => true
  | _ => false
  end.

(** [str(e)] for the exceptions the scraper raises itself (utils.py, [_request]). *)
Definition message (e : exn) : string :=
  match e with
  | NotFoundError => "Page not found(404)."
  | ExtraHTTPError code => "Page not found. Status code " +++ str_of_Z code +++ " returned."
  | OtherException name => name
  | _ => EmptyString
  end.

End exceptions.

(** ** mpyscraper/constants/regex.py

    Each compiled pattern is embedded as the function its [findall] computes. *)

Module regex.

Definition newline : ascii := ascii_of_nat 10.

(** A pattern [open[\s\S]*?close]: the non-overlapping matches from left to
    right, each as (the text between the two literals, the whole match). *)
Fixpoint lazy_findall_fuel (fuel : nat) (open close s : string) : list (string * string) :=
  match fuel with
  | O => []
  | S fuel' =>
      match find_sub open s with
      | None => []
      | Some (_, a) =>
          match find_sub close a with
          | None => []
          | Some (inner, rest) =>
              (inner, open +++ inner +++ close) :: lazy_findall_fuel fuel' open close rest
          end
      end
  end.

Definition lazy_findall (open close s : string) : list (string * string) :=
  lazy_findall_fuel (String.length s) open close s.

(** [SCRIPT = re.compile(r"AF_initDataCallback[\s\S]*?<\/script")] *)
Definition SCRIPT_findall (dom : string) : list string :=
  map snd (lazy_findall "AF_initDataCallback" "</script" dom).

(** [VALUE = re.compile(r"data:([\s\S]*?), sideChannel: \{\}\}\);<\/")]; [findall]
    returns the group. *)
Definition VALUE_findall (s : string) : list string :=
  map fst (lazy_findall "data:" ", sideChannel: {}});</" s).

(** [BUTTON = re.compile(r"<button[\s\S]*?<\/button>")] *)
Definition BUTTON_findall (dom : string) : list string :=
  map snd (lazy_findall "<button" "</button>" dom).

(** [OFFER = re.compile(r"<span itemprop=\"offers\"[\s\S]*?<\/span>")] *)
Definition OFFER_findall (s : string) : list string :=
  map snd (lazy_findall ("<span itemprop=" +++ dquote +++ "offers" +++ dquote) "</span>" s).

(** The text up to the first apostrophe, when no newline stands before it
    ([.] does not match a newline). *)
Fixpoint until_apostrophe (s : string) : option (string * string) :=
  match s with
  | EmptyString => None
  | String c s' =>
      if Ascii.eqb c "'"%char then Some (EmptyString, s')
      else if Ascii.eqb c newline then None
      else
        match until_apostrophe s' with
        | Some (b, a) => Some (String c b, a)
        | None => None
        end
  end.

(** [KEY = re.compile(r"(ds:.*?)'")]; [findall] returns the group.  When the
    attempt at one [ds:] fails the search resumes one character later. *)
Fixpoint KEY_findall_fuel (fuel : nat) (s : string) : list string :=
  match fuel with
  | O => []
  | S fuel' =>
      match find_sub "ds:" s with
      | None => []
      | Some (_, a) =>
          match until_apostrophe a with
          | Some (k, rest) => ("ds:" +++ k) :: KEY_findall_fuel fuel' rest
          | None => KEY_findall_fuel fuel' ("s:" +++ a)
          end
      end
  end.

Definition KEY_findall (s : string) : list string :=
  KEY_findall_fuel (String.length s) s.

(** The longest run of non-space characters at the head of [s], and the rest. *)
Fixpoint span_nonspace (s : string) : string * string :=
  match s with
  | EmptyString => (EmptyString, EmptyString)
  | String c s' =>
      if is_space c then (EmptyString, s)
      else let (r, t) := span_nonspace s' in (String c r, t)
  end.

(** The longest prefix of [run] that ends with [>]. *)
Fixpoint upto_last_gt (run : string) : option string :=
  match run with
  | EmptyString => None
  | String c r =>
      match upto_last_gt r with
      | Some t => Some (String c t)
      | None => if Ascii.eqb c ">"%char then Some (String c EmptyString) else None
      end
  end.

Definition DOWNLOAD_open : string :=
  "<meta itemprop=" +++ dquote +++ "url" +++ dquote +++ " content=".

(** [DOWNLOAD = re.compile(r"<meta itemprop=\"url\" content=[\S]*>")]: the
    greedy [[\S]*] takes the whole run and gives back up to its last [>]. *)
Fixpoint DOWNLOAD_findall_fuel (fuel : nat) (s : string) : list string :=
  match fuel with
  | O => []
  | S fuel' =>
      match find_sub DOWNLOAD_open s with
      | None => []
      | Some (_, a) =>
          match upto_last_gt (fst (span_nonspace a)) with
          | Some t => (DOWNLOAD_open +++ t) :: DOWNLOAD_findall_fuel fuel' (drop (String.length t) a)
          | None => DOWNLOAD_findall_fuel fuel' (drop 1 (DOWNLOAD_open +++ a))
          end
      end
  end.

Definition DOWNLOAD_findall (s : string) : list string :=
  DOWNLOAD_findall_fuel (String.length s) s.

(** [NOT_NUMBER.sub("", s)] with [NOT_NUMBER = re.compile(r"[^\d]")]: below code
    point 256 the class [\d] is the ten ASCII digits. *)
Definition is_digit (c : ascii) : bool :=
  let n := nat_of_ascii c in ((48 <=? n) && (n <=? 57))%nat.

Fixpoint NOT_NUMBER_sub_empty (s : string) : string :=
  match s with
  | EmptyString => EmptyString
  | String c s' => if is_digit c then String c (NOT_NUMBER_sub_empty s') else NOT_NUMBER_sub_empty s'
  end.

End regex.

(** ** mpyscraper/element.py *)

Module element.

(** [nested_lookup(source, indexes)]: the recursion follows [indexes[1::]].  An
    empty [indexes] reaches [indexes[0]], which raises [IndexError]. *)
Fixpoint nested_lookup (source : value) (indexes : list Z) : result value :=
  if negb (truthy source) then Ok source
  else
    match indexes with
    | [] => Raise IndexError
    | [i] => getitem source i
    | i :: rest =>
        match len source with
        | Raise e => Raise e
        | Ok n =>
            if (i >=? n)%Z then Ok VNone
            else
              match getitem source i with
              | Raise e => Raise e
              | Ok v => nested_lookup v rest
              end
        end
    end.

(** [class ElementSpec]; a post-processor is a Python callable, which returns
    or raises. *)
Record ElementSpec : Type := mkElementSpec {
  ds_num : Z;
  extraction_map : list Z;
  post_processor : option (value -> result value);
  post_processor_except_fallback : value
}.

(** The constructor with its defaults [post_processor=None] and
    [post_processor_except_fallback=None]. *)
Definition spec (ds : Z) (path : list Z) : ElementSpec :=
  mkElementSpec ds path None VNone.

Definition spec_with (ds : Z) (path : list Z) (f : value -> result value) (fallback : value)
  : ElementSpec :=
  mkElementSpec ds path (Some f) fallback.

(** The clause [except (KeyError, IndexError, TypeError)]. *)
Definition is_lookup_failure (e : exn) : bool :=
  match e with
  | KeyError | IndexError | TypeError => true
  | _ => false
  end.

Definition dataset_key (self : ElementSpec) : string := "ds:" +++ str_of_Z (ds_num self).

(** The body of the [try]: [nested_lookup(source["ds:{}".format(self.ds_num)],
    self.extraction_map)]. *)
Definition raw_content (self : ElementSpec) (source : dict) : result value :=
  (raw <- dict_getitem source (dataset_key self) ;;
   nested_lookup raw (extraction_map self))%R.

(** [ElementSpec.extract_content(self, source)] *)
Definition extract_content (self : ElementSpec) (source : dict) : result value :=
  let first :=
    match raw_content self source with
    | Ok v => Ok v
    | Raise e => if is_lookup_failure e then Ok VNone else Raise e
    end in
  (result <- first ;;
   match is_None result, post_processor self with
   | false, Some f =>
       match f result with
       | Ok v => Ok v
       | Raise _ => Ok (post_processor_except_fallback self)
       end
   | _, _ => Ok result
   end)%R.

Section PostProcessors.
Context `{Runtime}.

Definition crlf : string := String (ascii_of_nat 13) (String (ascii_of_nat 10) EmptyString).

(** [unescape_text(text)]; a method of [str] on another object raises
    [AttributeError]. *)
Definition unescape_text (text : value) : result value :=
  match text with
  | VStr s => Ok (VStr (html_unescape (replace "<br>" crlf s)))
  | _ => Raise AttributeError
  end.

(** [lambda s: int(NOT_NUMBER.sub("", s)) if s else 0] *)
Definition minInstalls_post (s : value) : result value :=
  if truthy s then
    match s with
    | VStr t => (n <- py_int (regex.NOT_NUMBER_sub_empty t) ;; Ok (VInt n))%R
    | _ => Raise TypeError
    end
  else Ok (VInt 0).

(** [container[i][j]] *)
Definition getitem2 (container : value) (i j : Z) : result value :=
  (row <- getitem container i ;; getitem row j)%R.

(** The post-processor of [histogram]. *)
Definition histogram_post (container : value) : result value :=
  (a <- getitem2 container 1 1 ;;
   b <- getitem2 container 2 1 ;;
   c <- getitem2 container 3 1 ;;
   d <- getitem2 container 4 1 ;;
   e <- getitem2 container 5 1 ;;
   Ok (VList [a; b; c; d; e]))%R.

(** [lambda price: (price / 1000000) or 0] *)
Definition price_post (price : value) : result value :=
  (q <- match price with
        | VInt z => Ok (int_true_div z 1000000)
        | VBool b => Ok (int_true_div (if b then 1 else 0)%Z 1000000)
        | VFloat f => Ok (PrimFloat.div f 1000000%float)
        | _ => Raise TypeError
        end ;;
   if truthy (VFloat q) then Ok (VFloat q) else Ok (VInt 0))%R.

(** [lambda s: s == 0] *)
Definition free_post (s : value) : result value :=
  Ok (VBool match s with
            | VInt z => (z =? 0)%Z
            | VBool b => negb b
            | VFloat f => PrimFloat.eqb f 0%float
            | _ => false
            end).

(** [bool] *)
Definition bool_post (v : value) : result value := Ok (VBool (truthy v)).

(** The pieces of [s.split()]: the maximal runs of non-space characters. *)
Fixpoint words_fuel (fuel : nat) (s : string) : list string :=
  match fuel with
  | O => []
  | S fuel' =>
      match lstrip_with is_space s with
      | EmptyString => []
      | t => let (w, rest) := regex.span_nonspace t in w :: words_fuel fuel' rest
      end
  end.

(** [lambda s: s.split()[0]] *)
Definition androidVersion_post (s : value) : result value :=
  match s with
  | VStr t => (w <- seq_index (words_fuel (String.length t) t) 0 ;; Ok (VStr w))%R
  | _ => Raise AttributeError
  end.

(** [lambda s: s.split("id=")[1]] *)
Definition developerId_post (s : value) : result value :=
  match s with
  | VStr t => (w <- seq_index (split "id=" t) 1 ;; Ok (VStr w))%R
  | _ => Raise AttributeError
  end.

(** [lambda container: [item[3][2] for item in container]] *)
Definition screenshots_post (container : value) : result value :=
  (items <- iter container ;;
   urls <- mapM (fun item => getitem2 item 3 2) items ;;
   Ok (VList urls))%R.

(** [lambda container: [item[4] for item in container]] *)
Definition comments_post (container : value) : result value :=
  (items <- iter container ;;
   texts <- mapM (fun item => getitem item 4) items ;;
   Ok (VList texts))%R.

Definition zeros5 : value := VList [VInt 0; VInt 0; VInt 0; VInt 0; VInt 0].

#[local] Open Scope Z_scope.

(** The registry [DETAIL], in the order of the source. *)
Definition DETAIL : list (string * ElementSpec) :=
  [ ("title", spec 5 [0; 0; 0]);
    ("description", spec_with 5 [0; 10; 0; 1] unescape_text VNone);
    ("descriptionHTML", spec 5 [0; 10; 0; 1]);
    ("summary", spec_with 5 [0; 10; 1; 1] unescape_text VNone);
    ("summaryHTML", spec 5 [0; 10; 1; 1]);
    ("installs", spec 5 [0; 12; 9; 0]);
    ("numInstalls", spec 5 [0; 12; 9; 2]);
    ("minInstalls", spec_with 5 [0; 12; 9; 0] minInstalls_post VNone);
    ("score", spec 6 [0; 6; 0; 1]);
    ("ratings", spec 6 [0; 6; 2; 1]);
    ("reviews", spec 6 [0; 6; 3; 1]);
    ("histogram", spec_with 6 [0; 6; 1] histogram_post zeros5);
    ("price", spec_with 3 [0; 2; 0; 0; 0; 1; 0; 0] price_post VNone);
    ("free", spec_with 3 [0; 2; 0; 0; 0; 1; 0; 0] free_post VNone);
    ("currency", spec 3 [0; 2; 0; 0; 0; 1; 0; 1]);
    ("offersIAP", spec_with 5 [0; 12; 12; 0] bool_post VNone);
    ("size", spec 8 [0]);
    ("androidVersion", spec_with 8 [2] androidVersion_post VNone);
    ("androidVersionText", spec 8 [2]);
    ("developer", spec 5 [0; 12; 5; 1]);
    ("developerId", spec_with 5 [0; 12; 5; 5; 4; 2] developerId_post VNone);
    ("developerEmail", spec 5 [0; 12; 5; 2; 0]);
    ("developerWebsite", spec 5 [0; 12; 5; 3; 5; 2]);
    ("developerAddress", spec 5 [0; 12; 5; 4; 0]);
    ("privacyPolicy", spec 5 [0; 12; 7; 2]);
    ("developerInternalID", spec 5 [0; 12; 5; 0; 0]);
    ("genre", spec 5 [0; 12; 13; 0; 0]);
    ("genreId", spec 5 [0; 12; 13; 0; 2]);
    ("icon", spec 5 [0; 12; 1; 3; 2]);
    ("headerImage", spec 5 [0; 12; 2; 3; 2]);
    ("screenshots", spec_with 5 [0; 12; 0] screenshots_post (VList []));
    ("video", spec 5 [0; 12; 3; 0; 3; 2]);
    ("videoImage", spec 5 [0; 12; 3; 1; 3; 2]);
    ("contentRating", spec 5 [0; 12; 4; 0]);
    ("contentRatingDescription", spec 5 [0; 12; 4; 2; 1]);
    ("adSupported", spec_with 5 [0; 12; 14; 0] bool_post VNone);
    ("containsAds", spec_with 5 [0; 12; 14; 0] bool_post (VBool false));
    ("released", spec 5 [0; 12; 36]);
    ("updated", spec 5 [0; 12; 8; 0]);
    ("version", spec 8 [1]);
    ("recentChanges", spec_with 5 [0; 12; 6; 1] unescape_text VNone);
    ("recentChangesHTML", spec 5 [0; 12; 6; 1]);
    ("comments", spec_with 17 [0] comments_post (VList []));
    ("similarURL", spec 7 [1; 1; 0; 0; 3; 4; 2]) ].

(** The registry [CLUSTER]. *)
Definition CLUSTER_cluster : ElementSpec := spec 3 [0; 1; 0; 0; 3; 4; 2].
Definition CLUSTER_apps : ElementSpec := spec 3 [0; 1; 0; 0; 0].
Definition CLUSTER_token : ElementSpec := spec 3 [0; 1; 0; 0; 7; 1].

End PostProcessors.

End element.

(** ** mpyscraper/utils.py *)

Module utils.
Import element.

(** What the client sends: [urlopen(url)], or the [Request] with POST data that
    [_get_ui_request] builds from the template [ui_dict[func]] and [param]. *)
Inductive request : Type :=
| GET (url : string)
| POST (url : string) (func : string) (param : value).

(** What the network answers to one request: a body, an [HTTPError] with its
    status code, or any other failure of [urlopen] or [decode]. *)
Inductive response : Type :=
| Body (text : string)
| HTTPError (code : Z)
| Failed (e : exn).

(** The environment: the answer to a request, given how many were issued before. *)
Definition network : Type := nat -> request -> response.

(** The requests issued so far, oldest first. *)
Definition trace : Type := list request.

Definition M (A : Type) : Type := trace -> result A * trace.

Definition ret {A : Type} (a : A) : M A := fun tr => (Ok a, tr).

Definition bindM {A B : Type} (m : M A) (k : A -> M B) : M B :=
  fun tr =>
    match m tr with
    | (Ok a, tr') => k a tr'
    | (Raise e, tr') => (Raise e, tr')
    end.

Definition lift {A : Type} (r : result A) : M A := fun tr => (r, tr).

Declare Scope net_scope.
Delimit Scope net_scope with M.
Notation "x <- e ;; k" := (bindM e (fun x => k))
  (at level 61, e at next level, right associativity) : net_scope.

(** A field of the template that [str.format] fills from [params]; the [KeyError] of a missing one is what
    [_build_url] turns into [InvalidURLError]. *)
Definition format_field (params : list (string * string)) (k : string) : result string :=
  match dict_get params k with
  | Some v => Ok v
  | None => Raise InvalidURLError
  end.

(** [_build_url(url_type, params)] *)
Definition _build_url (url_type : string) (params : list (string * string)) : result string :=
  let f := format_field params in
  if String.eqb url_type "details" then
    (func <- f "func" ;; id <- f "id" ;; hl <- f "hl" ;; gl <- f "gl" ;;
     Ok ("https://play.google.com/store/apps/" +++ func +++ "?id=" +++ id +++ hl +++ gl))%R
  else if String.eqb url_type "search" then
    (func <- f "func" ;; id <- f "id" ;; hl <- f "hl" ;; gl <- f "gl" ;;
     Ok ("https://play.google.com/store/" +++ func +++ "?q=" +++ id +++ hl +++ gl +++ "&c=apps"))%R
  else if String.eqb url_type "collection" then
    (func <- f "func" ;; id <- f "id" ;; hl <- f "hl" ;; gl <- f "gl" ;;
     Ok ("https://play.google.com/store/apps/" +++ func +++ "/" +++ id +++ hl +++ gl))%R
  else if String.eqb url_type "filtered" then
    (collection <- f "collection" ;; category <- f "category" ;; hl <- f "hl" ;; gl <- f "gl" ;;
     Ok ("https://play.google.com/store/apps/" +++ collection +++ "/category/" +++ category
           +++ "?" +++ hl +++ gl))%R
  else if String.eqb url_type "ui" then
    (hl <- f "hl" ;; gl <- f "gl" ;;
     Ok ("https://play.google.com/_/PlayStoreUi/data/batchexecute?" +++ hl +++ gl))%R
  else Raise InvalidURLError.

(** [{"hl": "&hl=" + lang if lang else "", "gl": "&gl=" + country if country else ""}] *)
Definition optional_param (prefix : string) (v : option string) : string :=
  match v with
  | Some s => if String.eqb s EmptyString then EmptyString else prefix +++ s
  | None => EmptyString
  end.

Definition url_in_of (lang country : option string) : list (string * string) :=
  [("hl", optional_param "&hl=" lang); ("gl", optional_param "&gl=" country)].

Section Client.
Context `{Runtime} (net : network).

(** [_parse_response(dom)]: the loop over [SCRIPT.findall(dom)]; [json.loads]
    stands unguarded in its body. *)
Fixpoint parse_matches (matches : list string) (res : dict) : result dict :=
  match matches with
  | [] => Ok res
  | m :: rest =>
      match regex.KEY_findall m, regex.VALUE_findall m with
      | k :: _, v :: _ =>
          match json_loads (VStr v) with
          | Raise e => Raise e
          | Ok t => parse_matches rest (dict_set res k t)
          end
      | _, _ => parse_matches rest res
      end
  end.

Definition _parse_response (dom : string) : result dict :=
  parse_matches (regex.SCRIPT_findall dom) [].

(** The body of the loop of [_download_link] for a button block that holds an
    offer. *)
Definition download_of_button (i : string) : result (value * value) :=
  (download <- seq_index (regex.DOWNLOAD_findall i) 0 ;;
   download <- seq_index (split "content=" (replace ">" EmptyString download)) 1 ;;
   let link_disabled := contains " disabled>" i in
   let download := replace dquote EmptyString download in
   Ok (VStr (replace "amp;" EmptyString download), VBool (negb link_disabled)))%R.

(** [_download_link(dom)] *)
Fixpoint download_link_loop (button : list string) : result (value * value) :=
  match button with
  | [] => Ok (VNone, VNone)
  | i :: rest =>
      match regex.OFFER_findall i with
      | _ :: _ => download_of_button i
      | [] => download_link_loop rest
      end
  end.

Definition _download_link (dom : string) : result (value * value) :=
  download_link_loop (regex.BUTTON_findall dom).

(** [_request(url, proxy)]: the request is recorded, then answered. *)
Definition _request (req : request) : M string :=
  fun tr =>
    let tr' := tr ++ [req] in
    match net (List.length tr) req with
    | Body text => (Ok text, tr')
    | HTTPError code =>
        if (code =? 404)%Z then (Raise NotFoundError, tr') else (Raise (ExtraHTTPError code), tr')
    | Failed e => (Raise e, tr')
    end.

(** [_parse_app_list(apps, num)] with [detail=False], the only way the
    repository calls it: [[nested_lookup(app, [12, 0]) for idx, app in
    enumerate(apps) if not num or (num and idx < num)]]. *)
Fixpoint parse_app_list_from (idx : Z) (apps : list value) (num : option Z) : result (list value) :=
  match apps with
  | [] => Ok []
  | app :: rest =>
      let keep :=
        match num with
        | None => true
        | Some n => (n =? 0)%Z || (idx <? n)%Z
        end in
      if keep then
        match nested_lookup app [12; 0]%Z with
        | Raise e => Raise e
        | Ok id =>
            match parse_app_list_from (idx + 1)%Z rest num with
            | Raise e => Raise e
            | Ok ids => Ok (id :: ids)
            end
        end
      else parse_app_list_from (idx + 1)%Z rest num
  end.

Definition _parse_app_list (apps : value) (num : option Z) : result (list value) :=
  (items <- iter apps ;; parse_app_list_from 0%Z items num)%R.

(** The [while resp.find("PlayDataError") != -1] loop of [_get_ui_request];
    [left] is [5 - retry].  It yields the response it stopped at and whether it
    gave up ([retry == 5], the early [return resp]). *)
Fixpoint ui_retry (left : nat) (req : request) (resp : string) : M (string * bool) :=
  if contains "PlayDataError" resp then
    match left with
    | O => ret (resp, true)
    | S left' => (resp' <- _request req ;; ui_retry left' req resp')%M
    end
  else ret (resp, false).

(** [_get_ui_request(url, func, param, proxy)]: [ui_dict[func]] knows the two
    templates [token] and [permission]. *)
Definition _get_ui_request (url func : string) (param : value) : M value :=
  if String.eqb func "token" || String.eqb func "permission" then
    let req := POST url func param in
    (resp <- _request req ;;
     r <- ui_retry 5 req resp ;;
     let (resp, gave_up) := r : string * bool in
     if gave_up then ret (VStr resp)
     else
       lift (outer <- json_loads (VStr (drop 5 resp)) ;;
             inner <- nested_lookup outer [0; 2]%Z ;;
             json_loads inner)%R)%M
  else lift (Raise KeyError).

(** One turn of the [while token:] loop of [_cluster_request] up to and
    including [results = results + _parse_app_list(apps)]: the page it adds and
    the decoded response. *)
Definition cluster_page (lang country : option string) (token : value) : M (list value * value) :=
  (url <- lift (_build_url "ui" (url_in_of lang country)) ;;
   resp <- _get_ui_request url "token" token ;;
   apps <- lift (nested_lookup resp [0; 0; 0]%Z) ;;
   page <- lift (_parse_app_list apps None) ;;
   ret (page, resp))%M.

(** The [try: while token: ... except: return results] of [_cluster_request].
    The loop runs as long as the server hands out tokens, so the model takes
    [fuel]; [None] means the fuel ran out. *)
Fixpoint cluster_loop (fuel : nat) (lang country : option string)
  (results : list value) (token : value) (tr : trace) : option (list value * trace) :=
  if truthy token then
    match fuel with
    | O => None
    | S fuel' =>
        match cluster_page lang country token tr with
        | (Raise _, tr') => Some (results, tr')
        | (Ok (page, resp), tr') =>
            let results := results ++ page in
            match nested_lookup resp [0; 0; 7; 1]%Z with
            | Raise _ => Some (results, tr')
            | Ok token' => cluster_loop fuel' lang country results token' tr'
            end
        end
    end
  else Some (results, tr).

(** The part of [_cluster_request] before the [try]: the seed page, its results
    and its token. *)
Definition cluster_seed (url : string) : M (list value * value) :=
  (dom <- _request (GET url) ;;
   res <- lift (_parse_response dom) ;;
   apps <- lift (extract_content CLUSTER_apps res) ;;
   token <- lift (extract_content CLUSTER_token res) ;;
   results <- lift (_parse_app_list apps None) ;;
   ret (results, token))%M.

(** [_cluster_request(url, proxy, lang, country)] *)
Definition _cluster_request (fuel : nat) (url : string) (lang country : option string)
  (tr : trace) : option (result (list value) * trace) :=
  match cluster_seed url tr with
  | (Raise e, tr') => Some (Raise e, tr')
  | (Ok (results, token), tr') =>
      match cluster_loop fuel lang country results token tr' with
      | Some (results', tr'') => Some (Ok results', tr'')
      | None => None
      end
  end.

End Client.

End utils.

(** ** mpyscraper/api.py *)

Module api.
Import element utils.

Section Api.
Context `{Runtime} (net : network).

(** [max(res.keys(), key=lambda x: int(x.lstrip("ds:")))]: the key function
    runs on every key in dictionary order, the first largest one wins, and an
    empty dictionary raises [ValueError]. *)
Fixpoint max_key (best : string) (best_n : Z) (keys : list string) : result string :=
  match keys with
  | [] => Ok best
  | k :: rest =>
      match py_int (lstrip_chars "ds:" k) with
      | Raise e => Raise e
      | Ok n => if (n >? best_n)%Z then max_key k n rest else max_key best best_n rest
      end
  end.

Definition location_key (res : dict) : result string :=
  match dict_keys res with
  | [] => Raise ValueError
  | k :: rest => (n <- py_int (lstrip_chars "ds:" k) ;; max_key k n rest)%R
  end.

(** [for key, spec in registry.items(): result[key] = spec.extract_content(res)] *)
Fixpoint extract_fields (registry : list (string * ElementSpec)) (res : dict) (result : dict)
  : Py.result dict :=
  match registry with
  | [] => Ok result
  | (key, spec) :: rest =>
      match extract_content spec res with
      | Raise e => Raise e
      | Ok content => extract_fields rest res (dict_set result key content)
      end
  end.

(** [details(app_id, proxy, lang, country)] *)
Definition details (app_id : string) (lang country : option string) : M dict :=
  let url_in := [("func", "details"); ("id", app_id);
                 ("hl", optional_param "&hl=" lang); ("gl", optional_param "&gl=" country)] in
  (url <- lift (_build_url "details" url_in) ;;
   dom <- _request net (GET url) ;;
   res <- lift (_parse_response dom) ;;
   key <- lift (location_key res) ;;
   site <- lift (dict_getitem res key) ;;
   siteLocation <- lift (getitem site 4) ;;
   site <- lift (dict_getitem res key) ;;
   siteLanguage <- lift (getitem site 5) ;;
   let result := [("appId", VStr app_id); ("url", VStr url);
                  ("siteLocation", siteLocation); ("siteLanguage", siteLanguage)] in
   result <- lift (extract_fields DETAIL res result) ;;
   link <- lift (_download_link dom) ;;
   let result := dict_set result "downloadLink" (fst link) in
   let result := dict_set result "downloadLinkEnabled" (snd link) in
   ret result)%M.

(** [similar(app_id, proxy, lang, country)] *)
Definition similar (fuel : nat) (app_id : string) (lang country : option string) (tr : trace)
  : option (result (list value) * trace) :=
  let url_in := [("func", "details"); ("id", app_id);
                 ("hl", optional_param "&hl=" lang); ("gl", optional_param "&gl=" country)] in
  let first :=
    (url <- lift (_build_url "details" url_in) ;;
     dom <- _request net (GET url) ;;
     res <- lift (_parse_response dom) ;;
     lift (extract_content (spec 7 [1; 1; 0; 0; 3; 4; 2]%Z) res))%M in
  match first tr with
  | (Raise e, tr') => Some (Raise e, tr')
  | (Ok url, tr') =>
      if truthy url then
        match url with
        | VStr u => _cluster_request net fuel ("https://play.google.com" +++ u) lang country tr'
        | _ => Some (Raise TypeError, tr')
        end
      else Some (Ok [], tr')
  end.

(** [search(term, proxy, lang, country)] *)
Definition search (fuel : nat) (term : string) (lang country : option string) (tr : trace)
  : option (result (list value) * trace) :=
  let url_in := [("func", "search"); ("id", replace " " "+" term);
                 ("hl", optional_param "&hl=" lang); ("gl", optional_param "&gl=" country)] in
  match _build_url "search" url_in with
  | Raise e => Some (Raise e, tr)
  | Ok url => _cluster_request net fuel url lang country tr
  end.

(** The tail shared by the list functions: [return _cluster_request(url, proxy,
    lang, country)] for the URL that [_build_url] made. *)
Definition cluster_of (fuel : nat) (built : result string) (lang country : option string)
  (tr : trace) : option (result (list value) * trace) :=
  match built with
  | Raise e => Some (Raise e, tr)
  | Ok url => _cluster_request net fuel url lang country tr
  end.

(** [str.isnumeric] on the code points below 256: the ten digits, the three
    superscript digits and the three vulgar fractions; an empty text is not
    numeric. *)
Definition is_numeric_char (c : ascii) : bool :=
  let n := nat_of_ascii c in
  (((48 <=? n) && (n <=? 57)) || (n =? 178) || (n =? 179) || (n =? 185)
   || ((188 <=? n) && (n <=? 190)))%nat.

Fixpoint all_numeric (s : string) : bool :=
  match s with
  | EmptyString => true
  | String c s' => is_numeric_char c && all_numeric s'
  end.

Definition isnumeric (s : string) : bool :=
  match s with
  | EmptyString => false
  | _ => all_numeric s
  end.

(** [developer(dev_id, proxy, lang, country)] *)
Definition developer (fuel : nat) (dev_id : string) (lang country : option string) (tr : trace)
  : option (result (list value) * trace) :=
  let url_in := [("func", if isnumeric dev_id then "dev" else "developer");
                 ("id", replace " " "+" dev_id);
                 ("hl", optional_param "&hl=" lang); ("gl", optional_param "&gl=" country)] in
  cluster_of fuel (_build_url "details" url_in) lang country tr.

(** [collection(collection_name, proxy, lang, country)] *)
Definition collection (fuel : nat) (collection_name : string) (lang country : option string)
  (tr : trace) : option (result (list value) * trace) :=
  let url_in := [("func", "collection"); ("id", replace " " "+" collection_name);
                 ("hl", optional_param "&hl=" lang); ("gl", optional_param "&gl=" country)] in
  cluster_of fuel (_build_url "collection" url_in) lang country tr.

(** [category(category_name, proxy, lang, country)] *)
Definition category (fuel : nat) (category_name : string) (lang country : option string)
  (tr : trace) : option (result (list value) * trace) :=
  let url_in := [("func", "category"); ("id", category_name);
                 ("hl", optional_param "&hl=" lang); ("gl", optional_param "&gl=" country)] in
  cluster_of fuel (_build_url "collection" url_in) lang country tr.

(** [filtered_collection(category_name, collection_name, proxy, lang, country)];
    the caller passes ["top"] for the default of [collection_name]. *)
Definition filtered_collection (fuel : nat) (category_name collection_name : string)
  (lang country : option string) (tr : trace) : option (result (list value) * trace) :=
  let url_in := [("category", category_name); ("collection", collection_name);
                 ("hl", optional_param "&hl=" lang); ("gl", optional_param "&gl=" country)] in
  cluster_of fuel (_build_url "filtered" url_in) lang country tr.

(** [google_location(proxy)] of api.py *)
Definition google_location : M value :=
  (dom <- _request net (GET "https://play.google.com/store/apps") ;;
   res <- lift (_parse_response dom) ;;
   key <- lift (location_key res) ;;
   site <- lift (dict_getitem res key) ;;
   lift (getitem site 4))%M.

End Api.

End api.

(** ** gpcrawler/metadata_crawl.py *)

Module metadata_crawl.
Import element utils api.

(** What a worker puts on the [metadata] queue: the whole record
    ([--full_metadata]) or one formatted row. *)
Inductive metadata_item : Type :=
| FullRecord (metadata : dict)
| Row (line : string).

(** The three queues of [main], each as the list of what was put, oldest first. *)
Record queues : Type := mkQueues {
  q_app : list string;
  q_log : list string;
  q_metadata : list metadata_item
}.

Definition put_app (q : queues) (app : string) : queues :=
  mkQueues (q_app q ++ [app]) (q_log q) (q_metadata q).
Definition put_log (q : queues) (line : string) : queues :=
  mkQueues (q_app q) (q_log q ++ [line]) (q_metadata q).
Definition put_metadata (q : queues) (item : metadata_item) : queues :=
  mkQueues (q_app q) (q_log q) (q_metadata q ++ [item]).

Definition nl : string := String regex.newline EmptyString.

(** [metadata.pop(key)] *)
Fixpoint dict_remove (d : dict) (k : string) : dict :=
  match d with
  | [] => []
  | (k', v) :: d' => if String.eqb k k' then d' else (k', v) :: dict_remove d' k
  end.

Definition dict_pop (d : dict) (k : string) : result dict :=
  match dict_get d k with
  | Some _ => Ok (dict_remove d k)
  | None => Raise KeyError
  end.

Fixpoint pop_all (d : dict) (keys : list string) : result dict :=
  match keys with
  | [] => Ok d
  | k :: rest =>
      match dict_pop d k with
      | Raise e => Raise e
      | Ok d' => pop_all d' rest
      end
  end.

Definition remove : list string :=
  ["descriptionHTML"; "summaryHTML"; "recentChangesHTML"; "screenshots"; "icon";
   "headerImage"; "video"; "videoImage"].

Section Worker.
Context `{Runtime} (net : network).

(** The [else] branch of [try_metadata]: the dictionary [reduced_metadata] and
    the row that [metadata_str.format] makes of it. *)
Definition reduced_row (app : string) (metadata : dict) : result string :=
  (version <- dict_getitem metadata "version" ;;
   updated <- dict_getitem metadata "updated" ;;
   released <- dict_getitem metadata "released" ;;
   downloadLink <- dict_getitem metadata "downloadLink" ;;
   downloadLinkEnabled <- dict_getitem metadata "downloadLinkEnabled" ;;
   let dl := truthy downloadLink in
   let dle := truthy downloadLinkEnabled in
   if truthy released then
     Ok (app +++ "," +++ str version +++ "," +++ str updated +++ ","
           +++ dquote +++ str released +++ dquote +++ ","
           +++ str_of_bool dl +++ "," +++ str_of_bool dle +++ nl)
   else
     Ok (app +++ "," +++ str version +++ "," +++ str updated +++ "," +++ str released +++ ","
           +++ str_of_bool dl +++ "," +++ str_of_bool dle +++ nl))%R.

(** The body of the [try] of [try_metadata] after [details] returned: the
    record or the row goes on the [metadata] queue, then the log line on the
    [log] queue. *)
Definition save_metadata (save_full : bool) (app : string) (metadata : dict) (q : queues)
  : result unit * queues :=
  let saved :=
    if save_full then
      (metadata' <- pop_all metadata remove ;; Ok (FullRecord metadata', metadata'))%R
    else
      (row <- reduced_row app metadata ;; Ok (Row row, metadata))%R in
  match saved with
  | Raise e => (Raise e, q)
  | Ok (item, metadata) =>
      let q := put_metadata q item in
      match dict_getitem metadata "siteLocation" with
      | Raise e => (Raise e, q)
      | Ok siteLocation =>
          (Ok tt, put_log q (app +++ ": siteLocation " +++ str siteLocation +++ ", written" +++ nl))
      end
  end.

(** [try_metadata(app, retry)]: the two [except] clauses catch the scraper
    classes and [(ValueError, OSError)]; anything else leaves the function. *)
Definition try_metadata (save_full : bool) (app : string) (retry : bool)
  (q : queues) (tr : trace) : result bool * queues * trace :=
  let (r, tr') := details net app None None tr in
  let (attempt, q') :=
    match r with
    | Raise e => (Raise e, q)
    | Ok metadata => save_metadata save_full app metadata q
    end in
  match attempt with
  | Ok _ => (Ok true, q', tr')
  | Raise e =>
      if exceptions.is_GooglePlayScraperException e then
        if negb retry then (Ok false, q', tr')
        else (Ok true, put_log q' (app +++ ": " +++ exceptions.message e +++ nl), tr')
      else if exceptions.is_ValueError e || exceptions.is_OSError e then
        (Ok true, put_app q' app, tr')
      else (Raise e, q', tr')
  end.

(** One turn of the worker loop of [get_metadata]. *)
Definition process_app (save_full : bool) (app : string) (q : queues) (tr : trace)
  : result bool * queues * trace :=
  match try_metadata save_full app false q tr with
  | (Ok false, q', tr') => try_metadata save_full app true q' tr'
  | other => other
  end.

End Worker.

(** [read_apps(filename)] on the lines of the file. *)
Fixpoint read_apps_loop (lines : list string) (unique apps : list string) : list string :=
  match lines with
  | [] => apps
  | line :: rest =>
      let app := strip line in
      if startswith "#" app || mem_string app unique then read_apps_loop rest unique apps
      else read_apps_loop rest (app :: unique) (apps ++ [app])
  end.

Definition read_apps (lines : list string) : list string := read_apps_loop lines [] [].

End metadata_crawl.

(** ** apk-downloader/crawler.py *)

Module crawler.

Definition nl : string := String regex.newline EmptyString.

(** The dictionary [ERRORS], in the order of the source. *)
Definition ERRORS : list (string * Z) :=
  [ ("Item not found", 1%Z);
    ("Your device is not compatible with this item", 2%Z);
    ("The Play Store application on your device is outdated", 4%Z);
    ("Google Play purchases are not supported in your country", 5%Z);
    ("This item is not available on your service provider", 8%Z);
    ("Rate limit triggered", 14%Z) ].

(** [error_code = 15; for msg in ERRORS: if msg in str(e): error_code =
    ERRORS[msg]; break] *)
Fixpoint classify (errors : list (string * Z)) (e : string) : Z :=
  match errors with
  | [] => 15%Z
  | (msg, code) :: rest => if contains msg e then code else classify rest e
  end.

Definition error_code (e : string) : Z := classify ERRORS e.

(** The guard [if "configuration file" in str(e) or "credentials" in str(e)]. *)
Definition is_configuration_error (e : string) : bool :=
  contains "configuration file" e || contains "credentials" e.

(** An entry of [DOWNLOAD_QUEUE]: [(app, is_retry, previous)] with [previous]
    either [None] or [(previous_code, previous_message)]. *)
Definition item : Type := string * bool * option (Z * string).

(** The queue and the three output files of a crawl, each file as the list of
    its lines, oldest first. *)
Record state : Type := mkState {
  DOWNLOAD_QUEUE : list item;
  failure_file : list string;
  transient_file : list string;
  finished_file : list string
}.

Definition queue_put (st : state) (i : item) : state :=
  mkState (DOWNLOAD_QUEUE st ++ [i]) (failure_file st) (transient_file st) (finished_file st).
Definition set_queue (st : state) (q : list item) : state :=
  mkState q (failure_file st) (transient_file st) (finished_file st).
Definition write_failure (st : state) (line : string) : state :=
  mkState (DOWNLOAD_QUEUE st) (failure_file st ++ [line]) (transient_file st) (finished_file st).
Definition write_transient (st : state) (line : string) : state :=
  mkState (DOWNLOAD_QUEUE st) (failure_file st) (transient_file st ++ [line]) (finished_file st).
Definition write_finished (st : state) (line : string) : state :=
  mkState (DOWNLOAD_QUEUE st) (failure_file st) (transient_file st) (finished_file st ++ [line]).

(** ["{0}: {1}\n".format(app, message)] and ["{0}\n".format(app)] *)
Definition failure_line (app message : string) : string := app +++ ": " +++ message +++ nl.
Definition finished_line (app : string) : string := app +++ nl.

(** [message.split(": ")[1]] *)
Definition reason_of (message : string) : result string := seq_index (split ": " message) 1.

(** [execute(app, app_folder, failure_file, transient_file, credentials,
    is_retry, previous, proxy)].  [attempt] is what [download] did: [None] when
    it returned, [Some e] when it raised a [DownloadException] whose text is [e].
    The value is what the function returns: [True], [False], or [None] when it
    falls off its end after putting the item back on the queue.  (The removal of
    the app folder and the log calls do not touch the files below.) *)
Definition execute (app : string) (is_retry : bool) (previous : option (Z * string))
  (attempt : option string) (st : state) : result (option bool) * state :=
  match attempt with
  | None => (Ok (Some true), st)
  | Some e =>
      if is_configuration_error e then (Ok (Some false), st)
      else
        let error_code := error_code e in
        let st := if (error_code >=? 10)%Z then write_transient st (failure_line app e) else st in
        if is_retry then
          match previous with
          | None => (Raise TypeError, st)
          | Some (previous_code, previous_message) =>
              if (error_code <? 10)%Z then
                match reason_of e with
                | Raise x => (Raise x, st)
                | Ok reason => (Ok (Some true), write_failure st (failure_line app reason))
                end
              else if (previous_code <? 10)%Z then
                match reason_of previous_message with
                | Raise x => (Raise x, st)
                | Ok reason => (Ok (Some true), write_failure st (failure_line app reason))
                end
              else (Ok (Some false), st)
          end
        else (Ok None, queue_put st (app, true, Some (error_code, e)))
  end.

(** The lines that are neither blank nor comments:
    [filter(lambda line: line and line[0] != "#", [line.strip() for line in f])]. *)
Definition is_app_line (line : string) : bool :=
  match line with
  | EmptyString => false
  | String c _ => negb (Ascii.eqb c "#"%char)
  end.

Definition app_lines (lines : list string) : list string :=
  filter is_app_line (map strip lines).

(** [remove_finished_apps(apps, finished_file)]; [finished] is the content of
    the file when it exists. *)
Definition remove_finished_apps (apps : list string) (finished : option (list string))
  : list string :=
  match finished with
  | Some lines =>
      let finished := app_lines lines in
      filter (fun app => negb (mem_string app finished)) apps
  | None => apps
  end.

(** The argument [args.input_apps]: one name that is a readable file (given by
    its lines), one that raises [OSError] when opened, or the app IDs themselves. *)
Inductive input_apps : Type :=
| InputFile (lines : list string)
| UnreadableFile
| CommandLine (apps : list string).

(** [read_input_apps(apps)] *)
Definition read_input_apps (apps : input_apps) : list string :=
  match apps with
  | InputFile lines => app_lines lines
  | UnreadableFile => []
  | CommandLine apps => apps
  end.

(** [for app in apps: if app not in unique: DOWNLOAD_QUEUE.put((app, False,
    None)); unique.add(app)] *)
Fixpoint put_unique (apps : list string) (unique : list string) (queue : list item) : list item :=
  match apps with
  | [] => queue
  | app :: rest =>
      if mem_string app unique then put_unique rest unique queue
      else put_unique rest (app :: unique) (queue ++ [(app, false, None)])
  end.

(** The queue [crawl] starts from.  [shuffle] is [None] without [--random],
    and otherwise the rearrangement [random.shuffle] makes. *)
Definition initial_queue (input : input_apps) (finished : option (list string))
  (shuffle : option (list string -> list string)) : list item :=
  let apps := read_input_apps input in
  match apps with
  | [] => []
  | _ =>
      let apps := remove_finished_apps apps finished in
      let apps := match shuffle with Some f => f apps | None => apps end in
      put_unique apps [] []
  end.

(** How the [while not DOWNLOAD_QUEUE.empty()] loop of [crawl] ends: the queue
    ran empty, an exception other than [OSError] left the loop, or the model
    ran out of fuel. *)
Inductive outcome : Type :=
| Finished (st : state)
| Crashed (e : exn) (st : state)
| OutOfFuel.

(** One turn of the loop for the item taken from the queue; [attempt] is what
    [download] does this time. *)
Definition crawl_item (i : item) (attempt : option string) (st : state) : result unit * state :=
  let '(app, retry, previous) := i in
  match execute app retry previous attempt st with
  | (Ok executed, st') =>
      match executed with
      | Some true => (Ok tt, write_finished st' (finished_line app))
      | _ => (Ok tt, st')
      end
  | (Raise e, st') =>
      if exceptions.is_OSError e then (Ok tt, st') else (Raise e, st')
  end.

(** The loop of [crawl]; [download count app] is what the [count]-th call of
    [download] does. *)
Fixpoint crawl_loop (download : nat -> string -> option string) (fuel count : nat) (st : state)
  : outcome :=
  match DOWNLOAD_QUEUE st with
  | [] => Finished st
  | i :: rest =>
      match fuel with
      | O => OutOfFuel
      | S fuel' =>
          match crawl_item i (download count (fst (fst i))) (set_queue st rest) with
          | (Ok _, st') => crawl_loop download fuel' (S count) st'
          | (Raise e, st') => Crashed e st'
          end
      end
  end.

Section Location.
Context `{Runtime}.

(** The clause [except (KeyError, OSError, JSONDecodeError)] of
    [google_location]. *)
Definition is_location_failure (e : exn) : bool :=
  match e with
  | KeyError | JSONDecodeError => true
  | _ => exceptions.is_OSError e
  end.

(** [google_location(proxy)] of crawler.py, given what the network answers to
    [urlopen]: an [HTTPError] is a [URLError].  The body of the [try] parses the
    page with the patterns and the loop of [_parse_response] and picks the
    location as [details] does. *)
Definition google_location (answer : utils.response) : result value :=
  let attempt :=
    match answer with
    | utils.Body dom =>
        (res <- utils._parse_response dom ;;
         key <- api.location_key res ;;
         site <- dict_getitem res key ;;
         getitem site 4)%R
    | utils.HTTPError _ => Raise URLError
    | utils.Failed e => Raise e
    end in
  match attempt with
  | Ok location => Ok location
  | Raise e => if is_location_failure e then Ok (VStr "Error getting location") else Raise e
  end.

(** The loop of [crawl] with the probe of the site location that it makes
    before every fiftieth download, the first one included; [location count] is
    what the network answers to the probe of turn [count].  The probe stands
    outside the inner [try], so what it raises leaves the loop. *)
Fixpoint crawl_loop_probed (download : nat -> string -> option string)
  (location : nat -> utils.response) (fuel count : nat) (st : state) : outcome :=
  match DOWNLOAD_QUEUE st with
  | [] => Finished st
  | i :: rest =>
      match fuel with
      | O => OutOfFuel
      | S fuel' =>
          let probe :=
            if (count mod 50 =? 0)%nat then google_location (location count) else Ok VNone in
          match probe with
          | Raise e => Crashed e (set_queue st rest)
          | Ok _ =>
              match crawl_item i (download count (fst (fst i))) (set_queue st rest) with
              | (Ok _, st') => crawl_loop_probed download location fuel' (S count) st'
              | (Raise e, st') => Crashed e st'
              end
          end
      end
  end.

(** [crawl(args)]: the files of the output directory as it finds them
    ([finished] is [None] when there is no [finished.txt] yet), the queue made of
    the input, then the loop. *)
Definition crawl (input : input_apps) (shuffle : option (list string -> list string))
  (failure transient : list string) (finished : option (list string))
  (download : nat -> string -> option string) (location : nat -> utils.response)
  (fuel : nat) : outcome :=
  let st := mkState (initial_queue input finished shuffle) failure transient
                    (match finished with Some lines => lines | None => [] end) in
  crawl_loop_probed download location fuel 0 st.

End Location.

End crawler.

(** ** gpcrawler/top250.py *)

Module top250.
Import utils api.

(** ["\n".join(items)]: every item has to be a [str]. *)
Fixpoint strings_of (items : list value) : result (list string) :=
  match items with
  | [] => Ok []
  | VStr s :: rest =>
      match strings_of rest with
      | Ok l => Ok (s :: l)
      | Raise e => Raise e
      end
  | _ :: _ => Raise TypeError
  end.

Definition join_lines (items : list value) : result string :=
  match strings_of items with
  | Ok l => Ok (join (String regex.newline EmptyString) l)
  | Raise e => Raise e
  end.

(** How [main] ends: the output file is written; a scraper exception was
    caught and printed, and there is no file; or another exception leaves
    [main], after the file was opened for writing (and so left empty) or
    before. *)
Inductive ending : Type :=
| Written (content : string)
| Printed (e : exn)
| RaisedWithEmptyFile (e : exn)
| Raised (e : exn).

Section Main.
Context `{Runtime} (net : network).

(** [main()], after the parsing of the arguments. *)
Definition main (fuel : nat) (tr : trace) : option (ending * trace) :=
  match collection net fuel "topselling_free" None None tr with
  | None => None
  | Some (Ok top_apps, tr') =>
      match join_lines top_apps with
      | Ok content => Some (Written content, tr')
      | Raise e => Some (RaisedWithEmptyFile e, tr')
      end
  | Some (Raise e, tr') =>
      if exceptions.is_GooglePlayScraperException e then Some (Printed e, tr')
      else Some (Raised e, tr')
  end.

End Main.

End top250.

(** ** gpcrawler/generate_app_list.py

    The list [CATEGORIES] comes from [mpyscraper/constants/constant.py], which
    the functions below take as a parameter. *)

Module generate_app_list.
Import utils api.

Definition nl : string := String regex.newline EmptyString.

(** [get_from_file(filename)] on the lines of the file. *)
Definition get_from_file (lines : list string) : list string := map strip lines.

(** [apps.setdefault(category, []).append(app_id)] *)
Fixpoint setdefault_append (apps : list (string * list string)) (category app_id : string)
  : list (string * list string) :=
  match apps with
  | [] => [(category, [app_id])]
  | (c, ids) :: rest =>
      if String.eqb category c then (c, ids ++ [app_id]) :: rest
      else (c, ids) :: setdefault_append rest category app_id
  end.

(** The first loop of [organize_apps]: [app_id, category = line[9:].split(": ")]
    raises [ValueError] unless the split gives two pieces. *)
Fixpoint group_apps (lines : list string) (apps : list (string * list string))
  : result (list (string * list string)) :=
  match lines with
  | [] => Ok apps
  | line :: rest =>
      if startswith "DETAILS| " line then
        match split ": " (drop 9 line) with
        | [app_id; category] => group_apps rest (setdefault_append apps category app_id)
        | _ => Raise ValueError
        end
      else group_apps rest apps
  end.

(** The second loop of [organize_apps]: what it writes to the two files. *)
Fixpoint write_categories (CATEGORIES : list string) (apps : list (string * list string))
  : string * string :=
  match CATEGORIES with
  | [] => (EmptyString, EmptyString)
  | category :: rest =>
      let (full, summary) := write_categories rest apps in
      match dict_get apps category with
      | Some ids =>
          let header :=
            "# " +++ category +++ " " +++ str_of_Z (Z.of_nat (List.length ids)) +++ nl in
          (header +++ join nl ids +++ nl +++ full, header +++ summary)
      | None => (full, summary)
      end
  end.

(** [organize_apps(filename, full, summary)] on the lines of the log file: the
    contents of the two files it writes.  The files are opened after the first
    loop, so nothing is written when that loop raises. *)
Definition organize_apps (CATEGORIES : list string) (lines : list string)
  : result (string * string) :=
  match group_apps (get_from_file lines) [] with
  | Ok apps => Ok (write_categories CATEGORIES apps)
  | Raise e => Raise e
  end.

Section GetCategory.
Context `{Runtime} (net : network).

(** [get_category(app)]: the line it logs (the log format is the bare
    message); an exception that is no scraper exception leaves the function. *)
Definition get_category (app : string) (tr : trace) : result string * trace :=
  let (r, tr') := details net app None None tr in
  match (metadata <- r ;; dict_getitem metadata "genreId")%R with
  | Ok category => (Ok ("DETAILS| " +++ app +++ ": " +++ str category), tr')
  | Raise e =>
      if exceptions.is_GooglePlayScraperException e
      then (Ok ("DETAILS| " +++ app +++ ": error"), tr')
      else (Raise e, tr')
  end.

End GetCategory.

End generate_app_list.

(** ** A runtime for the examples

    The concrete inputs below need concrete library services.  [decode] reads
    the fragment of JSON they use (blanks, [null], [true], [false], integers,
    strings whose only escapes are those of the quote and of the backslash,
    arrays) as [json.loads] does and rejects every other text; [int_literal] reads an optional sign and decimal digits.  The
    three remaining services are never reached by the examples. *)

Module example.

Fixpoint skip_blanks (s : string) : string :=
  match s with
  | String c s' =>
      let n := nat_of_ascii c in
      if ((n =? 32) || (n =? 9) || (n =? 10) || (n =? 13))%nat then skip_blanks s' else s
  | EmptyString => EmptyString
  end.

(** The digits at the head of [s] as a number, the count of digits, the rest. *)
Fixpoint digits (acc : Z) (count : nat) (s : string) : Z * nat * string :=
  match s with
  | String c s' =>
      if regex.is_digit c
      then digits (10 * acc + Z.of_nat (nat_of_ascii c - 48))%Z (S count) s'
      else (acc, count, s)
  | EmptyString => (acc, count, s)
  end.

(** A zero followed by another digit, which JSON does not allow. *)
Definition leading_zero (s : string) : bool :=
  match s with
  | String c (String d _) => (nat_of_ascii c =? 48)%nat && regex.is_digit d
  | _ => false
  end.

(** The text of a string literal up to its closing quote; a backslash must be
    followed by a quote or a backslash, which it stands for. *)
Fixpoint literal_body (s : string) : option (string * string) :=
  match s with
  | EmptyString => None
  | String c s' =>
      let n := nat_of_ascii c in
      if (n =? 34)%nat then Some (EmptyString, s')
      else if (n =? 92)%nat then
        match s' with
        | String d s'' =>
            let m := nat_of_ascii d in
            if ((m =? 34) || (m =? 92))%nat then
              match literal_body s'' with
              | Some (b, a) => Some (String d b, a)
              | None => None
              end
            else None
        | EmptyString => None
        end
      else if (n <? 32)%nat then None
      else
        match literal_body s' with
        | Some (b, a) => Some (String c b, a)
        | None => None
        end
  end.

Fixpoint decode (fuel : nat) (s : string) : option (value * string) :=
  match fuel with
  | O => None
  | S fuel' =>
      let s := skip_blanks s in
      if prefix "null" s then Some (VNone, drop 4 s)
      else if prefix "true" s then Some (VBool true, drop 4 s)
      else if prefix "false" s then Some (VBool false, drop 5 s)
      else
        match s with
        | EmptyString => None
        | String c rest =>
            let n := nat_of_ascii c in
            if (n =? 34)%nat then
              match literal_body rest with
              | Some (b, a) => Some (VStr b, a)
              | None => None
              end
            else if (n =? 91)%nat then
              match skip_blanks rest with
              | String d rest' =>
                  if (nat_of_ascii d =? 93)%nat then Some (VList [], rest')
                  else
                    match decode_items fuel' rest with
                    | Some (l, a) => Some (VList l, a)
                    | None => None
                    end
              | EmptyString => None
              end
            else if (n =? 45)%nat then
              match digits 0 0 rest with
              | (_, O, _) => None
              | (z, _, a) => if leading_zero rest then None else Some (VInt (- z), a)
              end
            else
              match digits 0 0 s with
              | (_, O, _) => None
              | (z, _, a) => if leading_zero s then None else Some (VInt z, a)
              end
        end
  end
with decode_items (fuel : nat) (s : string) : option (list value * string) :=
  match fuel with
  | O => None
  | S fuel' =>
      match decode fuel' s with
      | None => None
      | Some (v, a) =>
          match skip_blanks a with
          | String c rest =>
              let n := nat_of_ascii c in
              if (n =? 44)%nat then
                match decode_items fuel' rest with
                | Some (l, a') => Some (v :: l, a')
                | None => None
                end
              else if (n =? 93)%nat then Some ([v], rest)
              else None
          | EmptyString => None
          end
      end
  end.

Definition json_decode (s : string) : option value :=
  match decode (S (String.length s)) s with
  | Some (v, rest) =>
      match skip_blanks rest with
      | EmptyString => Some v
      | _ => None
      end
  | None => None
  end.

Definition int_literal (s : string) : option Z :=
  match strip s with
  | String c rest =>
      if Ascii.eqb c "-"%char then
        match digits 0 0 rest with
        | (z, S _, EmptyString) => Some (- z)%Z
        | _ => None
        end
      else
        match digits 0 0 (String c rest) with
        | (z, S _, EmptyString) => Some z
        | _ => None
        end
  | EmptyString => None
  end.

Definition runtime : Runtime := {|
  Py.json_decode := json_decode;
  Py.int_of_str := int_literal;
  Py.str_compound := fun _ => EmptyString;
  Py.html_unescape := fun s => s;
  Py.int_true_div := fun _ _ => 0%float
|}.

End example.

(* ================================================================== *)
(** * Part II. Vocabulary of the statements and example inputs *)
(* ================================================================== *)

Import element utils api.

(** ** Extraction *)

(** [lookup_fails source indexes]: following [indexes] from [source] falls off
    the tree.  Either an index lies past the end of a non-empty sequence, or it
    is applied to something that cannot be indexed by position (a number other
    than zero, [True], an object), possibly after some steps that do succeed. *)
Inductive lookup_fails : value -> list Z -> Prop :=
| fails_past_end : forall source n i rest,
    truthy source = true ->
    len source = Ok n ->
    (n <= i)%Z ->
    lookup_fails source (i :: rest)
| fails_not_a_sequence : forall source i rest,
    truthy source = true ->
    len source = Raise TypeError ->
    lookup_fails source (i :: rest)
| fails_object : forall d i rest,
    d <> [] ->
    lookup_fails (VDict d) (i :: rest)
| fails_deeper : forall source i child rest,
    getitem source i = Ok child ->
    rest <> [] ->
    lookup_fails child rest ->
    lookup_fails source (i :: rest).

(** The data of the examples: a [ds:5] payload that is an empty list, and one
    whose histogram block is too short for the post-processor of [histogram]. *)
Definition empty_ds5 : dict := [("ds:5", VList [])].

Definition short_histogram : dict :=
  [("ds:6", VList [VList [VInt 0; VInt 0; VInt 0; VInt 0; VInt 0; VInt 0;
                          VList [VNone; VList [VList [VNone; VInt 4]; VList [VInt 7]]]]]);
   ("ds:8", VList [VStr "12M"; VStr "1.0"; VStr "5.0 and up"])].

(** [lookup_stops_at source indexes v]: following [indexes] from [source]
    reaches the empty or zero value [v] (an empty list or string, [0],
    [False], [None]) while indexes remain or at the very start. *)
Inductive lookup_stops_at : value -> list Z -> value -> Prop :=
| stops_here : forall source indexes,
    truthy source = false ->
    lookup_stops_at source indexes source
| stops_deeper : forall source i child rest v,
    getitem source i = Ok child ->
    rest <> [] ->
    lookup_stops_at child rest v ->
    lookup_stops_at source (i :: rest) v.

(** ** Parsing *)

(** The dataset key and the payload that the two patterns [KEY] and [VALUE]
    find in a script block, when both match. *)
Definition block_pair (m : string) : option (string * string) :=
  match regex.KEY_findall m, regex.VALUE_findall m with
  | k :: _, v :: _ => Some (k, v)
  | _, _ => None
  end.

(** A script block as the storefront writes it, for the key [k] and the
    payload [p]. *)
Definition script_block (k p : string) : string :=
  "<script>AF_initDataCallback({key: '" +++ k +++ "', isError:  false , hash: '1', data:"
    +++ p +++ ", sideChannel: {}});</script>".

(** Two blocks; the payload of the second one is not JSON. *)
Definition page_with_broken_block : string :=
  script_block "ds:5" "[1]" +++ script_block "ds:3" "{".

(** One block whose payload is cut short. *)
Definition page_cut_short : string := script_block "ds:7" "[1,".

(** The match of [SCRIPT] in [page_cut_short]. *)
Definition cut_short_match : string :=
  "AF_initDataCallback({key: 'ds:7', isError:  false , hash: '1', data:[1,, sideChannel: {}});</script".

(** [details] builds this URL. *)
Definition details_url (app_id : string) (lang country : option string) : string :=
  "https://play.google.com/store/apps/details?id=" +++ app_id
    +++ optional_param "&hl=" lang +++ optional_param "&gl=" country.

(** A network that answers every request with an empty body. *)
Definition empty_pages : network := fun _ _ => Body EmptyString.

(** ** Rows of the reduced metadata *)

(** The [released] column: quoted when the value is true, bare otherwise. *)
Definition released_field `{Runtime} (released : value) : string :=
  if truthy released then dquote +++ str released +++ dquote else str released.

(** A scraped record with a release date and an enabled-flag that is false. *)
Definition scraped_record : dict :=
  [("version", VStr "1.0"); ("updated", VInt 1602201600); ("released", VStr "Oct 9, 2012");
   ("downloadLink", VStr "https://play.google.com/store/apps/details?id=com.example.app");
   ("downloadLinkEnabled", VBool false)].

(** A record of an app that shows neither a release date nor a download link. *)
Definition bare_record : dict :=
  [("version", VNone); ("updated", VInt 1602201600); ("released", VNone);
   ("downloadLink", VNone); ("downloadLinkEnabled", VNone)].

(** ** Input lists *)

(** The elements of [l] that are not in [seen], each once, in the order of
    their first occurrence. *)
Fixpoint first_occurrences (seen l : list string) : list string :=
  match l with
  | [] => []
  | x :: l' =>
      if mem_string x seen then first_occurrences seen l'
      else x :: first_occurrences (x :: seen) l'
  end.

Definition not_comment (app : string) : bool := negb (startswith "#" app).

(** The lines of an input file: two identifiers with an empty line between. *)
Definition lines_with_blank : list string :=
  ["A" +++ crawler.nl; crawler.nl; "B" +++ crawler.nl].

(** The lines of the input list [A, B, A, C], with a comment. *)
Definition lines_with_duplicate : list string :=
  ["# apps" +++ crawler.nl; "A" +++ crawler.nl; "B" +++ crawler.nl; "A" +++ crawler.nl;
   "  C " +++ crawler.nl].

(** ** Pagination *)

Section PaginationVocabulary.
Context `{Runtime} (net : network).

(** [k] turns of the continuation loop that all succeed, from the accumulated
    [results] and the [token]: what is accumulated after them, the token they
    end with and the trace. *)
Fixpoint run_pages (k : nat) (lang country : option string)
  (results : list value) (token : value) (tr : trace) : option (list value * value * trace) :=
  match k with
  | O => Some (results, token, tr)
  | S k' =>
      if truthy token then
        match cluster_page net lang country token tr with
        | (Ok (page, resp), tr') =>
            match nested_lookup resp [0; 0; 7; 1]%Z with
            | Ok token' => run_pages k' lang country (results ++ page) token' tr'
            | Raise _ => None
            end
        | (Raise _, _) => None
        end
      else None
  end.

(** The turn of the loop for [token] raises: in building the request, in the
    fetch, in decoding the answer, in the navigation to the apps or in reading
    them (nothing was added yet), or in the navigation to the next token (the
    page was added already).  The value is what the turn added and the trace. *)
Definition failing_turn (lang country : option string) (token : value) (tr : trace)
  : option (list value * trace) :=
  match cluster_page net lang country token tr with
  | (Raise _, tr') => Some ([], tr')
  | (Ok (page, resp), tr') =>
      match nested_lookup resp [0; 0; 7; 1]%Z with
      | Raise _ => Some (page, tr')
      | Ok _ => None
      end
  end.

End PaginationVocabulary.

(** Every answer of the batch endpoint carries the retry marker. *)
Definition always_marker (net : network) : Prop :=
  forall (n : nat) (url func : string) (param : value),
    exists body, net n (POST url func param) = Body body /\
                 contains "PlayDataError" body = true.

(** The URL of the batch endpoint. *)
Definition ui_url (lang country : option string) : string :=
  "https://play.google.com/_/PlayStoreUi/data/batchexecute?"
    +++ optional_param "&hl=" lang +++ optional_param "&gl=" country.

(** A cluster page with the apps [com.a] and [com.b] and the token [TOKEN]. *)
Definition app_entry (id : string) : string :=
  "[null,null,null,null,null,null,null,null,null,null,null,null,["
    +++ dquote +++ id +++ dquote +++ "]]".

Definition seed_page : string :=
  script_block "ds:3"
    ("[[null,[[[[" +++ app_entry "com.a" +++ "," +++ app_entry "com.b"
       +++ "],null,null,null,null,null,null,[null," +++ dquote +++ "TOKEN" +++ dquote
       +++ "]]]]]]").

(** The seed page on [GET]; on every [POST] the marker, after the prefix the
    batch endpoint starts its answers with. *)
Definition marker_network : network :=
  fun _ req =>
    match req with
    | GET _ => Body seed_page
    | POST _ _ _ => Body (")]}'" +++ crawler.nl +++ "[[" +++ dquote +++ "er" +++ dquote
                            +++ ",null,null,null,null,500,null,[" +++ dquote
                            +++ "PlayDataError" +++ dquote +++ "]]]")
    end.

(** The seed page on [GET]; the batch endpoint answers 503. *)
Definition failing_network : network :=
  fun _ req =>
    match req with
    | GET _ => Body seed_page
    | POST _ _ _ => HTTPError 503
    end.

Definition search_url : string := "https://play.google.com/store/search?q=maps&c=apps".

Definition backslash : string := String (ascii_of_nat 92) EmptyString.

(** The JSON literal of a text that holds no backslash. *)
Definition json_string (s : string) : string :=
  dquote +++ replace dquote (backslash +++ dquote) s +++ dquote.

(** The answer of the batch endpoint for a page with the apps [ids] and the
    next token [token] (a JSON text: a literal, or [null] on the last page): the
    five characters that [_get_ui_request] cuts off, then an envelope whose
    third field holds the page as a JSON text. *)
Definition batch_page (ids : list string) (token : string) : string :=
  "[[[[" +++ join "," (map app_entry ids)
    +++ "],null,null,null,null,null,null,[null," +++ token +++ "]]]]".

Definition batch_answer (ids : list string) (token : string) : string :=
  ")]}'" +++ crawler.nl +++ "[[" +++ json_string "wrb.fr" +++ "," +++ json_string "qnKhOb"
    +++ "," +++ json_string (batch_page ids token) +++ "]]".

(** The seed page, then a page with [com.c] and the token [T2], then a last
    page with [com.d] and no token. *)
Definition three_pages : network :=
  fun n req =>
    match req with
    | GET _ => Body seed_page
    | POST _ _ _ =>
        match n with
        | 1%nat => Body (batch_answer ["com.c"] (json_string "T2"))
        | 2%nat => Body (batch_answer ["com.d"] "null")
        | _ => HTTPError 503
        end
    end.

(** The seed page, then a page with [com.c] and the token [T2], then the
    connection breaks. *)
Definition connection_lost : network :=
  fun n req =>
    match req with
    | GET _ => Body seed_page
    | POST _ _ _ =>
        match n with
        | 1%nat => Body (batch_answer ["com.c"] (json_string "T2"))
        | _ => Failed URLError
        end
    end.

(** ** The download crawl *)

Import crawler.

(** What one turn of the crawl loop does to the two files for the app it took
    from the queue: the app is written to the resumable log alone, to the
    failure file and the resumable log, or to neither. *)
Inductive item_outcome (app : string) (st st' : state) : Prop :=
| outcome_downloaded :
    failure_file st' = failure_file st ->
    finished_file st' = finished_file st ++ [finished_line app] ->
    item_outcome app st st'
| outcome_failure_recorded : forall reason,
    failure_file st' = failure_file st ++ [failure_line app reason] ->
    finished_file st' = finished_file st ++ [finished_line app] ->
    item_outcome app st st'
| outcome_neither :
    failure_file st' = failure_file st ->
    finished_file st' = finished_file st ->
    item_outcome app st st'.

(** Every line of the failure file names an app that the resumable log lists. *)
Definition failures_are_finished (st : state) : Prop :=
  forall line, In line (failure_file st) ->
    exists app reason, line = failure_line app reason /\ In (finished_line app) (finished_file st).

(** The turns the queue can still take: two for a first attempt, one for a
    retry. *)
Fixpoint work (queue : list item) : nat :=
  match queue with
  | [] => 0
  | (_, retry, _) :: rest => (if retry then 1 else 2) + work rest
  end.

Definition fresh (queue : list item) : state := mkState queue [] [] [].

(** The first call of [download] meets a server error, the second one the
    verdict of the store. *)
Definition transient_then_not_found : nat -> string -> option string :=
  fun count app =>
    match count with
    | O => Some ("Error for app '" +++ app +++ "': Server error")
    | _ => Some ("Error for app '" +++ app +++ "': Item not found")
    end.

(** The first app downloads; the second one is refused twice by a network
    failure. *)
Definition success_then_timeouts : nat -> string -> option string :=
  fun count app =>
    match count with
    | O => None
    | _ => Some ("Error for app '" +++ app +++ "': Connection timed out")
    end.

(** ** More vocabulary: navigation, URLs, budgets *)

(** Plain chained indexing [source[i0][i1]...]. *)
Fixpoint descend (source : value) (indexes : list Z) : result value :=
  match indexes with
  | [] => Ok source
  | i :: rest =>
      match getitem source i with
      | Ok child => descend child rest
      | Raise e => Raise e
      end
  end.

(** The example of the docstring of [nested_lookup]. *)
Definition docstring_source : value :=
  VList [VStr "DEVELOPER";
         VList [VNone; VNone; VNone; VNone; VList [VNone; VNone; VStr "DEVELOPER_URL"]];
         VBool true].

(** The fields a template of [_build_url] reads. *)
Definition required_fields (url_type : string) : list string :=
  if String.eqb url_type "details" then ["func"; "id"; "hl"; "gl"]
  else if String.eqb url_type "search" then ["func"; "id"; "hl"; "gl"]
  else if String.eqb url_type "collection" then ["func"; "id"; "hl"; "gl"]
  else if String.eqb url_type "filtered" then ["collection"; "category"; "hl"; "gl"]
  else if String.eqb url_type "ui" then ["hl"; "gl"]
  else [].

Definition url_types : list string := ["details"; "search"; "collection"; "filtered"; "ui"].

(** The exception [_request] makes of an HTTP status. *)
Definition http_exn (code : Z) : exn :=
  if (code =? 404)%Z then NotFoundError else ExtraHTTPError code.

(** The lookup [_parse_app_list] makes for each app. *)
Definition app_id_of (app : value) : result value := nested_lookup app [12; 0]%Z.

(** Three apps, the last of which is no list (its lookup raises). *)
Definition apps_with_broken_tail : value :=
  VList [VList [VInt 0; VInt 0; VInt 0; VInt 0; VInt 0; VInt 0; VInt 0; VInt 0; VInt 0;
                VInt 0; VInt 0; VInt 0; VList [VStr "com.a"]];
         VList [VInt 0; VInt 0; VInt 0; VInt 0; VInt 0; VInt 0; VInt 0; VInt 0; VInt 0;
                VInt 0; VInt 0; VInt 0; VList [VStr "com.b"]];
         VInt 7].

(** ** Records of [details] *)

(** What [details] makes of the page it fetched from [url]. *)
Definition details_of_page `{Runtime} (app_id url dom : string) : result dict :=
  (res <- _parse_response dom ;;
   key <- location_key res ;;
   site <- dict_getitem res key ;;
   siteLocation <- getitem site 4 ;;
   site <- dict_getitem res key ;;
   siteLanguage <- getitem site 5 ;;
   result <- extract_fields DETAIL res
               [("appId", VStr app_id); ("url", VStr url);
                ("siteLocation", siteLocation); ("siteLanguage", siteLanguage)] ;;
   link <- _download_link dom ;;
   Ok (dict_set (dict_set result "downloadLink" (fst link))
                "downloadLinkEnabled" (snd link)))%R.

(** The keys after [d[k] = v]. *)
Definition add_key (keys : list string) (k : string) : list string :=
  if mem_string k keys then keys else keys ++ [k].

(** The keys after [d.pop(k)]: the first occurrence of [k] goes. *)
Fixpoint remove_key (keys : list string) (k : string) : list string :=
  match keys with
  | [] => []
  | k' :: rest => if String.eqb k k' then rest else k' :: remove_key rest k
  end.

(** The keys after the pops of [ks] in turn, when each key is there. *)
Fixpoint pop_keys (keys : list string) (ks : list string) : option (list string) :=
  match ks with
  | [] => Some keys
  | k :: rest => if mem_string k keys then pop_keys (remove_key keys k) rest else None
  end.

(** The fields of a record of [details], in order. *)
Definition record_keys : list string :=
  ["appId"; "url"; "siteLocation"; "siteLanguage"; "title"; "description";
   "descriptionHTML"; "summary"; "summaryHTML"; "installs"; "numInstalls"; "minInstalls";
   "score"; "ratings"; "reviews"; "histogram"; "price"; "free"; "currency"; "offersIAP";
   "size"; "androidVersion"; "androidVersionText"; "developer"; "developerId";
   "developerEmail"; "developerWebsite"; "developerAddress"; "privacyPolicy";
   "developerInternalID"; "genre"; "genreId"; "icon"; "headerImage"; "screenshots";
   "video"; "videoImage"; "contentRating"; "contentRatingDescription"; "adSupported";
   "containsAds"; "released"; "updated"; "version"; "recentChanges"; "recentChangesHTML";
   "comments"; "similarURL"; "downloadLink"; "downloadLinkEnabled"].

(** The column headers of the full metadata that the docstring of
    metadata_crawl.py lists. *)
Definition documented_columns : list string :=
  ["appId"; "url"; "siteLocation"; "siteLanguage"; "title"; "description";
   "summary"; "installs"; "numInstalls"; "minInstalls"; "score"; "ratings";
   "reviews"; "histogram"; "price"; "free"; "currency"; "offersIAP"; "size";
   "androidVersion"; "androidVersionText"; "developer"; "developerId";
   "developerEmail"; "developerWebsite"; "developerAddress"; "privacyPolicy";
   "developerInternalID"; "genre"; "genreId"; "contentRating";
   "contentRatingDescription"; "adSupported"; "containsAds";
   "released"; "updated"; "version"; "recentChanges"; "comments";
   "similarURL"; "downloadLink"; "downloadLinkEnabled"].

(** A page with one dataset, which holds the location and the language. *)
Definition location_page : string :=
  script_block "ds:1"
    ("[0,1,2,3," +++ dquote +++ "US" +++ dquote +++ "," +++ dquote +++ "en" +++ dquote +++ "]").

Definition location_pages : network := fun _ _ => Body location_page.

(** A network that answers 404 first and 503 from then on. *)
Definition not_found_then_unavailable : network :=
  fun n _ => match n with O => HTTPError 404 | _ => HTTPError 503 end.

(** The record that [details] makes of [location_page]. *)
Definition location_record : dict :=
  Eval vm_compute in
    match fst (@details example.runtime location_pages "com.a" None None []) with
    | Ok metadata => metadata
    | Raise _ => []
    end.

(** The exceptions that no handler of [try_metadata] catches. *)
Definition uncaught (e : exn) : bool :=
  negb (exceptions.is_GooglePlayScraperException e)
  && negb (exceptions.is_ValueError e) && negb (exceptions.is_OSError e).

(** What [_cluster_request] makes of its first page, before the loop. *)
Definition seed_of_page `{Runtime} (dom : string) : result (list value * value) :=
  (res <- _parse_response dom ;;
   apps <- extract_content CLUSTER_apps res ;;
   token <- extract_content CLUSTER_token res ;;
   results <- _parse_app_list apps None ;;
   Ok (results, token))%R.

(** A network that answers every request with the status 404. *)
Definition all_not_found : network := fun _ _ => HTTPError 404.

(** ** The download crawler: resuming and the probe of the location *)

(** Every character of the text satisfies [p]. *)
Fixpoint all_chars (p : ascii -> bool) (s : string) : bool :=
  match s with
  | EmptyString => true
  | String c s' => p c && all_chars p s'
  end.

(** The apps of a queue, in order. *)
Definition queued_apps (queue : list crawler.item) : list string :=
  map (fun i : crawler.item => fst (fst i)) queue.

(** The answer of the store is a page without any dataset. *)
Definition blank_answer : nat -> utils.response := fun _ => utils.Body EmptyString.

(** ** The scripts that call the list functions *)

(** The page that [top250.py] asks for. *)
Definition top_url : string :=
  "https://play.google.com/store/apps/collection/topselling_free".

(** The entries that are no [str]. *)
Definition is_text (v : value) : bool :=
  match v with VStr _ => true | _ => false end.

(** The line that [get_category] logs for an app and the text of its
    category. *)
Definition details_line (entry : string * string) : string :=
  "DETAILS| " +++ fst entry +++ ": " +++ snd entry.

(** The apps logged with a category, in the order of the log. *)
Definition apps_of (category : string) (entries : list (string * string)) : list string :=
  map fst (filter (fun entry => String.eqb (snd entry) category) entries).

(** Two apps of one category and one app whose page was not found. *)
Definition logged_entries : list (string * string) :=
  [("com.a", "TOOLS"); ("com.b", "error"); ("com.c", "TOOLS")].

(** ** The shapes of the fields of a record *)

Definition none_or_bool (v : value) : bool :=
  match v with VNone | VBool _ => true | _ => false end.

Definition none_or_text (v : value) : bool :=
  match v with VNone | VStr _ => true | _ => false end.

Definition none_or_list (v : value) : bool :=
  match v with VNone | VList _ => true | _ => false end.

Definition none_or_int (v : value) : bool :=
  match v with VNone | VInt _ => true | _ => false end.

(** [None], a float, or the integer [0] that [or 0] puts in place of [0.0]. *)
Definition none_or_amount (v : value) : bool :=
  match v with VNone | VFloat _ => true | VInt z => (z =? 0)%Z | _ => false end.

(** [None] or a list of five entries. *)
Definition none_or_five (v : value) : bool :=
  match v with
  | VNone => true
  | VList l => (List.length l =? 5)%nat
  | _ => false
  end.

(** The fields of a record with a post-processor, and the link of the download
    button, each with the shape of its value. *)
Definition field_shapes : list (string * (value -> bool)) :=
  [("description", none_or_text); ("summary", none_or_text);
   ("minInstalls", none_or_int); ("histogram", none_or_five);
   ("price", none_or_amount); ("free", none_or_bool); ("offersIAP", none_or_bool);
   ("androidVersion", none_or_text); ("developerId", none_or_text);
   ("screenshots", none_or_list); ("adSupported", none_or_bool);
   ("containsAds", none_or_bool); ("recentChanges", none_or_text);
   ("comments", none_or_list);
   ("downloadLink", none_or_text); ("downloadLinkEnabled", none_or_bool)].

(** ** Pages with a download button *)

(** The tag that [DOWNLOAD] matches, for a link. *)
Definition meta_tag (url : string) : string :=
  "<meta itemprop=" +++ dquote +++ "url" +++ dquote +++ " content="
    +++ dquote +++ url +++ dquote +++ ">".

(** A button block with an offer for the link. *)
Definition offer_button (url : string) : string :=
  "<button class=buy><span itemprop=" +++ dquote +++ "offers" +++ dquote +++ "> "
    +++ meta_tag url +++ " </span>Install</button>".

Definition first_offer : string :=
  "https://play.google.com/store/apps/details?id=com.a&amp;rdid=com.a".

Definition second_offer : string := "https://play.google.com/store/apps/details?id=com.b".

(** A button without an offer, then two buttons with one. *)
Definition offer_page : string :=
  "<html><button>Share</button>" +++ offer_button first_offer
    +++ offer_button second_offer +++ "</html>".

(** A request to the batch endpoint. *)
Definition is_batch_request (req : request) : Prop :=
  match req with
  | POST _ _ _ => True
  | GET _ => False
  end.

(* ================================================================== *)
(** * Part III. Properties *)
(* ================================================================== *)

(** ** The extraction engine (element.py) *)

Section Extraction.

Lemma seq_index_raises : forall (A : Type) (l : list A) (i : Z) (e : exn),
  seq_index l i = Raise e -> e = IndexError.
Proof.
  intros A l i e. unfold seq_index.
  destruct ((0 <=? _) && _)%Z; [destruct (nth_error _ _)|]; congruence.
Qed.

Lemma getitem_raises : forall (source : value) (i : Z) (e : exn),
  getitem source i = Raise e -> is_lookup_failure e = true.
Proof.
  intros source i e Hget.
  destruct source; simpl in Hget;
    try (apply seq_index_raises in Hget; subst e; reflexivity);
    inversion Hget; reflexivity.
Qed.

Lemma len_raises : forall (source : value) (e : exn),
  len source = Raise e -> e = TypeError.
Proof.
  intros source e Hlen. destruct source; simpl in Hlen; congruence.
Qed.

(** The unfolding of [nested_lookup] on a path of two or more indexes. *)
Lemma nested_lookup_step : forall (source : value) (i j : Z) (rest : list Z),
  nested_lookup source (i :: j :: rest) =
  if negb (truthy source) then Ok source
  else
    match len source with
    | Raise e => Raise e
    | Ok n =>
        if (i >=? n)%Z then Ok VNone
        else
          match getitem source i with
          | Raise e => Raise e
          | Ok v => nested_lookup v (j :: rest)
          end
    end.
Proof. reflexivity. Qed.

Lemma nested_lookup_last : forall (source : value) (i : Z),
  nested_lookup source [i] = if negb (truthy source) then Ok source else getitem source i.
Proof. reflexivity. Qed.

(** [nested_lookup] raises nothing but the three classes that
    [extract_content] catches. *)
Lemma nested_lookup_raises : forall (indexes : list Z) (source : value) (e : exn),
  nested_lookup source indexes = Raise e -> is_lookup_failure e = true.
Proof.
  induction indexes as [|i rest IH]; intros source e Hraise.
  - simpl in Hraise. destruct (truthy source); simpl in Hraise; inversion Hraise; reflexivity.
  - destruct rest as [|j rest].
    + rewrite nested_lookup_last in Hraise.
      destruct (truthy source); cbn [negb] in Hraise; [|discriminate].
      eapply getitem_raises; eassumption.
    + rewrite nested_lookup_step in Hraise.
      destruct (truthy source); cbn [negb] in Hraise; [|discriminate].
      destruct (len source) as [n|e'] eqn:Hlen.
      * destruct (i >=? n)%Z; [discriminate|].
        destruct (getitem source i) as [v|e'] eqn:Hget.
        -- eapply IH; eassumption.
        -- inversion Hraise; subst e'. eapply getitem_raises; eassumption.
      * inversion Hraise; subst e'. apply len_raises in Hlen. subst e. reflexivity.
Qed.

Lemma raw_content_raises : forall (self : ElementSpec) (source : dict) (e : exn),
  raw_content self source = Raise e -> is_lookup_failure e = true.
Proof.
  intros self source e. unfold raw_content, dict_getitem.
  destruct (dict_get source (dataset_key self)) as [raw|]; simpl.
  - apply nested_lookup_raises.
  - intros Hraise; inversion Hraise; reflexivity.
Qed.

(** What [extract_content] returns, in terms of the raw lookup. *)
Lemma extract_content_of_raw : forall (self : ElementSpec) (source : dict),
  extract_content self source =
  match raw_content self source with
  | Raise _ => Ok VNone
  | Ok raw =>
      match is_None raw, post_processor self with
      | false, Some f =>
          match f raw with
          | Ok v => Ok v
          | Raise _ => Ok (post_processor_except_fallback self)
          end
      | _, _ => Ok raw
      end
  end.
Proof.
  intros self source. unfold extract_content.
  destruct (raw_content self source) as [raw|e] eqn:Hraw; simpl.
  - reflexivity.
  - rewrite (raw_content_raises _ _ _ Hraw). reflexivity.
Qed.

Lemma extract_content_never_raises : forall (self : ElementSpec) (source : dict),
  exists v, extract_content self source = Ok v.
Proof.
  intros self source. rewrite extract_content_of_raw.
  destruct (raw_content self source) as [raw|e]; [|eauto].
  destruct (is_None raw); [eauto|].
  destruct (post_processor self) as [f|]; [|eauto].
  destruct (f raw); eauto.
Qed.

Lemma getitem_ok_in_range : forall (source child : value) (i : Z),
  getitem source i = Ok child ->
  truthy source = true /\ exists n, len source = Ok n /\ (i < n)%Z.
Proof.
  intros source child i Hget.
  assert (Hseq : forall (l : list value), seq_index l i = Ok child ->
                   l <> [] /\ (i < Z.of_nat (List.length l))%Z).
  { intros l. unfold seq_index. cbv zeta.
    destruct ((0 <=? _) && _)%Z eqn:Hin; [|discriminate].
    intros _. apply andb_prop in Hin. destruct Hin as [Hlo Hhi].
    apply Z.leb_le in Hlo. apply Z.ltb_lt in Hhi.
    destruct (i <? 0)%Z eqn:Hneg.
    - apply Z.ltb_lt in Hneg. split; [intros ->; simpl in *; lia | lia].
    - split; [intros ->; simpl in *; lia | lia]. }
  destruct source; simpl in Hget; try discriminate.
  - apply Hseq in Hget. destruct Hget as [Hne Hlt].
    split.
    + destruct s; [exfalso; apply Hne; reflexivity | reflexivity].
    + exists (Z.of_nat (String.length s)). split; [reflexivity|].
      unfold chars in Hlt. rewrite length_map in Hlt.
      replace (String.length s) with (List.length (list_ascii_of_string s)); [exact Hlt|].
      clear. induction s; simpl; congruence.
  - apply Hseq in Hget. destruct Hget as [Hne Hlt].
    split.
    + destruct l; [exfalso; apply Hne; reflexivity | reflexivity].
    + eexists; split; [reflexivity | exact Hlt].
Qed.

(** A lookup that falls off the tree yields [None] or one of the caught
    exceptions. *)
Lemma lookup_fails_result : forall (source : value) (indexes : list Z),
  lookup_fails source indexes ->
  nested_lookup source indexes = Ok VNone \/
  exists e, nested_lookup source indexes = Raise e.
Proof.
  intros source indexes Hfails.
  induction Hfails as [source n i rest Htruthy Hlen Hle
                      | source i rest Htruthy Hlen
                      | d i rest Hne
                      | source i child rest Hget Hrest _ IH].
  - destruct rest as [|j rest].
    + rewrite nested_lookup_last, Htruthy. cbn [negb].
      destruct (getitem source i) as [child|e] eqn:Hget; [|eauto].
      apply getitem_ok_in_range in Hget. destruct Hget as [_ [n' [Hlen' Hlt]]].
      rewrite Hlen in Hlen'. inversion Hlen'; subst n'. lia.
    + rewrite nested_lookup_step, Htruthy, Hlen. cbn [negb].
      replace (i >=? n)%Z with true; [left; reflexivity|].
      symmetry. apply Z.geb_le. exact Hle.
  - destruct rest as [|j rest].
    + rewrite nested_lookup_last, Htruthy. cbn [negb].
      destruct (getitem source i) as [child|e] eqn:Hget; [|eauto].
      apply getitem_ok_in_range in Hget. destruct Hget as [_ [n' [Hlen' _]]].
      congruence.
    + rewrite nested_lookup_step, Htruthy, Hlen. cbn [negb]. eauto.
  - assert (Htruthy : truthy (VDict d) = true) by (destruct d; [contradiction | reflexivity]).
    destruct rest as [|j rest].
    + rewrite nested_lookup_last, Htruthy. cbn [negb getitem]. eauto.
    + rewrite nested_lookup_step, Htruthy. cbn [negb len getitem].
      destruct (i >=? _)%Z; eauto.
  - destruct rest as [|j rest]; [contradiction Hrest; reflexivity|].
    destruct (getitem_ok_in_range _ _ _ Hget) as [Htruthy [n [Hlen Hlt]]].
    rewrite nested_lookup_step, Htruthy, Hlen, Hget. cbn [negb].
    destruct (i >=? n)%Z eqn:Hge; [apply Z.geb_le in Hge; lia | exact IH].
Qed.

Lemma lookup_stops_at_result : forall (source : value) (indexes : list Z) (v : value),
  lookup_stops_at source indexes v -> nested_lookup source indexes = Ok v.
Proof.
  intros source indexes v Hstops.
  induction Hstops as [source indexes Hfalsy | source i child rest v Hget Hrest _ IH].
  - destruct indexes as [|i [|j rest]]; simpl; rewrite Hfalsy; reflexivity.
  - destruct rest as [|j rest]; [contradiction Hrest; reflexivity|].
    destruct (getitem_ok_in_range _ _ _ Hget) as [Htruthy [n [Hlen Hlt]]].
    rewrite nested_lookup_step, Htruthy, Hlen, Hget. cbn [negb].
    destruct (i >=? n)%Z eqn:Hge; [apply Z.geb_le in Hge; lia | exact IH].
Qed.

(** C4 (amended).  [extract_content] never raises, whatever the specification,
    its post-processor and the dataset map.  It returns [None] when the dataset
    key is missing from the map and when the index path falls off the tree: past
    the end of a non-empty sequence, or into a non-zero number, [True] or an
    object.  When the path meets an empty or zero value first, the raw lookup
    yields that value itself, and a specification without post-processor
    returns it. *)
Theorem extract_content_total : forall (self : ElementSpec) (source : dict),
  (exists v, extract_content self source = Ok v) /\
  (dict_get source (dataset_key self) = None ->
   extract_content self source = Ok VNone) /\
  (forall raw,
     dict_get source (dataset_key self) = Some raw ->
     lookup_fails raw (extraction_map self) ->
     extract_content self source = Ok VNone) /\
  (forall raw v,
     dict_get source (dataset_key self) = Some raw ->
     lookup_stops_at raw (extraction_map self) v ->
     raw_content self source = Ok v /\
     (post_processor self = None -> extract_content self source = Ok v)).
Proof.
  intros self source. split; [apply extract_content_never_raises|].
  split; [|split].
  - intros Hmissing. rewrite extract_content_of_raw.
    unfold raw_content, dict_getitem. rewrite Hmissing. reflexivity.
  - intros raw Hraw Hfails. rewrite extract_content_of_raw.
    unfold raw_content, dict_getitem. rewrite Hraw. cbn [bind].
    destruct (lookup_fails_result _ _ Hfails) as [Hnone | [e Hraise]].
    + rewrite Hnone. reflexivity.
    + rewrite Hraise. reflexivity.
  - intros raw v Hraw Hstops.
    assert (Hcontent : raw_content self source = Ok v).
    { unfold raw_content, dict_getitem. rewrite Hraw. cbn [bind].
      apply lookup_stops_at_result. exact Hstops. }
    split; [exact Hcontent|].
    intros Hpost. rewrite extract_content_of_raw, Hcontent, Hpost.
    destruct (is_None v); reflexivity.
Qed.

(** C4, an instance: the path [0, 0, 0] into [[7]] reaches the number [7] and
    then indexes it; the extraction returns [None]. *)
Lemma extract_content_total_witness :
  lookup_fails (VList [VInt 7]) [0; 0; 0]%Z /\
  extract_content (spec 5 [0; 0; 0]%Z) [("ds:5", VList [VInt 7])] = Ok VNone.
Proof.
  assert (Hfails : lookup_fails (VList [VInt 7]) [0; 0; 0]%Z).
  { apply fails_deeper with (child := VInt 7); [reflexivity | discriminate |].
    apply fails_not_a_sequence; reflexivity. }
  split; [exact Hfails|].
  exact (proj1 (proj2 (proj2
           (extract_content_total (spec 5 [0; 0; 0]%Z) [("ds:5", VList [VInt 7])])))
           (VList [VInt 7]) eq_refl Hfails).
Defined.

(** C4 as stated fails: index [0] lies past the end of the empty sequence that
    [ds:5] holds, and the specification of [title] returns that empty sequence,
    which is not [None]. *)
Lemma extract_content_empty_sequence :
  getitem (VList []) 0 = Raise IndexError /\
  extract_content (spec 5 [0; 0; 0]%Z) empty_ds5 = Ok (VList []) /\
  VList [] <> VNone.
Proof.
  split; [reflexivity|]. split; [reflexivity | discriminate].
Qed.

Lemma dict_get_set_same : forall (A : Type) (d : list (string * A)) (k : string) (v : A),
  dict_get (dict_set d k v) k = Some v.
Proof.
  intros A d k v. induction d as [|[k' v'] d IH]; simpl.
  - rewrite String.eqb_refl. reflexivity.
  - destruct (String.eqb k k') eqn:Heq; simpl; rewrite Heq; [reflexivity | exact IH].
Qed.

Lemma dict_get_set_other : forall (A : Type) (d : list (string * A)) (k k' : string) (v : A),
  k' <> k -> dict_get (dict_set d k v) k' = dict_get d k'.
Proof.
  intros A d k k' v Hneq. induction d as [|[k0 v0] d IH]; simpl.
  - destruct (String.eqb k' k) eqn:Heq; [apply String.eqb_eq in Heq; contradiction | reflexivity].
  - destruct (String.eqb k k0) eqn:Heq; simpl.
    + apply String.eqb_eq in Heq. subst k0.
      destruct (String.eqb k' k) eqn:Heq'; [apply String.eqb_eq in Heq'; contradiction | reflexivity].
    + rewrite IH. reflexivity.
Qed.

Lemma extract_fields_app : forall (l1 l2 : list (string * ElementSpec)) (source result : dict),
  extract_fields (l1 ++ l2) source result =
  match extract_fields l1 source result with
  | Ok r1 => extract_fields l2 source r1
  | Raise e => Raise e
  end.
Proof.
  induction l1 as [|[key spec] l1 IH]; intros l2 source result; simpl.
  - reflexivity.
  - destruct (extract_content spec source); [apply IH | reflexivity].
Qed.

(** The loop over a registry never raises. *)
Lemma extract_fields_total : forall (registry : list (string * ElementSpec)) (source result : dict),
  exists r, extract_fields registry source result = Ok r.
Proof.
  induction registry as [|[key spec] registry IH]; intros source result; simpl.
  - eauto.
  - destruct (extract_content_never_raises spec source) as [v Hv]. rewrite Hv. apply IH.
Qed.

(** Records that agree on a field before a loop over a registry agree on it
    after. *)
Lemma extract_fields_agree :
  forall (registry : list (string * ElementSpec)) (source r1 r2 r1' r2' : dict) (k : string),
    dict_get r1 k = dict_get r2 k ->
    extract_fields registry source r1 = Ok r1' ->
    extract_fields registry source r2 = Ok r2' ->
    dict_get r1' k = dict_get r2' k.
Proof.
  induction registry as [|[key spec] registry IH]; intros source r1 r2 r1' r2' k Hagree; simpl.
  - intros H1 H2. inversion H1; inversion H2; subst. exact Hagree.
  - destruct (extract_content spec source) as [content|e]; [|discriminate].
    apply IH.
    destruct (string_dec k key) as [->|Hneq].
    + rewrite !dict_get_set_same. reflexivity.
    + rewrite !dict_get_set_other by exact Hneq. exact Hagree.
Qed.

(** C7.  When the raw value of a specification is found and its post-processor
    raises, [extract_content] returns the declared fallback (which is [None]
    when none was declared) and raises nothing.  The loop that builds a record
    goes on: it stores the fallback under the field and extracts the later
    fields as usual, and every other field of the record is what it is with any
    other specification in the place of this one. *)
Theorem post_processor_failure_yields_fallback :
  forall (self : ElementSpec) (source : dict) (f : value -> result value) (raw : value) (e : exn),
    post_processor self = Some f ->
    raw_content self source = Ok raw ->
    raw <> VNone ->
    f raw = Raise e ->
    extract_content self source = Ok (post_processor_except_fallback self) /\
    forall (before after : list (string * ElementSpec)) (key : string) (result : dict),
      (exists r1 r,
         extract_fields before source result = Ok r1 /\
         extract_fields after source (dict_set r1 key (post_processor_except_fallback self)) = Ok r /\
         extract_fields (before ++ (key, self) :: after) source result = Ok r) /\
      (forall (other : ElementSpec) (r r' : dict) (key' : string),
         key' <> key ->
         extract_fields (before ++ (key, self) :: after) source result = Ok r ->
         extract_fields (before ++ (key, other) :: after) source result = Ok r' ->
         dict_get r key' = dict_get r' key').
Proof.
  intros self source f raw e Hpost Hraw Hfound Hraise.
  assert (Hfallback : extract_content self source = Ok (post_processor_except_fallback self)).
  { rewrite extract_content_of_raw, Hraw, Hpost, Hraise.
    destruct raw; try reflexivity. contradiction Hfound; reflexivity. }
  split; [exact Hfallback|].
  intros before after key result. split.
  - destruct (extract_fields_total before source result) as [r1 Hr1].
    destruct (extract_fields_total after source
                (dict_set r1 key (post_processor_except_fallback self))) as [r Hr].
    exists r1, r. split; [exact Hr1|]. split; [exact Hr|].
    rewrite extract_fields_app, Hr1. simpl. rewrite Hfallback. exact Hr.
  - intros other r r' key' Hneq.
    rewrite !extract_fields_app.
    destruct (extract_fields before source result) as [r1|e1]; [|discriminate].
    simpl. rewrite Hfallback.
    destruct (extract_content other source) as [content|e2]; [|discriminate].
    apply extract_fields_agree.
    rewrite !dict_get_set_other by exact Hneq. reflexivity.
Qed.

(** C7, an instance: the histogram block of [short_histogram] is found but has
    two rows where the post-processor reads five, so [histogram] gets its
    fallback [[0, 0, 0, 0, 0]], and [version], extracted next, is ["1.0"]. *)
Lemma post_processor_failure_witness :
  raw_content (spec_with 6 [0; 6; 1]%Z histogram_post zeros5) short_histogram
    = Ok (VList [VList [VNone; VInt 4]; VList [VInt 7]]) /\
  histogram_post (VList [VList [VNone; VInt 4]; VList [VInt 7]]) = Raise IndexError /\
  extract_content (spec_with 6 [0; 6; 1]%Z histogram_post zeros5) short_histogram = Ok zeros5 /\
  extract_fields [("histogram", spec_with 6 [0; 6; 1]%Z histogram_post zeros5);
                  ("version", spec 8 [1]%Z)] short_histogram []
    = Ok [("histogram", zeros5); ("version", VStr "1.0")].
Proof.
  split; [reflexivity|]. split; [reflexivity|].
  pose proof (post_processor_failure_yields_fallback
                (spec_with 6 [0; 6; 1]%Z histogram_post zeros5) short_histogram
                histogram_post (VList [VList [VNone; VInt 4]; VList [VInt 7]]) IndexError
                eq_refl eq_refl ltac:(discriminate) eq_refl) as [Hfallback _].
  split; [exact Hfallback | reflexivity].
Defined.

End Extraction.

(** ** The response parser (utils.py) and [details] (api.py) *)

Section Parser.
Context {rt : Runtime}.

Lemma parse_matches_cons : forall (m : string) (rest : list string) (res : dict),
  parse_matches (m :: rest) res =
  match block_pair m with
  | Some (k, p) =>
      match json_decode p with
      | Some t => parse_matches rest (dict_set res k t)
      | None => Raise JSONDecodeError
      end
  | None => parse_matches rest res
  end.
Proof.
  intros m rest res. unfold block_pair. simpl.
  destruct (regex.KEY_findall m) as [|k ks]; [reflexivity|].
  destruct (regex.VALUE_findall m) as [|v vs]; [reflexivity|].
  destruct (json_decode v); reflexivity.
Qed.

(** One payload that does not decode makes the whole loop raise. *)
Lemma parse_matches_aborts : forall (matches : list string) (res : dict) (m k p : string),
  In m matches ->
  block_pair m = Some (k, p) ->
  json_decode p = None ->
  parse_matches matches res = Raise JSONDecodeError.
Proof.
  induction matches as [|m0 matches IH]; intros res m k p Hin Hpair Hbad.
  - contradiction.
  - rewrite parse_matches_cons.
    destruct Hin as [-> | Hin].
    + rewrite Hpair, Hbad. reflexivity.
    + destruct (block_pair m0) as [[k0 p0]|]; [|eapply IH; eassumption].
      destruct (json_decode p0); [eapply IH; eassumption | reflexivity].
Qed.

(** When every matched payload decodes the loop returns a map; what it holds
    comes from the map it started with or from a block. *)
Lemma parse_matches_returns : forall (matches : list string) (res : dict),
  (forall m k p, In m matches -> block_pair m = Some (k, p) -> json_decode p <> None) ->
  exists res',
    parse_matches matches res = Ok res' /\
    (forall k t, dict_get res k = Some t -> exists t', dict_get res' k = Some t') /\
    (forall m k p, In m matches -> block_pair m = Some (k, p) ->
                   exists t, dict_get res' k = Some t) /\
    (forall k t, dict_get res' k = Some t ->
                 dict_get res k = Some t \/
                 exists m p, In m matches /\ block_pair m = Some (k, p) /\ json_decode p = Some t).
Proof.
  induction matches as [|m0 matches IH]; intros res Hall.
  - exists res. simpl. split; [reflexivity|]. split; [eauto|]. split; [contradiction | eauto].
  - rewrite parse_matches_cons.
    assert (Hrest : forall m k p, In m matches -> block_pair m = Some (k, p) ->
                                  json_decode p <> None).
    { intros m k p Hin. apply Hall. right. exact Hin. }
    destruct (block_pair m0) as [[k0 p0]|] eqn:Hpair.
    + destruct (json_decode p0) as [t0|] eqn:Hdec;
        [|exfalso; apply (Hall m0 k0 p0 (or_introl eq_refl) Hpair Hdec)].
      destruct (IH (dict_set res k0 t0) Hrest) as [res' [Hok [Hkeep [Hblocks Hfrom]]]].
      exists res'. split; [exact Hok|]. split; [|split].
      * intros k t Hk. destruct (string_dec k k0) as [->|Hneq].
        -- apply (Hkeep k0 t0). apply dict_get_set_same.
        -- apply (Hkeep k t). rewrite dict_get_set_other by exact Hneq. exact Hk.
      * intros m k p [<- | Hin] Hp.
        -- rewrite Hpair in Hp. inversion Hp; subst k p.
           apply (Hkeep k0 t0). apply dict_get_set_same.
        -- eapply Hblocks; eassumption.
      * intros k t Hk. destruct (Hfrom k t Hk) as [Hset | [m [p [Hin [Hp Hd]]]]].
        -- destruct (string_dec k k0) as [->|Hneq].
           ++ rewrite dict_get_set_same in Hset. inversion Hset; subst t.
              right. exists m0, p0. split; [left; reflexivity|]. split; assumption.
           ++ rewrite dict_get_set_other in Hset by exact Hneq. left. exact Hset.
        -- right. exists m, p. split; [right; exact Hin|]. split; assumption.
    + destruct (IH res Hrest) as [res' [Hok [Hkeep [Hblocks Hfrom]]]].
      exists res'. split; [exact Hok|]. split; [exact Hkeep|]. split.
      * intros m k p [<- | Hin] Hp; [congruence | eapply Hblocks; eassumption].
      * intros k t Hk. destruct (Hfrom k t Hk) as [Hset | [m [p [Hin [Hp Hd]]]]].
        -- left. exact Hset.
        -- right. exists m, p. split; [right; exact Hin|]. split; assumption.
Qed.

(** C3 (amended).  [_parse_response] is all or nothing.  When the payload of
    every script block with both matches decodes as JSON it returns a dataset
    map that has an entry for each of these blocks, every entry being the
    decoded payload of a block with that key.  When the payload of one such
    block does not decode, the decoding error leaves [_parse_response]: no map
    is returned and the other blocks are lost with it. *)
Theorem parse_response_all_or_nothing : forall (dom : string),
  ((forall m k p, In m (regex.SCRIPT_findall dom) -> block_pair m = Some (k, p) ->
                  json_decode p <> None) ->
   exists res,
     _parse_response dom = Ok res /\
     (forall m k p, In m (regex.SCRIPT_findall dom) -> block_pair m = Some (k, p) ->
                    exists t, dict_get res k = Some t) /\
     (forall k t, dict_get res k = Some t ->
                  exists m p, In m (regex.SCRIPT_findall dom) /\ block_pair m = Some (k, p) /\
                              json_decode p = Some t)) /\
  (forall m k p, In m (regex.SCRIPT_findall dom) -> block_pair m = Some (k, p) ->
                 json_decode p = None ->
                 _parse_response dom = Raise JSONDecodeError).
Proof.
  intros dom. split.
  - intros Hall.
    destruct (parse_matches_returns (regex.SCRIPT_findall dom) [] Hall)
      as [res [Hok [_ [Hblocks Hfrom]]]].
    exists res. split; [exact Hok|]. split; [exact Hblocks|].
    intros k t Hk. destruct (Hfrom k t Hk) as [Hnil | Hblock]; [discriminate | exact Hblock].
  - intros m k p Hin Hpair Hbad. unfold _parse_response.
    eapply parse_matches_aborts; eassumption.
Qed.

Lemma build_details_url : forall (app_id : string) (lang country : option string),
  _build_url "details"
    [("func", "details"); ("id", app_id);
     ("hl", optional_param "&hl=" lang); ("gl", optional_param "&gl=" country)]
  = Ok (details_url app_id lang country).
Proof. reflexivity. Qed.

(** [details] on a page without any dataset: the call of [max] raises. *)
Lemma details_on_empty_map :
  forall (net : network) (app_id : string) (lang country : option string)
         (tr : trace) (dom : string),
    net (List.length tr) (GET (details_url app_id lang country)) = Body dom ->
    _parse_response dom = Ok [] ->
    details net app_id lang country tr
      = (Raise ValueError, tr ++ [GET (details_url app_id lang country)]).
Proof.
  intros net app_id lang country tr dom Hnet Hparse.
  unfold details. rewrite build_details_url.
  unfold bindM at 1. cbn [lift].
  unfold bindM at 1. unfold _request at 1. rewrite Hnet.
  unfold bindM at 1. cbn [lift]. rewrite Hparse.
  reflexivity.
Qed.

(** C10.  When the request of [details] succeeds and the parser yields an
    empty dataset map, [details] raises [ValueError] (from [max] over no keys)
    right after the one request it made; it returns no record, and
    [ValueError] is none of the scraper's own exception classes. *)
Theorem details_empty_map_raises :
  forall (net : network) (app_id : string) (lang country : option string)
         (tr : trace) (dom : string),
    net (List.length tr) (GET (details_url app_id lang country)) = Body dom ->
    _parse_response dom = Ok [] ->
    details net app_id lang country tr
      = (Raise ValueError, tr ++ [GET (details_url app_id lang country)]) /\
    exceptions.is_GooglePlayScraperException ValueError = false.
Proof.
  intros net app_id lang country tr dom Hnet Hparse.
  split.
  - apply details_on_empty_map with (dom := dom); assumption.
  - reflexivity.
Qed.

(** What the crawl worker makes of it: [try_metadata] catches the [ValueError]
    in its second [except] clause, puts the app back on the queue of apps and
    reports the app as done, on the first attempt and on the retry alike. *)
Lemma empty_map_requeues_app :
  forall (net : network) (save_full retry : bool) (app : string)
         (q : metadata_crawl.queues) (tr : trace) (dom : string),
    net (List.length tr) (GET (details_url app None None)) = Body dom ->
    _parse_response dom = Ok [] ->
    metadata_crawl.try_metadata net save_full app retry q tr
      = (Ok true, metadata_crawl.put_app q app, tr ++ [GET (details_url app None None)]).
Proof.
  intros net save_full retry app q tr dom Hnet Hparse.
  unfold metadata_crawl.try_metadata.
  rewrite (details_on_empty_map net app None None tr dom Hnet Hparse).
  reflexivity.
Qed.

End Parser.

(** C3, an instance of the second half: the only block of [page_cut_short] has
    a payload that is no JSON, and the parse raises. *)
Lemma parse_response_aborts_witness :
  regex.SCRIPT_findall page_cut_short = [cut_short_match] /\
  block_pair cut_short_match = Some ("ds:7", "[1,") /\
  @json_decode example.runtime "[1," = None /\
  @_parse_response example.runtime page_cut_short = Raise JSONDecodeError.
Proof.
  assert (Hmatches : regex.SCRIPT_findall page_cut_short = [cut_short_match])
    by (vm_compute; reflexivity).
  assert (Hpair : block_pair cut_short_match = Some ("ds:7", "[1,"))
    by (vm_compute; reflexivity).
  split; [exact Hmatches|]. split; [exact Hpair|]. split; [reflexivity|].
  apply (proj2 (@parse_response_all_or_nothing example.runtime page_cut_short)
           cut_short_match "ds:7" "[1,").
  - rewrite Hmatches. left. reflexivity.
  - exact Hpair.
  - reflexivity.
Defined.

(** C3 as stated fails: in [page_with_broken_block] both blocks have a key and
    a payload, the payload of [ds:5] decodes and that of [ds:3] does not; the
    parse does not return a map without [ds:3], it raises. *)
Lemma parse_response_broken_block :
  map block_pair (regex.SCRIPT_findall page_with_broken_block)
    = [Some ("ds:5", "[1]"); Some ("ds:3", "{")] /\
  @json_decode example.runtime "[1]" = Some (VList [VInt 1]) /\
  @json_decode example.runtime "{" = None /\
  @_parse_response example.runtime page_with_broken_block = Raise JSONDecodeError.
Proof.
  repeat split; vm_compute; reflexivity.
Qed.

(** An empty body sends the app back to the queue. *)
Lemma empty_map_requeues_witness :
  @metadata_crawl.try_metadata example.runtime empty_pages false "com.example.app" false
    (metadata_crawl.mkQueues [] [] []) []
  = (Ok true, metadata_crawl.mkQueues ["com.example.app"] [] [],
     [GET (details_url "com.example.app" None None)]).
Proof.
  exact (@empty_map_requeues_app example.runtime empty_pages false false "com.example.app"
           (metadata_crawl.mkQueues [] [] []) [] EmptyString eq_refl eq_refl).
Defined.

(** C10, an instance: an empty body holds no script block, the dataset map is
    empty and [details] raises [ValueError]. *)
Lemma details_empty_map_witness :
  @_parse_response example.runtime EmptyString = Ok [] /\
  @details example.runtime empty_pages "com.example.app" None None []
    = (Raise ValueError, [GET (details_url "com.example.app" None None)]).
Proof.
  split; [reflexivity|].
  exact (proj1 (@details_empty_map_raises example.runtime empty_pages "com.example.app"
                  None None [] EmptyString eq_refl eq_refl)).
Defined.

(** ** Rows of the reduced metadata (metadata_crawl.py) *)

Section Rows.
Context {rt : Runtime}.

Lemma append_assoc : forall (a b c : string), (a +++ b) +++ c = a +++ (b +++ c).
Proof.
  intros a b c. induction a as [|x a IH]; simpl; [reflexivity | rewrite IH; reflexivity].
Qed.

(** C8 (amended).  For a record that holds the five scraped fields, the row is
    the six columns [appId,version,updated,released,downloadLink,
    downloadLinkEnabled] joined by commas and ended by a newline; [released]
    stands between double quotes when it is present (true), and the two flags
    are rendered by Python as the strings [True] and [False]. *)
Theorem reduced_row_shape :
  forall (app : string) (metadata : dict)
         (version updated released downloadLink downloadLinkEnabled : value),
    dict_get metadata "version" = Some version ->
    dict_get metadata "updated" = Some updated ->
    dict_get metadata "released" = Some released ->
    dict_get metadata "downloadLink" = Some downloadLink ->
    dict_get metadata "downloadLinkEnabled" = Some downloadLinkEnabled ->
    metadata_crawl.reduced_row app metadata
      = Ok (join "," [app; str version; str updated; released_field released;
                      str_of_bool (truthy downloadLink);
                      str_of_bool (truthy downloadLinkEnabled)] +++ metadata_crawl.nl) /\
    str_of_bool true = "True" /\
    str_of_bool false = "False".
Proof.
  intros app metadata version updated released downloadLink downloadLinkEnabled
         Hversion Hupdated Hreleased Hlink Henabled.
  split; [|split; reflexivity].
  unfold metadata_crawl.reduced_row, dict_getitem.
  rewrite Hversion, Hupdated, Hreleased, Hlink, Henabled. cbn [bind join].
  unfold released_field.
  destruct (truthy released); f_equal; repeat rewrite append_assoc; reflexivity.
Qed.

End Rows.

(** C8, an instance: the row of [bare_record]. *)
Lemma reduced_row_witness :
  @metadata_crawl.reduced_row example.runtime "com.example.app" bare_record
    = Ok ("com.example.app,None,1602201600,None,False,False" +++ metadata_crawl.nl).
Proof.
  exact (proj1 (@reduced_row_shape example.runtime "com.example.app" bare_record
                  VNone (VInt 1602201600) VNone VNone VNone
                  eq_refl eq_refl eq_refl eq_refl eq_refl)).
Defined.

(** C8 as stated fails: the row of [scraped_record] ends in [True,False], not
    in [true,false]. *)
Lemma reduced_row_capitalised :
  @metadata_crawl.reduced_row example.runtime "com.example.app" scraped_record
    = Ok ("com.example.app,1.0,1602201600," +++ dquote +++ "Oct 9, 2012" +++ dquote
            +++ ",True,False" +++ metadata_crawl.nl) /\
  @metadata_crawl.reduced_row example.runtime "com.example.app" scraped_record
    <> Ok ("com.example.app,1.0,1602201600," +++ dquote +++ "Oct 9, 2012" +++ dquote
             +++ ",true,false" +++ metadata_crawl.nl).
Proof.
  split; [reflexivity|]. vm_compute. discriminate.
Qed.

(** ** Reading the input list (metadata_crawl.py, crawler.py) *)

Section InputLists.

(** [read_apps] keeps the stripped lines that do not start with [#], each once,
    in the order of their first occurrence. *)
Lemma read_apps_loop_first_occurrences : forall (lines unique apps : list string),
  metadata_crawl.read_apps_loop lines unique apps
  = apps ++ first_occurrences unique (filter not_comment (map strip lines)).
Proof.
  induction lines as [|line lines IH]; intros unique apps; simpl.
  - rewrite app_nil_r. reflexivity.
  - unfold not_comment at 1.
    destruct (startswith "#" (strip line)); simpl.
    + apply IH.
    + destruct (mem_string (strip line) unique); [apply IH|].
      rewrite IH, <- app_assoc. reflexivity.
Qed.

Lemma mem_string_In : forall (k : string) (l : list string),
  mem_string k l = true <-> In k l.
Proof.
  intros k l. unfold mem_string. rewrite existsb_exists. split.
  - intros [x [Hin Heq]]. apply String.eqb_eq in Heq. subst x. exact Hin.
  - intros Hin. exists k. split; [exact Hin | apply String.eqb_refl].
Qed.

Lemma first_occurrences_In : forall (l seen : list string) (x : string),
  In x (first_occurrences seen l) <-> In x l /\ ~ In x seen.
Proof.
  induction l as [|y l IH]; intros seen x; simpl.
  - tauto.
  - destruct (mem_string y seen) eqn:Hmem.
    + apply mem_string_In in Hmem. rewrite IH. split.
      * intros [Hin Hnot]. tauto.
      * intros [[-> | Hin] Hnot]; [contradiction | tauto].
    + assert (Hy : ~ In y seen).
      { intros Hin. apply mem_string_In in Hin. congruence. }
      simpl. rewrite IH. simpl. split.
      * intros [-> | [Hin Hnot]]; [tauto|]. split; [tauto|]. intros Hs. apply Hnot. right. exact Hs.
      * intros [[-> | Hin] Hnot]; [left; reflexivity|].
        destruct (string_dec y x) as [->|Hneq]; [left; reflexivity|].
        right. split; [exact Hin|]. intros [Heq | Hs]; [contradiction | contradiction].
Qed.

Lemma first_occurrences_NoDup : forall (l seen : list string),
  NoDup (first_occurrences seen l).
Proof.
  induction l as [|y l IH]; intros seen; simpl.
  - constructor.
  - destruct (mem_string y seen); [apply IH|].
    constructor; [|apply IH].
    rewrite first_occurrences_In. intros [_ Hnot]. apply Hnot. left. reflexivity.
Qed.

(** What [read_apps] guarantees: no comment line, no identifier twice, every
    other stripped line kept. *)
Lemma read_apps_comments_and_duplicates : forall (lines : list string),
  metadata_crawl.read_apps lines = first_occurrences [] (filter not_comment (map strip lines)) /\
  NoDup (metadata_crawl.read_apps lines) /\
  (forall app, In app (metadata_crawl.read_apps lines) <->
               In app (map strip lines) /\ startswith "#" app = false).
Proof.
  intros lines. unfold metadata_crawl.read_apps.
  rewrite read_apps_loop_first_occurrences. simpl.
  split; [reflexivity|]. split; [apply first_occurrences_NoDup|].
  intros app. rewrite first_occurrences_In, filter_In. unfold not_comment.
  rewrite negb_true_iff. simpl. tauto.
Qed.

Lemma put_unique_first_occurrences : forall (apps unique : list string) (queue : list crawler.item),
  crawler.put_unique apps unique queue
  = queue ++ map (fun app => (app, false, None)) (first_occurrences unique apps).
Proof.
  induction apps as [|app apps IH]; intros unique queue; simpl.
  - rewrite app_nil_r. reflexivity.
  - destruct (mem_string app unique); [apply IH|].
    rewrite IH, <- app_assoc. reflexivity.
Qed.

Lemma startswith_hash : forall (c : ascii) (line : string),
  startswith "#" (String c line) = Ascii.eqb c "#"%char.
Proof.
  intros c line. unfold startswith. cbn [prefix].
  destruct (ascii_dec "#"%char c) as [<-|Hneq].
  - destruct line; reflexivity.
  - symmetry. apply Ascii.eqb_neq. congruence.
Qed.

Lemma is_app_line_spec : forall (line : string),
  crawler.is_app_line line = true <-> line <> EmptyString /\ startswith "#" line = false.
Proof.
  intros line. destruct line as [|c line].
  - simpl. split; [discriminate | intros [H _]; contradiction H; reflexivity].
  - rewrite startswith_hash. unfold crawler.is_app_line.
    destruct (Ascii.eqb c "#"%char); simpl.
    + split; [discriminate | intros [_ H]; discriminate].
    + split; [intros _; split; [discriminate | reflexivity] | reflexivity].
Qed.

(** The queue of the download crawler for an input file, when the order is not
    randomised and no app is finished yet: no blank line, no comment, every
    other identifier once, in the order of first occurrence. *)
Lemma initial_queue_of_file : forall (lines : list string),
  crawler.initial_queue (crawler.InputFile lines) None None
  = map (fun app => (app, false, None)) (first_occurrences [] (crawler.app_lines lines)) /\
  NoDup (first_occurrences [] (crawler.app_lines lines)) /\
  (forall app, In app (first_occurrences [] (crawler.app_lines lines)) <->
               In app (map strip lines) /\ app <> EmptyString /\ startswith "#" app = false).
Proof.
  intros lines. split; [|split].
  - unfold crawler.initial_queue. simpl.
    destruct (crawler.app_lines lines) as [|app apps] eqn:Happs; [reflexivity|].
    rewrite put_unique_first_occurrences. reflexivity.
  - apply first_occurrences_NoDup.
  - intros app. rewrite first_occurrences_In. unfold crawler.app_lines.
    rewrite filter_In, is_app_line_spec. simpl. tauto.
Qed.

End InputLists.

(** C9: the input [A, B, A, C] is queued as [A, B, C] by both programs. *)
Lemma duplicates_collapsed :
  metadata_crawl.read_apps lines_with_duplicate = ["A"; "B"; "C"] /\
  crawler.initial_queue (crawler.InputFile lines_with_duplicate) None None
    = [("A", false, None); ("B", false, None); ("C", false, None)].
Proof. split; reflexivity. Qed.

(** C9: [read_apps] of the metadata crawler queues the empty identifier for a
    blank line, where [read_input_apps] of the download crawler drops the line. *)
Lemma read_apps_keeps_blank_line :
  metadata_crawl.read_apps lines_with_blank = ["A"; EmptyString; "B"] /\
  crawler.read_input_apps (crawler.InputFile lines_with_blank) = ["A"; "B"].
Proof. split; reflexivity. Qed.

(** ** The pagination engine (utils.py) *)

Section Pagination.
Context {rt : Runtime} (net : network).

Lemma cluster_loop_S :
  forall (fuel : nat) (lang country : option string) (results : list value)
         (token : value) (tr : trace),
    cluster_loop net (S fuel) lang country results token tr =
    if truthy token then
      match cluster_page net lang country token tr with
      | (Raise _, tr') => Some (results, tr')
      | (Ok (page, resp), tr') =>
          match nested_lookup resp [0; 0; 7; 1]%Z with
          | Raise _ => Some (results ++ page, tr')
          | Ok token' => cluster_loop net fuel lang country (results ++ page) token' tr'
          end
      end
    else Some (results, tr).
Proof. reflexivity. Qed.

Lemma cluster_loop_no_token :
  forall (fuel : nat) (lang country : option string) (results : list value)
         (token : value) (tr : trace),
    truthy token = false ->
    cluster_loop net fuel lang country results token tr = Some (results, tr).
Proof.
  intros fuel lang country results token tr Hfalsy.
  destruct fuel; simpl; rewrite Hfalsy; reflexivity.
Qed.

(** After [k] turns that succeed the loop stands where [run_pages] says. *)
Lemma cluster_loop_after_pages :
  forall (k n : nat) (lang country : option string) (results : list value) (token : value)
         (tr : trace) (acc : list value) (token' : value) (tr1 : trace),
    run_pages net k lang country results token tr = Some (acc, token', tr1) ->
    cluster_loop net (k + n) lang country results token tr
    = cluster_loop net n lang country acc token' tr1.
Proof.
  induction k as [|k IH]; intros n lang country results token tr acc token' tr1 Hrun.
  - simpl in Hrun. inversion Hrun; subst. reflexivity.
  - cbn [run_pages] in Hrun. change (S k + n)%nat with (S (k + n)). rewrite cluster_loop_S.
    destruct (truthy token); [|discriminate].
    destruct (cluster_page net lang country token tr) as [[[page resp]|e] tr'];
      [|discriminate].
    destruct (nested_lookup resp [0; 0; 7; 1]%Z) as [next|e]; [|discriminate].
    apply IH. exact Hrun.
Qed.

Lemma run_pages_extends :
  forall (k : nat) (lang country : option string) (results : list value) (token : value)
         (tr : trace) (acc : list value) (token' : value) (tr1 : trace),
    run_pages net k lang country results token tr = Some (acc, token', tr1) ->
    exists collected, acc = results ++ collected.
Proof.
  induction k as [|k IH]; intros lang country results token tr acc token' tr1 Hrun.
  - simpl in Hrun. inversion Hrun; subst. exists []. rewrite app_nil_r. reflexivity.
  - cbn [run_pages] in Hrun.
    destruct (truthy token); [|discriminate].
    destruct (cluster_page net lang country token tr) as [[[page resp]|e] tr'];
      [|discriminate].
    destruct (nested_lookup resp [0; 0; 7; 1]%Z) as [next|e]; [|discriminate].
    destruct (IH _ _ _ _ _ _ _ _ Hrun) as [collected Hacc].
    exists (page ++ collected). rewrite Hacc, app_assoc. reflexivity.
Qed.

(** Whatever the loop returns extends what it started with. *)
Lemma cluster_loop_extends :
  forall (fuel : nat) (lang country : option string) (results : list value) (token : value)
         (tr : trace) (returned : list value) (tr' : trace),
    cluster_loop net fuel lang country results token tr = Some (returned, tr') ->
    exists extra, returned = results ++ extra.
Proof.
  induction fuel as [|fuel IH]; intros lang country results token tr returned tr' Hloop.
  - simpl in Hloop. destruct (truthy token); [discriminate|].
    inversion Hloop; subst. exists []. rewrite app_nil_r. reflexivity.
  - rewrite cluster_loop_S in Hloop.
    destruct (truthy token).
    + destruct (cluster_page net lang country token tr) as [[[page resp]|e] tr1].
      * destruct (nested_lookup resp [0; 0; 7; 1]%Z) as [next|e].
        -- destruct (IH _ _ _ _ _ _ _ Hloop) as [extra Hreturned].
           exists (page ++ extra). rewrite Hreturned, app_assoc. reflexivity.
        -- inversion Hloop; subst. exists page. reflexivity.
      * inversion Hloop; subst. exists []. rewrite app_nil_r. reflexivity.
    + inversion Hloop; subst. exists []. rewrite app_nil_r. reflexivity.
Qed.

(** C5.  Let the seed page be fetched and parsed, let [k] continuation pages
    follow without error, and let the next turn of the loop raise, whether in
    the fetch, in the parse or in a navigation step.  Then [_cluster_request]
    raises nothing: it returns what was accumulated up to the failure, which
    starts with the results of the seed page. *)
Theorem continuation_failure_returns_accumulated :
  forall (url : string) (lang country : option string) (fuel k : nat) (tr tr0 tr1 tr2 : trace)
         (seed acc added : list value) (token token' : value),
    cluster_seed net url tr = (Ok (seed, token), tr0) ->
    run_pages net k lang country seed token tr0 = Some (acc, token', tr1) ->
    truthy token' = true ->
    failing_turn net lang country token' tr1 = Some (added, tr2) ->
    (k < fuel)%nat ->
    _cluster_request net fuel url lang country tr = Some (Ok (acc ++ added), tr2) /\
    exists collected, acc = seed ++ collected.
Proof.
  intros url lang country fuel k tr tr0 tr1 tr2 seed acc added token token'
         Hseed Hrun Htoken Hfails Hfuel.
  split; [|eapply run_pages_extends; eassumption].
  unfold _cluster_request. rewrite Hseed.
  replace fuel with (k + S (fuel - S k))%nat by lia.
  rewrite (cluster_loop_after_pages _ _ _ _ _ _ _ _ _ _ Hrun).
  rewrite cluster_loop_S, Htoken.
  unfold failing_turn in Hfails.
  destruct (cluster_page net lang country token' tr1) as [[[page resp]|e] tr'].
  - destruct (nested_lookup resp [0; 0; 7; 1]%Z) as [next|e]; [discriminate|].
    inversion Hfails; subst. reflexivity.
  - inversion Hfails; subst. rewrite app_nil_r. reflexivity.
Qed.

Lemma seq_index_head : forall (A : Type) (a : A) (l : list A), seq_index (a :: l) 0 = Ok a.
Proof. intros A a l. reflexivity. Qed.

Lemma marker_not_empty : forall (body : string),
  contains "PlayDataError" body = true -> exists c rest, body = String c rest.
Proof.
  intros body Hmarker. destruct body as [|c rest]; [discriminate | eauto].
Qed.

(** Navigating a response that is still text: every step takes its first
    character. *)
Lemma navigate_text : forall (c : ascii) (rest : string),
  nested_lookup (VStr (String c rest)) [0; 0; 0]%Z = Ok (VStr (String c EmptyString)) /\
  nested_lookup (VStr (String c rest)) [0; 0; 7; 1]%Z = Ok VNone /\
  _parse_app_list (VStr (String c EmptyString)) None = Ok [VNone].
Proof.
  intros c rest. split; [reflexivity | split; reflexivity].
Qed.

Lemma ui_retry_marker :
  always_marker net ->
  forall (left : nat) (url func : string) (param : value) (resp : string) (tr : trace),
    contains "PlayDataError" resp = true ->
    exists body,
      contains "PlayDataError" body = true /\
      ui_retry net left (POST url func param) resp tr
      = (Ok (body, true), tr ++ repeat (POST url func param) left).
Proof.
  intros Hmarker. induction left as [|left IH]; intros url func param resp tr Hresp.
  - exists resp. split; [exact Hresp|]. simpl. rewrite Hresp, app_nil_r. reflexivity.
  - cbn [ui_retry]. rewrite Hresp.
    destruct (Hmarker (List.length tr) url func param) as [body' [Hnet Hbody']].
    unfold bindM, _request at 1. rewrite Hnet.
    destruct (IH url func param body' (tr ++ [POST url func param]) Hbody')
      as [body [Hbody Hretry]].
    exists body. split; [exact Hbody|].
    rewrite Hretry, <- app_assoc. reflexivity.
Qed.

(** Under [always_marker] the batch request is sent six times, the first
    attempt and five more, and the answer is handed back as text. *)
Lemma get_ui_request_marker :
  always_marker net ->
  forall (url : string) (token : value) (tr : trace),
    exists body,
      contains "PlayDataError" body = true /\
      _get_ui_request net url "token" token tr
      = (Ok (VStr body), tr ++ repeat (POST url "token" token) 6).
Proof.
  intros Hmarker url token tr.
  destruct (Hmarker (List.length tr) url "token" token) as [body0 [Hnet Hbody0]].
  destruct (ui_retry_marker Hmarker 5 url "token" token body0
              (tr ++ [POST url "token" token]) Hbody0) as [body [Hbody Hretry]].
  exists body. split; [exact Hbody|].
  unfold _get_ui_request. cbn [String.eqb Ascii.eqb Bool.eqb orb].
  unfold bindM at 1. unfold _request at 1. rewrite Hnet.
  unfold bindM at 1. rewrite Hretry.
  rewrite <- app_assoc. reflexivity.
Qed.

Lemma build_ui_url : forall (lang country : option string),
  _build_url "ui" (url_in_of lang country) = Ok (ui_url lang country).
Proof. reflexivity. Qed.

(** The one turn of the loop under [always_marker]. *)
Lemma cluster_loop_marker :
  always_marker net ->
  forall (fuel : nat) (lang country : option string) (results : list value)
         (token : value) (tr : trace),
    truthy token = true ->
    cluster_loop net (S fuel) lang country results token tr
    = Some (results ++ [VNone], tr ++ repeat (POST (ui_url lang country) "token" token) 6).
Proof.
  intros Hmarker fuel lang country results token tr Htoken.
  destruct (get_ui_request_marker Hmarker (ui_url lang country) token tr)
    as [body [Hbody Hrequest]].
  destruct (marker_not_empty body Hbody) as [c [rest ->]].
  destruct (navigate_text c rest) as [Happs [Hnext Hlist]].
  rewrite cluster_loop_S, Htoken.
  unfold cluster_page. rewrite build_ui_url.
  unfold bindM at 1. cbn [lift].
  unfold bindM at 1. rewrite Hrequest.
  unfold bindM at 1. cbn [lift]. rewrite Happs.
  unfold bindM at 1. cbn [lift]. rewrite Hlist.
  cbn [ret]. rewrite Hnext.
  apply cluster_loop_no_token. reflexivity.
Qed.

(** C6.  When the seed page yields a token and every answer of the batch
    endpoint carries the retry marker, the engine sends the continuation
    request and repeats it five times, then gives up: no other request
    follows.  The list the call returns is not the list of the seed page.
    [_get_ui_request] hands the last answer back as text, [_cluster_request]
    navigates the text as if it were the decoded answer, and one [None] is
    added after the results of the seed page. *)
Theorem marker_exhausts_retries :
  forall (url : string) (lang country : option string) (fuel : nat) (tr tr0 : trace)
         (seed : list value) (token : value),
    always_marker net ->
    cluster_seed net url tr = (Ok (seed, token), tr0) ->
    truthy token = true ->
    (0 < fuel)%nat ->
    _cluster_request net fuel url lang country tr
    = Some (Ok (seed ++ [VNone]),
            tr0 ++ repeat (POST (ui_url lang country) "token" token) 6) /\
    seed ++ [VNone] <> seed.
Proof.
  intros url lang country fuel tr tr0 seed token Hmarker Hseed Htoken Hfuel.
  split.
  - unfold _cluster_request. rewrite Hseed.
    destruct fuel as [|fuel]; [lia|].
    rewrite (cluster_loop_marker Hmarker) by exact Htoken. reflexivity.
  - intros Hsame. apply (f_equal (@List.length value)) in Hsame.
    rewrite length_app in Hsame. simpl in Hsame. lia.
Qed.

End Pagination.

(** C5, an instance: after the seed page and one continuation page the
    connection is lost; the call returns the results of these two pages. *)
Lemma continuation_failure_witness :
  @_cluster_request example.runtime connection_lost 2 search_url None None []
    = Some (Ok [VStr "com.a"; VStr "com.b"; VStr "com.c"],
            [GET search_url; POST (ui_url None None) "token" (VStr "TOKEN");
             POST (ui_url None None) "token" (VStr "T2")]).
Proof.
  assert (Hseed : @cluster_seed example.runtime connection_lost search_url []
                  = (Ok ([VStr "com.a"; VStr "com.b"], VStr "TOKEN"), [GET search_url]))
    by (vm_compute; reflexivity).
  assert (Hrun : @run_pages example.runtime connection_lost 1 None None
                   [VStr "com.a"; VStr "com.b"] (VStr "TOKEN") [GET search_url]
                 = Some ([VStr "com.a"; VStr "com.b"; VStr "com.c"], VStr "T2",
                         [GET search_url; POST (ui_url None None) "token" (VStr "TOKEN")]))
    by (vm_compute; reflexivity).
  assert (Hfails : @failing_turn example.runtime connection_lost None None (VStr "T2")
                     [GET search_url; POST (ui_url None None) "token" (VStr "TOKEN")]
                   = Some ([], [GET search_url;
                                POST (ui_url None None) "token" (VStr "TOKEN");
                                POST (ui_url None None) "token" (VStr "T2")]))
    by (vm_compute; reflexivity).
  exact (proj1 (@continuation_failure_returns_accumulated example.runtime connection_lost
                  search_url None None 2 1 [] _ _ _ _ _ _ _ _
                  Hseed Hrun eq_refl Hfails (le_n 2))).
Defined.

Lemma marker_network_always : always_marker marker_network.
Proof.
  intros n url func param. eexists. split; [reflexivity|]. vm_compute. reflexivity.
Qed.

(** C6, an instance: the seed page of [marker_network] has two results and a
    token; seven requests are made in all, and the call returns the two
    results followed by [None]. *)
Lemma marker_exhausts_retries_witness :
  @_cluster_request example.runtime marker_network 1 search_url None None []
  = Some (Ok ([VStr "com.a"; VStr "com.b"] ++ [VNone]),
          [GET search_url] ++ repeat (POST (ui_url None None) "token" (VStr "TOKEN")) 6) /\
  [VStr "com.a"; VStr "com.b"] ++ [VNone] <> [VStr "com.a"; VStr "com.b"].
Proof.
  assert (Hseed : @cluster_seed example.runtime marker_network search_url []
                  = (Ok ([VStr "com.a"; VStr "com.b"], VStr "TOKEN"), [GET search_url]))
    by (vm_compute; reflexivity).
  exact (@marker_exhausts_retries example.runtime marker_network search_url None None 1
           [] [GET search_url] [VStr "com.a"; VStr "com.b"] (VStr "TOKEN")
           marker_network_always Hseed eq_refl (Nat.lt_0_succ 0)).
Defined.

(** ** The download orchestrator (crawler.py) *)

Section Orchestrator.
Import crawler.

Lemma code_permanent : forall (code : Z),
  (code < 10)%Z -> (code >=? 10)%Z = false /\ (code <? 10)%Z = true.
Proof.
  intros code Hlt. split; [|apply Z.ltb_lt; exact Hlt].
  destruct (code >=? 10)%Z eqn:Hge; [apply Z.geb_le in Hge; lia | reflexivity].
Qed.

Lemma code_transient : forall (code : Z),
  (10 <= code)%Z -> (code >=? 10)%Z = true /\ (code <? 10)%Z = false.
Proof.
  intros code Hle. split; [apply Z.geb_le; exact Hle | apply Z.ltb_ge; exact Hle].
Qed.

(** C1 (amended).  Take an item on its second attempt, carrying the
    classification of its first error, whose download fails again.  When the
    second failure is a configuration or credential error nothing is recorded
    and the item is not marked finished.  Otherwise the retry table applies, the
    text recorded being the second piece of the message split at [: ]: if the
    second error is permanent (code below 10) it is the failure recorded and the
    item is marked finished; else if the first error was permanent that one is
    recorded and the item is marked finished; else the item is abandoned, with
    no line in the failure file, no line in the resumable log and no place in
    the queue. *)
Theorem retry_classification :
  forall (app : string) (previous_code : Z) (previous_message e : string) (st : state),
    let i : item := (app, true, Some (previous_code, previous_message)) in
    (is_configuration_error e = true -> crawl_item i (Some e) st = (Ok tt, st)) /\
    (is_configuration_error e = false ->
     ((error_code e < 10)%Z ->
      forall reason, reason_of e = Ok reason ->
        crawl_item i (Some e) st
        = (Ok tt, write_finished (write_failure st (failure_line app reason))
                                 (finished_line app))) /\
     ((10 <= error_code e)%Z -> (previous_code < 10)%Z ->
      forall reason, reason_of previous_message = Ok reason ->
        crawl_item i (Some e) st
        = (Ok tt, write_finished
                    (write_failure (write_transient st (failure_line app e))
                                   (failure_line app reason))
                    (finished_line app))) /\
     ((10 <= error_code e)%Z -> (10 <= previous_code)%Z ->
      crawl_item i (Some e) st = (Ok tt, write_transient st (failure_line app e)))).
Proof.
  intros app previous_code previous_message e st i. subst i.
  unfold crawl_item, execute. split.
  - intros ->. reflexivity.
  - intros ->. split; [|split].
    + intros Hcode reason Hreason.
      destruct (code_permanent _ Hcode) as [-> ->]. rewrite Hreason. reflexivity.
    + intros Hcode Hprevious reason Hreason.
      destruct (code_transient _ Hcode) as [-> ->].
      destruct (code_permanent _ Hprevious) as [_ ->]. rewrite Hreason. reflexivity.
    + intros Hcode Hprevious.
      destruct (code_transient _ Hcode) as [-> ->].
      destruct (code_transient _ Hprevious) as [_ ->]. reflexivity.
Qed.

End Orchestrator.

(** C1, an instance for each row of the table in the specification. *)
Lemma retry_classification_witness :
  (* first NotFound, then a transport error: NotFound is recorded *)
  crawler.crawl_item
    ("com.a", true, Some (1%Z, "Error for app 'com.a': Item not found"))
    (Some "Error for app 'com.a': Connection timed out") (fresh [])
  = (Ok tt, crawler.mkState []
              ["com.a: Item not found" +++ crawler.nl]
              ["com.a: Error for app 'com.a': Connection timed out" +++ crawler.nl]
              ["com.a" +++ crawler.nl]) /\
  (* first a transport error, then NotFound: NotFound is recorded *)
  crawler.crawl_item
    ("com.a", true, Some (15%Z, "Error for app 'com.a': Connection timed out"))
    (Some "Error for app 'com.a': Item not found") (fresh [])
  = (Ok tt, crawler.mkState [] ["com.a: Item not found" +++ crawler.nl] []
              ["com.a" +++ crawler.nl]) /\
  (* two transport errors: abandoned *)
  crawler.crawl_item
    ("com.a", true, Some (15%Z, "Error for app 'com.a': Connection timed out"))
    (Some "Error for app 'com.a': Connection timed out") (fresh [])
  = (Ok tt, crawler.mkState [] []
              ["com.a: Error for app 'com.a': Connection timed out" +++ crawler.nl] []).
Proof.
  pose proof (retry_classification "com.a" 1 "Error for app 'com.a': Item not found"
                "Error for app 'com.a': Connection timed out" (fresh [])) as [_ Hfirst].
  pose proof (retry_classification "com.a" 15 "Error for app 'com.a': Connection timed out"
                "Error for app 'com.a': Item not found" (fresh [])) as [_ Hsecond].
  pose proof (retry_classification "com.a" 15 "Error for app 'com.a': Connection timed out"
                "Error for app 'com.a': Connection timed out" (fresh [])) as [_ Hboth].
  split; [|split].
  - exact (proj1 (proj2 (Hfirst eq_refl)) ltac:(vm_compute; discriminate) ltac:(reflexivity)
             "Item not found" eq_refl).
  - exact (proj1 (Hsecond eq_refl) ltac:(vm_compute; reflexivity) "Item not found" eq_refl).
  - exact (proj2 (proj2 (Hboth eq_refl)) ltac:(vm_compute; discriminate)
             ltac:(vm_compute; discriminate)).
Defined.

(** C1 as stated fails: the first error was permanent (code 1), the second one
    is not (it would be classified 15), and yet the first error is not recorded:
    the second failure mentions the credentials, and [execute] returns before
    it looks at [previous]. *)
Lemma credentials_error_on_retry :
  crawler.error_code "Unable to log in with the given credentials" = 15%Z /\
  crawler.crawl_item
    ("com.a", true, Some (1%Z, "Error for app 'com.a': Item not found"))
    (Some "Unable to log in with the given credentials") (fresh [])
  = (Ok tt, fresh []).
Proof. split; reflexivity. Qed.

(** The message of a permanent error that lacks the separator makes the retry
    branch raise [IndexError]: nothing is recorded and the loop of [crawl] is
    left. *)
Lemma retry_message_without_separator :
  crawler.crawl_item
    ("com.a", true, Some (15%Z, "Error for app 'com.a': Connection timed out"))
    (Some "Item not found") (fresh [])
  = (Raise IndexError, fresh []).
Proof. reflexivity. Qed.

Section CrawlRun.
Import crawler.

(** What a turn of the loop does to the files and to the queue. *)
Lemma crawl_item_effect :
  forall (app : string) (retry : bool) (previous : option (Z * string))
         (attempt : option string) (st st' : state) (r : result unit),
    crawl_item (app, retry, previous) attempt st = (r, st') ->
    item_outcome app st st' /\
    (DOWNLOAD_QUEUE st' = DOWNLOAD_QUEUE st \/
     retry = false /\ exists p, DOWNLOAD_QUEUE st' = DOWNLOAD_QUEUE st ++ [(app, true, Some p)]).
Proof.
  intros app retry previous attempt st st' r. unfold crawl_item, execute.
  destruct attempt as [e|].
  2: { intros Hturn; inversion Hturn; subst.
       split; [apply outcome_downloaded; reflexivity | left; reflexivity]. }
  destruct (is_configuration_error e); destruct (error_code e >=? 10)%Z; destruct retry;
    destruct previous as [[previous_code previous_message]|];
    try destruct (error_code e <? 10)%Z; try destruct (reason_of e) as [reason|x];
    try destruct (previous_code <? 10)%Z;
    try destruct (reason_of previous_message) as [reason'|x'];
    try destruct (exceptions.is_OSError x); try destruct (exceptions.is_OSError x');
    cbn; intros Hturn; inversion Hturn; subst; clear Hturn;
    (split;
     [first [apply outcome_neither; reflexivity
            |apply outcome_downloaded; reflexivity
            |eapply outcome_failure_recorded; reflexivity]
     |first [left; reflexivity
            |right; split; [reflexivity | eexists; reflexivity]]]).
Qed.

Lemma failures_are_finished_step : forall (app : string) (st st' : state),
  item_outcome app st st' -> failures_are_finished st -> failures_are_finished st'.
Proof.
  intros app st st' Houtcome Hinv line Hline.
  destruct Houtcome as [Hfail Hfin | reason Hfail Hfin | Hfail Hfin];
    rewrite Hfail in Hline; rewrite Hfin.
  - destruct (Hinv line Hline) as [a [reason [Heq Hin]]].
    exists a, reason. split; [exact Heq | apply in_or_app; left; exact Hin].
  - apply in_app_or in Hline. destruct Hline as [Hline | [<- | []]].
    + destruct (Hinv line Hline) as [a [reason' [Heq Hin]]].
      exists a, reason'. split; [exact Heq | apply in_or_app; left; exact Hin].
    + exists app, reason. split; [reflexivity | apply in_or_app; right; left; reflexivity].
  - exact (Hinv line Hline).
Qed.

Lemma work_app : forall (q1 q2 : list item), work (q1 ++ q2) = (work q1 + work q2)%nat.
Proof.
  induction q1 as [|[[app retry] previous] q1 IH]; intros q2; simpl; [reflexivity|].
  rewrite IH. lia.
Qed.

Lemma failures_are_finished_set_queue : forall (st : state) (q : list item),
  failures_are_finished st -> failures_are_finished (set_queue st q).
Proof. intros st q Hinv. exact Hinv. Qed.

(** The loop comes to an end within [work] turns, and the files it leaves
    satisfy [failures_are_finished] when those it found did. *)
Lemma crawl_loop_ends :
  forall (download : nat -> string -> option string) (fuel count : nat) (st : state),
    failures_are_finished st ->
    (work (DOWNLOAD_QUEUE st) <= fuel)%nat ->
    exists st',
      (crawl_loop download fuel count st = Finished st' \/
       exists e, crawl_loop download fuel count st = Crashed e st') /\
      failures_are_finished st'.
Proof.
  intros download fuel. induction fuel as [|fuel IH]; intros count st Hinv Hwork.
  - destruct st as [queue failure transient finished]. simpl in Hwork.
    destruct queue as [|[[app retry] previous] rest].
    + eexists. split; [left; reflexivity | exact Hinv].
    + simpl in Hwork. destruct retry; lia.
  - destruct (DOWNLOAD_QUEUE st) as [|[[app retry] previous] rest] eqn:Hqueue.
    + exists st. split; [|exact Hinv]. left. simpl. rewrite Hqueue. reflexivity.
    + cbn [crawl_loop]. rewrite Hqueue. cbn [fst].
      destruct (crawl_item (app, retry, previous) (download count app) (set_queue st rest))
        as [r st1] eqn:Hturn.
      destruct (crawl_item_effect _ _ _ _ _ _ _ Hturn) as [Houtcome Hq].
      assert (Hinv1 : failures_are_finished st1).
      { eapply failures_are_finished_step; [exact Houtcome|].
        apply failures_are_finished_set_queue. exact Hinv. }
      destruct r as [u|e].
      * apply IH; [exact Hinv1|].
        simpl in Hwork. simpl in Hq.
        destruct Hq as [-> | [-> [p ->]]].
        -- destruct retry; lia.
        -- rewrite work_app. simpl. lia.
      * exists st1. split; [right; exists e; reflexivity | exact Hinv1].
Qed.

Lemma append_one_differs : forall (A : Type) (l : list A) (x : A), l ++ [x] <> l.
Proof.
  intros A l x Heq. apply (f_equal (@List.length A)) in Heq.
  rewrite length_app in Heq. simpl in Heq. lia.
Qed.

(** C2 (amended).  A turn of the crawl loop leaves the app it handled in
    exactly one of three states: in the resumable log alone (downloaded), in
    the failure file and also in the resumable log (a final failure is recorded
    and the app is marked finished), or in neither file (abandoned, put back
    for its retry, or the loop is left).  The whole loop comes to an end, and no
    identifier is ever in the failure file without being in the resumable log
    as well. *)
Theorem crawl_outputs :
  (forall (app : string) (retry : bool) (previous : option (Z * string))
          (attempt : option string) (st st' : state) (r : result unit),
     crawl_item (app, retry, previous) attempt st = (r, st') ->
     item_outcome app st st') /\
  (forall (app reason : string) (st st' : state),
     ~ (finished_file st' = finished_file st ++ [finished_line app] /\
        finished_file st' = finished_file st) /\
     ~ (failure_file st' = failure_file st ++ [failure_line app reason] /\
        failure_file st' = failure_file st)) /\
  (forall (download : nat -> string -> option string) (fuel count : nat) (st : state),
     failures_are_finished st ->
     (work (DOWNLOAD_QUEUE st) <= fuel)%nat ->
     exists st',
       (crawl_loop download fuel count st = Finished st' \/
        exists e, crawl_loop download fuel count st = Crashed e st') /\
       failures_are_finished st').
Proof.
  split; [|split].
  - intros app retry previous attempt st st' r Hturn.
    exact (proj1 (crawl_item_effect _ _ _ _ _ _ _ Hturn)).
  - intros app reason st st'. split; intros [Hwritten Hsame];
      rewrite Hsame in Hwritten; symmetry in Hwritten;
      exact (append_one_differs _ _ _ Hwritten).
  - exact crawl_loop_ends.
Qed.

End CrawlRun.

Lemma fresh_failures_are_finished : forall (queue : list crawler.item),
  failures_are_finished (fresh queue).
Proof. intros queue line Hline. contradiction. Qed.

(** C2, an instance: [com.a] downloads, [com.b] meets two network failures; the
    run ends with [com.a] in the resumable log and [com.b] in neither file. *)
Lemma crawl_outputs_witness :
  crawler.crawl_loop success_then_timeouts 4 0
    (fresh [("com.a", false, None); ("com.b", false, None)])
  = crawler.Finished
      (crawler.mkState [] []
         ["com.b: Error for app 'com.b': Connection timed out" +++ crawler.nl;
          "com.b: Error for app 'com.b': Connection timed out" +++ crawler.nl]
         ["com.a" +++ crawler.nl]) /\
  exists st',
    (crawler.crawl_loop success_then_timeouts 4 0
       (fresh [("com.a", false, None); ("com.b", false, None)]) = crawler.Finished st' \/
     exists e, crawler.crawl_loop success_then_timeouts 4 0
                 (fresh [("com.a", false, None); ("com.b", false, None)])
               = crawler.Crashed e st') /\
    failures_are_finished st'.
Proof.
  split; [reflexivity|].
  exact (proj2 (proj2 crawl_outputs) success_then_timeouts 4%nat 0%nat
           (fresh [("com.a", false, None); ("com.b", false, None)])
           (fresh_failures_are_finished _) (le_n 4)).
Defined.

(** C2 as stated fails: [com.a] meets a server error and then the verdict
    [Item not found]; the run writes it to the failure file and to the
    resumable log. *)
Lemma failure_also_marked_finished :
  crawler.crawl_loop transient_then_not_found 2 0 (fresh [("com.a", false, None)])
  = crawler.Finished
      (crawler.mkState []
         ["com.a: Item not found" +++ crawler.nl]
         ["com.a: Error for app 'com.a': Server error" +++ crawler.nl]
         ["com.a" +++ crawler.nl]).
Proof. reflexivity. Qed.

(* ================================================================== *)
(** * Part IV. Further properties of the code *)
(* ================================================================== *)

(** ** Navigation (element.py) *)

Section Navigation.

(** Where chained indexing along a path succeeds, [nested_lookup] returns the
    same element; so does [extract_content] for a specification without
    post-processor whose dataset is in the map. *)
Theorem nested_lookup_follows_path :
  forall (indexes : list Z) (source v : value),
    indexes <> [] ->
    descend source indexes = Ok v ->
    nested_lookup source indexes = Ok v /\
    forall (ds : Z) (res : dict),
      dict_get res (dataset_key (spec ds indexes)) = Some source ->
      extract_content (spec ds indexes) res = Ok v.
Proof.
  assert (Hlookup : forall (indexes : list Z) (source v : value),
             indexes <> [] -> descend source indexes = Ok v ->
             nested_lookup source indexes = Ok v).
  { induction indexes as [|i rest IH]; intros source v Hne Hdescend; [contradiction Hne; reflexivity|].
    cbn [descend] in Hdescend.
    destruct (getitem source i) as [child|e] eqn:Hget; [|discriminate].
    destruct (getitem_ok_in_range _ _ _ Hget) as [Htruthy [n [Hlen Hlt]]].
    destruct rest as [|j rest].
    - simpl in Hdescend. inversion Hdescend; subst.
      rewrite nested_lookup_last, Htruthy. exact Hget.
    - rewrite nested_lookup_step, Htruthy, Hlen, Hget. cbn [negb].
      destruct (i >=? n)%Z eqn:Hge; [apply Z.geb_le in Hge; lia|].
      apply IH; [discriminate | exact Hdescend]. }
  intros indexes source v Hne Hdescend.
  pose proof (Hlookup indexes source v Hne Hdescend) as Hfound.
  split; [exact Hfound|].
  intros ds res Hres.
  rewrite extract_content_of_raw. unfold raw_content, dict_getitem.
  rewrite Hres. cbn [bind extraction_map spec]. rewrite Hfound.
  cbn [post_processor spec]. destruct (is_None v); reflexivity.
Qed.

(** The example of the docstring: the indexes [1, 4, 2] give ['DEVELOPER_URL']. *)
Lemma nested_lookup_docstring :
  nested_lookup docstring_source [1; 4; 2]%Z = Ok (VStr "DEVELOPER_URL").
Proof.
  exact (proj1 (nested_lookup_follows_path [1; 4; 2]%Z docstring_source (VStr "DEVELOPER_URL")
                  ltac:(discriminate) eq_refl)).
Defined.

(** [nested_lookup] raises only [KeyError], [IndexError] or [TypeError], the
    three classes that [extract_content] catches, and an empty list of indexes
    on a value that is not empty or zero raises [IndexError]. *)
Theorem nested_lookup_error_classes :
  forall (source : value) (indexes : list Z),
    (forall e, nested_lookup source indexes = Raise e ->
               e = KeyError \/ e = IndexError \/ e = TypeError) /\
    (truthy source = true -> nested_lookup source [] = Raise IndexError).
Proof.
  intros source indexes. split.
  - intros e Hraise. apply nested_lookup_raises in Hraise.
    destruct e; try discriminate; auto.
  - intros Htruthy. simpl. rewrite Htruthy. reflexivity.
Qed.

End Navigation.

(** ** Requests (utils.py) *)

Section Requests.
Context {rt : Runtime} (net : network).

Lemma format_field_raises : forall (params : list (string * string)) (k : string) (e : exn),
  format_field params k = Raise e -> e = InvalidURLError /\ dict_get params k = None.
Proof.
  intros params k e. unfold format_field.
  destruct (dict_get params k); [discriminate|]. intros Hraise; inversion Hraise; auto.
Qed.

Lemma format_field_ok : forall (params : list (string * string)) (k v : string),
  format_field params k = Ok v -> dict_get params k = Some v.
Proof.
  intros params k v. unfold format_field.
  destruct (dict_get params k); [|discriminate]. intros Hok; inversion Hok; reflexivity.
Qed.

(** [_build_url] raises nothing but [InvalidURLError]; it raises it for every
    type it does not know and whenever a field of the template is missing; and a
    URL it returns is one of the storefront, built with every field present. *)
Theorem build_url_total :
  forall (url_type : string) (params : list (string * string)),
    (forall e, _build_url url_type params = Raise e -> e = InvalidURLError) /\
    (~ In url_type url_types -> _build_url url_type params = Raise InvalidURLError) /\
    (forall k, In k (required_fields url_type) -> dict_get params k = None ->
               _build_url url_type params = Raise InvalidURLError) /\
    (forall url, _build_url url_type params = Ok url ->
                 In url_type url_types /\
                 prefix "https://play.google.com/" url = true /\
                 forall k, In k (required_fields url_type) -> dict_get params k <> None).
Proof.
  intros url_type params.
  unfold _build_url, required_fields, url_types.
  destruct (String.eqb url_type "details") eqn:Hdetails;
    [|destruct (String.eqb url_type "search") eqn:Hsearch;
      [|destruct (String.eqb url_type "collection") eqn:Hcollection;
        [|destruct (String.eqb url_type "filtered") eqn:Hfiltered;
          [|destruct (String.eqb url_type "ui") eqn:Hui]]]].
  6: { apply String.eqb_neq in Hdetails, Hsearch, Hcollection, Hfiltered, Hui.
       split; [|split; [|split]].
       - intros e Hraise; inversion Hraise; reflexivity.
       - intros _; reflexivity.
       - intros k [].
       - intros url Hok; discriminate. }
  all: try (apply String.eqb_eq in Hdetails); try (apply String.eqb_eq in Hsearch);
       try (apply String.eqb_eq in Hcollection); try (apply String.eqb_eq in Hfiltered);
       try (apply String.eqb_eq in Hui); subst url_type.
  all: repeat match goal with
       | |- context [format_field ?p ?k] =>
           let H := fresh "Hfield" in
           destruct (format_field p k) eqn:H;
           [apply format_field_ok in H
           |apply format_field_raises in H; destruct H as [-> H]];
           cbn [bind]
       end.
  all: (split; [|split; [|split]]);
       [ intros e Hraise; first [discriminate | inversion Hraise; reflexivity]
       | intros Hnot; exfalso; apply Hnot; simpl; tauto
       | intros k Hin Hmissing; first [reflexivity
           | simpl in Hin; repeat (destruct Hin as [<- | Hin]; [congruence|]); contradiction]
       | intros url Hok; first [discriminate
           | inversion Hok; split; [simpl; tauto|]; split; [reflexivity|];
             intros k Hin; simpl in Hin;
             repeat (destruct Hin as [<- | Hin]; [congruence|]); contradiction] ].
Qed.

(** A request is recorded once, whatever the answer. *)
Lemma request_recorded : forall (req : request) (tr tr' : trace) (r : result string),
  _request net req tr = (r, tr') -> tr' = tr ++ [req].
Proof.
  intros req tr tr' r. unfold _request.
  destruct (net (List.length tr) req) as [text|code|e];
    [|destruct (code =? 404)%Z|]; intros Hrequest; inversion Hrequest; reflexivity.
Qed.

Lemma ui_retry_budget :
  forall (left : nat) (req : request) (resp : string) (tr tr' : trace)
         (r : result (string * bool)),
    ui_retry net left req resp tr = (r, tr') ->
    exists n, (n <= left)%nat /\ tr' = tr ++ repeat req n.
Proof.
  induction left as [|left IH]; intros req resp tr tr' r Hretry.
  - simpl in Hretry. exists 0%nat. split; [lia|]. rewrite app_nil_r.
    destruct (contains "PlayDataError" resp); inversion Hretry; reflexivity.
  - cbn [ui_retry] in Hretry.
    destruct (contains "PlayDataError" resp).
    + unfold bindM in Hretry.
      destruct (_request net req tr) as [[resp'|e] tr1] eqn:Hrequest;
        apply request_recorded in Hrequest; subst tr1.
      * destruct (IH _ _ _ _ _ Hretry) as [n [Hn Htr]].
        exists (S n). split; [lia|]. rewrite Htr, <- app_assoc. reflexivity.
      * inversion Hretry; subst. exists 1%nat. split; [lia | reflexivity].
    + inversion Hretry; subst. exists 0%nat. split; [lia|]. rewrite app_nil_r. reflexivity.
Qed.

(** [_get_ui_request] sends the same POST at least once and at most six times
    for the two templates it knows; for any other [func] it raises [KeyError]
    and sends nothing. *)
Theorem get_ui_request_budget :
  forall (url func : string) (param : value) (tr tr' : trace) (r : result value),
    _get_ui_request net url func param tr = (r, tr') ->
    (func = "token" \/ func = "permission" ->
     exists n, (1 <= n <= 6)%nat /\ tr' = tr ++ repeat (POST url func param) n) /\
    (func <> "token" -> func <> "permission" -> r = Raise KeyError /\ tr' = tr).
Proof.
  intros url func param tr tr' r Hrequest. unfold _get_ui_request in Hrequest.
  destruct (String.eqb func "token" || String.eqb func "permission") eqn:Hfunc.
  - split.
    + intros _. unfold bindM in Hrequest.
      destruct (_request net (POST url func param) tr) as [[resp|e] tr1] eqn:Hfirst;
        apply request_recorded in Hfirst; subst tr1.
      * destruct (ui_retry net 5 (POST url func param) resp (tr ++ [POST url func param]))
          as [[[resp' gave_up]|e] tr2] eqn:Hretry;
          destruct (ui_retry_budget _ _ _ _ _ _ Hretry) as [n [Hn Htr]]; subst tr2.
        -- exists (S n). split; [lia|].
           destruct gave_up; unfold ret, lift in Hrequest; inversion Hrequest; subst;
             rewrite <- app_assoc; reflexivity.
        -- exists (S n). split; [lia|]. inversion Hrequest; subst.
           rewrite <- app_assoc. reflexivity.
      * exists 1%nat. split; [lia|]. inversion Hrequest; reflexivity.
    + intros Htoken Hpermission. apply orb_prop in Hfunc.
      destruct Hfunc as [Heq | Heq]; apply String.eqb_eq in Heq; contradiction.
  - split.
    + intros [-> | ->]; discriminate.
    + intros _ _. unfold lift in Hrequest. inversion Hrequest; auto.
Qed.

End Requests.

(** [_build_url], an instance: the type [filtered] without its [category]. *)
Lemma build_url_missing_field :
  _build_url "filtered" [("collection", "top"); ("hl", EmptyString); ("gl", EmptyString)]
  = Raise InvalidURLError.
Proof.
  exact (proj1 (proj2 (proj2 (build_url_total "filtered"
           [("collection", "top"); ("hl", EmptyString); ("gl", EmptyString)])))
           "category" ltac:(simpl; tauto) eq_refl).
Defined.

(** [_get_ui_request], an instance: under [marker_network] the budget of six
    requests is used up. *)
Lemma get_ui_request_budget_witness :
  exists n, (1 <= n <= 6)%nat /\
    [POST (ui_url None None) "token" (VStr "TOKEN");
     POST (ui_url None None) "token" (VStr "TOKEN");
     POST (ui_url None None) "token" (VStr "TOKEN");
     POST (ui_url None None) "token" (VStr "TOKEN");
     POST (ui_url None None) "token" (VStr "TOKEN");
     POST (ui_url None None) "token" (VStr "TOKEN")]
    = [] ++ repeat (POST (ui_url None None) "token" (VStr "TOKEN")) n.
Proof.
  refine (proj1 (@get_ui_request_budget example.runtime marker_network (ui_url None None)
                   "token" (VStr "TOKEN") [] _ _ _) (or_introl eq_refl)).
  vm_compute. reflexivity.
Defined.

(** ** Lists of apps and the download link (utils.py) *)

Section AppLists.

Lemma parse_app_list_from_limit : forall (items : list value) (idx n : Z),
  (0 <= idx)%Z -> n <> 0%Z ->
  parse_app_list_from idx items (Some n)
  = mapM app_id_of (firstn (Z.to_nat (n - idx)) items).
Proof.
  induction items as [|app items IH]; intros idx n Hidx Hn.
  - simpl. rewrite firstn_nil. reflexivity.
  - cbn [parse_app_list_from].
    replace (n =? 0)%Z with false by (symmetry; apply Z.eqb_neq; exact Hn).
    cbn [orb].
    destruct (idx <? n)%Z eqn:Hlt.
    + apply Z.ltb_lt in Hlt.
      replace (Z.to_nat (n - idx)) with (S (Z.to_nat (n - (idx + 1)))) by lia.
      cbn [firstn mapM]. unfold app_id_of at 1.
      rewrite IH by lia. reflexivity.
    + apply Z.ltb_ge in Hlt.
      replace (Z.to_nat (n - idx)) with 0%nat by lia.
      rewrite IH by lia.
      replace (Z.to_nat (n - (idx + 1))) with 0%nat by lia. reflexivity.
Qed.

Lemma parse_app_list_from_all : forall (items : list value) (idx : Z) (num : option Z),
  num = None \/ num = Some 0%Z ->
  parse_app_list_from idx items num = mapM app_id_of items.
Proof.
  induction items as [|app items IH]; intros idx num Hnum; [reflexivity|].
  cbn [parse_app_list_from mapM]. unfold app_id_of at 1.
  rewrite (IH (idx + 1)%Z num Hnum).
  destruct Hnum as [-> | ->]; reflexivity.
Qed.

(** [_parse_app_list] with a limit reads the first [num] apps and nothing
    after them: the apps past the limit are not inspected, so a malformed one
    does not make the call raise, and the result has at most [num] entries.
    Without a limit, or with the limit [0], every app is read. *)
Theorem parse_app_list_limit :
  forall (apps : value) (items : list value) (n : Z),
    iter apps = Ok items ->
    (n <> 0%Z ->
     _parse_app_list apps (Some n) = mapM app_id_of (firstn (Z.to_nat n) items)) /\
    _parse_app_list apps (Some 0%Z) = mapM app_id_of items /\
    _parse_app_list apps None = mapM app_id_of items /\
    (forall ids, (0 < n)%Z -> _parse_app_list apps (Some n) = Ok ids ->
                 List.length ids = Nat.min (Z.to_nat n) (List.length items)).
Proof.
  intros apps items n Hiter. unfold _parse_app_list. rewrite Hiter. cbn [bind].
  assert (Hlimit : n <> 0%Z ->
            parse_app_list_from 0 items (Some n)
            = mapM app_id_of (firstn (Z.to_nat n) items)).
  { intros Hn. rewrite parse_app_list_from_limit by (lia || exact Hn).
    rewrite Z.sub_0_r. reflexivity. }
  split; [exact Hlimit|]. split; [|split].
  - apply parse_app_list_from_all. right. reflexivity.
  - apply parse_app_list_from_all. left. reflexivity.
  - intros ids Hpos Hids. rewrite Hlimit in Hids by lia.
    rewrite <- (length_firstn (Z.to_nat n) items).
    generalize dependent ids. generalize (firstn (Z.to_nat n) items) as l.
    induction l as [|a l IH]; intros ids Hids; simpl in Hids.
    + inversion Hids. reflexivity.
    + destruct (app_id_of a); [|discriminate].
      destruct (mapM app_id_of l) as [ids'|]; [|discriminate].
      inversion Hids; subst. simpl. rewrite (IH ids' eq_refl). reflexivity.
Qed.

Lemma download_of_button_raises : forall (i : string) (e : exn),
  download_of_button i = Raise e -> e = IndexError.
Proof.
  intros i e. unfold download_of_button.
  destruct (seq_index (regex.DOWNLOAD_findall i) 0) as [download|e'] eqn:Hfirst; cbn [bind].
  - destruct (seq_index (split "content=" (replace ">" EmptyString download)) 1)
      as [link|e'] eqn:Hsecond; cbn [bind].
    + discriminate.
    + intros Hraise; inversion Hraise; subst. eapply seq_index_raises; eassumption.
  - intros Hraise; inversion Hraise; subst. eapply seq_index_raises; eassumption.
Qed.

Lemma download_link_first_offer : forall (before after : list string) (i : string),
  (forall j, In j before -> regex.OFFER_findall j = []) ->
  regex.OFFER_findall i <> [] ->
  download_link_loop (before ++ i :: after) = download_of_button i.
Proof.
  induction before as [|j before IH]; intros after i Hnone Hoffer.
  - cbn [List.app download_link_loop].
    destruct (regex.OFFER_findall i); [contradiction Hoffer; reflexivity | reflexivity].
  - cbn [List.app download_link_loop].
    rewrite (Hnone j (or_introl eq_refl)).
    apply IH; [|exact Hoffer]. intros j' Hin. apply Hnone. right. exact Hin.
Qed.

(** [_download_link] returns [(None, None)] when no button block holds an
    offer.  Otherwise the first button block with an offer decides, and the
    blocks after it are not looked at: the link is the text after [content=]
    in the first tag of that block that matches [DOWNLOAD], without its [>], its
    quotes and its [amp;], and the flag says whether the block lacks
    [ disabled>].  The function raises nothing but [IndexError], and raises it
    when that block holds no such tag. *)
Theorem download_link_outcomes : forall (dom : string),
  ((forall i, In i (regex.BUTTON_findall dom) -> regex.OFFER_findall i = []) ->
   _download_link dom = Ok (VNone, VNone)) /\
  (forall before i after,
     regex.BUTTON_findall dom = before ++ i :: after ->
     (forall j, In j before -> regex.OFFER_findall j = []) ->
     regex.OFFER_findall i <> [] ->
     _download_link dom = download_of_button i /\
     (regex.DOWNLOAD_findall i = [] -> _download_link dom = Raise IndexError) /\
     (forall link enabled, _download_link dom = Ok (link, enabled) ->
        enabled = VBool (negb (contains " disabled>" i)) /\
        exists tag piece,
          seq_index (regex.DOWNLOAD_findall i) 0 = Ok tag /\
          seq_index (split "content=" (replace ">" EmptyString tag)) 1 = Ok piece /\
          link = VStr (replace "amp;" EmptyString (replace dquote EmptyString piece)))) /\
  (forall link enabled, _download_link dom = Ok (link, enabled) ->
     (link = VNone /\ enabled = VNone) \/ exists s b, link = VStr s /\ enabled = VBool b) /\
  (forall e, _download_link dom = Raise e -> e = IndexError).
Proof.
  intros dom. unfold _download_link.
  split; [|split].
  - induction (regex.BUTTON_findall dom) as [|i button IH]; cbn [download_link_loop];
      [reflexivity|].
    intros Hall. rewrite (Hall i (or_introl eq_refl)).
    apply IH. intros j Hin. apply Hall. right. exact Hin.
  - intros before i after Hbuttons Hnone Hoffer.
    rewrite Hbuttons, (download_link_first_offer before after i Hnone Hoffer).
    split; [reflexivity|]. split.
    + intros Hempty. unfold download_of_button. rewrite Hempty. reflexivity.
    + intros link enabled. unfold download_of_button.
      destruct (seq_index (regex.DOWNLOAD_findall i) 0) as [tag|] eqn:Htag; cbn [bind];
        [|discriminate].
      destruct (seq_index (split "content=" (replace ">" EmptyString tag)) 1) as [piece|]
        eqn:Hpiece; cbn [bind]; [|discriminate].
      intros Hok; inversion Hok; subst. split; [reflexivity|].
      exists tag, piece. split; [reflexivity|]. split; [exact Hpiece | reflexivity].
  - induction (regex.BUTTON_findall dom) as [|i button IH]; cbn [download_link_loop].
    + split; [|discriminate].
      intros link enabled Hok. inversion Hok. left. split; reflexivity.
    + destruct (regex.OFFER_findall i) as [|offer offers]; [exact IH|].
      split.
      * intros link enabled Hok. right. unfold download_of_button in Hok.
        destruct (seq_index (regex.DOWNLOAD_findall i) 0) as [download|e']; [|discriminate].
        cbn [bind] in Hok.
        destruct (seq_index (split "content=" (replace ">" EmptyString download)) 1)
          as [tag|e']; [|discriminate].
        cbn [bind] in Hok. inversion Hok. eauto.
      * apply download_of_button_raises.
Qed.

End AppLists.

(** A limit of two: the third app, which is no list, is never looked at. *)
Lemma parse_app_list_limit_witness :
  iter apps_with_broken_tail = Ok [VList [VInt 0; VInt 0; VInt 0; VInt 0; VInt 0; VInt 0;
                                          VInt 0; VInt 0; VInt 0; VInt 0; VInt 0; VInt 0;
                                          VList [VStr "com.a"]];
                                   VList [VInt 0; VInt 0; VInt 0; VInt 0; VInt 0; VInt 0;
                                          VInt 0; VInt 0; VInt 0; VInt 0; VInt 0; VInt 0;
                                          VList [VStr "com.b"]];
                                   VInt 7] /\
  _parse_app_list apps_with_broken_tail (Some 2%Z) = Ok [VStr "com.a"; VStr "com.b"] /\
  _parse_app_list apps_with_broken_tail None = Raise TypeError.
Proof.
  split; [reflexivity|].
  pose proof (parse_app_list_limit apps_with_broken_tail _ 2%Z eq_refl) as [Hlimit [_ [Hall _]]].
  split.
  - rewrite Hlimit by discriminate. reflexivity.
  - rewrite Hall. reflexivity.
Defined.

(** A page with three buttons: the first one holds no offer, the second one
    decides, and the offer of the third one is not looked at. *)
Lemma download_link_outcomes_witness :
  regex.BUTTON_findall offer_page
  = ["<button>Share</button>"] ++ offer_button first_offer :: [offer_button second_offer] /\
  _download_link offer_page
  = Ok (VStr "https://play.google.com/store/apps/details?id=com.a&rdid=com.a", VBool true).
Proof.
  assert (Hbuttons : regex.BUTTON_findall offer_page
            = ["<button>Share</button>"] ++ offer_button first_offer
                :: [offer_button second_offer])
    by (vm_compute; reflexivity).
  split; [exact Hbuttons|].
  rewrite (proj1 (proj1 (proj2 (download_link_outcomes offer_page))
                    ["<button>Share</button>"] (offer_button first_offer)
                    [offer_button second_offer] Hbuttons
                    ltac:(intros j [<- | []]; vm_compute; reflexivity)
                    ltac:(vm_compute; discriminate))).
  vm_compute. reflexivity.
Defined.

(** ** The record of an app (api.py) *)

Section Details.
Context {rt : Runtime} (net : network).

Lemma parse_matches_raises : forall (matches : list string) (res : dict) (e : exn),
  parse_matches matches res = Raise e -> e = JSONDecodeError.
Proof.
  induction matches as [|m matches IH]; intros res e; cbn [parse_matches]; [discriminate|].
  destruct (regex.KEY_findall m) as [|k ks]; [apply IH|].
  destruct (regex.VALUE_findall m) as [|v vs]; [apply IH|].
  unfold json_loads. destruct (json_decode v); [apply IH|].
  intros Hraise; inversion Hraise; reflexivity.
Qed.

Lemma max_key_raises : forall (keys : list string) (best : string) (n : Z) (e : exn),
  max_key best n keys = Raise e -> e = ValueError.
Proof.
  induction keys as [|k keys IH]; intros best n e; cbn [max_key]; [discriminate|].
  unfold py_int. destruct (int_of_str (lstrip_chars "ds:" k)) as [m|].
  - destruct (m >? n)%Z; apply IH.
  - intros Hraise; inversion Hraise; reflexivity.
Qed.

Lemma max_key_in : forall (keys : list string) (best : string) (n : Z) (k : string),
  max_key best n keys = Ok k -> k = best \/ In k keys.
Proof.
  induction keys as [|k0 keys IH]; intros best n k; cbn [max_key].
  - intros Hok; inversion Hok; auto.
  - destruct (py_int (lstrip_chars "ds:" k0)) as [m|]; [|discriminate].
    destruct (m >? n)%Z; intros Hok; apply IH in Hok;
      (destruct Hok as [-> | Hin]; simpl; auto).
Qed.

Lemma location_key_raises : forall (res : dict) (e : exn),
  location_key res = Raise e -> e = ValueError.
Proof.
  intros res e. unfold location_key.
  destruct (dict_keys res) as [|k keys]; [intros Hraise; inversion Hraise; reflexivity|].
  unfold py_int. destruct (int_of_str (lstrip_chars "ds:" k)) as [m|]; cbn [bind].
  - apply max_key_raises.
  - intros Hraise; inversion Hraise; reflexivity.
Qed.

Lemma location_key_in : forall (res : dict) (k : string),
  location_key res = Ok k -> In k (dict_keys res).
Proof.
  intros res k. unfold location_key.
  destruct (dict_keys res) as [|k0 keys]; [discriminate|].
  destruct (py_int (lstrip_chars "ds:" k0)) as [m|]; cbn [bind]; [|discriminate].
  intros Hok. apply max_key_in in Hok. simpl. destruct Hok as [-> | Hin]; auto.
Qed.

Lemma dict_get_of_key : forall (A : Type) (d : list (string * A)) (k : string),
  In k (dict_keys d) -> exists v, dict_get d k = Some v.
Proof.
  intros A d k. induction d as [|[k' v'] d IH]; simpl; [contradiction|].
  intros [-> | Hin].
  - rewrite String.eqb_refl. eauto.
  - destruct (String.eqb k k'); eauto.
Qed.

Lemma dict_keys_set : forall (A : Type) (d : list (string * A)) (k : string) (v : A),
  dict_keys (dict_set d k v) = add_key (dict_keys d) k.
Proof.
  intros A d k v. unfold add_key, mem_string.
  induction d as [|[k' v'] d IH]; [reflexivity|].
  cbn [dict_set dict_keys map fst existsb].
  destruct (String.eqb k k') eqn:Heq; cbn [orb dict_keys map fst]; [reflexivity|].
  fold (dict_keys (dict_set d k v)). rewrite IH. fold (dict_keys d).
  destruct (existsb (String.eqb k) (dict_keys d)); reflexivity.
Qed.

Lemma extract_fields_keys :
  forall (registry : list (string * ElementSpec)) (res result r : dict),
    extract_fields registry res result = Ok r ->
    dict_keys r = fold_left add_key (map fst registry) (dict_keys result).
Proof.
  induction registry as [|[key spec] registry IH]; intros res result r; cbn [extract_fields].
  - intros Hok; inversion Hok; reflexivity.
  - destruct (extract_content spec res) as [content|]; [|discriminate].
    intros Hok. apply IH in Hok. rewrite Hok, dict_keys_set. reflexivity.
Qed.

Lemma extract_fields_other :
  forall (registry : list (string * ElementSpec)) (res result r : dict) (k : string),
    ~ In k (map fst registry) ->
    extract_fields registry res result = Ok r ->
    dict_get r k = dict_get result k.
Proof.
  induction registry as [|[key spec] registry IH]; intros res result r k Hnot; cbn [extract_fields].
  - intros Hok; inversion Hok; reflexivity.
  - destruct (extract_content spec res) as [content|]; [|discriminate].
    intros Hok. apply (IH _ _ _ k) in Hok; [|intros Hin; apply Hnot; right; exact Hin].
    rewrite Hok. apply dict_get_set_other.
    intros ->. apply Hnot. left. reflexivity.
Qed.

Lemma download_link_raises : forall (dom : string) (e : exn),
  _download_link dom = Raise e -> e = IndexError.
Proof.
  intros dom e. unfold _download_link.
  induction (regex.BUTTON_findall dom) as [|i button IH]; cbn [download_link_loop]; [discriminate|].
  destruct (regex.OFFER_findall i); [exact IH | apply download_of_button_raises].
Qed.

(** [details] is one request followed by [details_of_page]. *)
Lemma details_unfold : forall (app_id : string) (lang country : option string) (tr : trace),
  details net app_id lang country tr =
  (match net (List.length tr) (GET (details_url app_id lang country)) with
   | Body dom => details_of_page app_id (details_url app_id lang country) dom
   | HTTPError code => Raise (http_exn code)
   | Failed e => Raise e
   end, tr ++ [GET (details_url app_id lang country)]).
Proof.
  intros app_id lang country tr.
  unfold details. rewrite build_details_url.
  unfold bindM, lift, ret, _request, details_of_page, http_exn.
  destruct (net (List.length tr) (GET (details_url app_id lang country))) as [dom|code|e];
    [|destruct (code =? 404)%Z; reflexivity|reflexivity].
  destruct (_parse_response dom) as [res|]; cbn [bind]; [|reflexivity].
  destruct (location_key res) as [key|]; cbn [bind]; [|reflexivity].
  destruct (dict_getitem res key) as [site|]; cbn [bind]; [|reflexivity].
  destruct (getitem site 4) as [siteLocation|]; cbn [bind]; [|reflexivity].
  destruct (getitem site 5) as [siteLanguage|]; cbn [bind]; [|reflexivity].
  destruct (extract_fields DETAIL res _) as [result|]; cbn [bind]; [|reflexivity].
  destruct (_download_link dom) as [link|]; reflexivity.
Qed.

Lemma details_of_page_raises : forall (app_id url dom : string) (e : exn),
  details_of_page app_id url dom = Raise e ->
  e = JSONDecodeError \/ e = ValueError \/ e = KeyError \/ e = IndexError \/ e = TypeError.
Proof.
  intros app_id url dom e. unfold details_of_page.
  destruct (_parse_response dom) as [res|e0] eqn:Hparse; cbn [bind].
  2: { intros Hraise; inversion Hraise; subst. apply parse_matches_raises in Hparse. auto. }
  destruct (location_key res) as [key|e0] eqn:Hkey; cbn [bind].
  2: { intros Hraise; inversion Hraise; subst. apply location_key_raises in Hkey. auto. }
  destruct (dict_get_of_key _ _ _ (location_key_in _ _ Hkey)) as [site Hsite].
  unfold dict_getitem. rewrite Hsite. cbn [bind].
  assert (Hlookup : forall e', is_lookup_failure e' = true ->
            e' = JSONDecodeError \/ e' = ValueError \/ e' = KeyError \/ e' = IndexError
            \/ e' = TypeError).
  { intros e'. destruct e'; simpl; try discriminate; auto. }
  destruct (getitem site 4) as [siteLocation|e0] eqn:Hlocation; cbn [bind].
  2: { intros Hraise; inversion Hraise; subst. apply getitem_raises in Hlocation. auto. }
  destruct (getitem site 5) as [siteLanguage|e0] eqn:Hlanguage; cbn [bind].
  2: { intros Hraise; inversion Hraise; subst. apply getitem_raises in Hlanguage. auto. }
  match goal with
  | |- context [extract_fields DETAIL res ?r] =>
      destruct (extract_fields_total DETAIL res r) as [result Hresult]; rewrite Hresult
  end.
  cbn [bind].
  destruct (_download_link dom) as [link|e0] eqn:Hlink; cbn [bind]; [discriminate|].
  intros Hraise; inversion Hraise; subst. apply download_link_raises in Hlink. auto.
Qed.

Lemma details_of_page_record : forall (app_id url dom : string) (metadata : dict),
  details_of_page app_id url dom = Ok metadata ->
  dict_keys metadata = record_keys /\
  dict_get metadata "appId" = Some (VStr app_id) /\
  dict_get metadata "url" = Some (VStr url).
Proof.
  intros app_id url dom metadata. unfold details_of_page.
  destruct (_parse_response dom) as [res|]; cbn [bind]; [|discriminate].
  destruct (location_key res) as [key|]; cbn [bind]; [|discriminate].
  destruct (dict_getitem res key) as [site|]; cbn [bind]; [|discriminate].
  destruct (getitem site 4) as [siteLocation|]; cbn [bind]; [|discriminate].
  destruct (getitem site 5) as [siteLanguage|]; cbn [bind]; [|discriminate].
  destruct (extract_fields DETAIL res _) as [result|] eqn:Hresult; cbn [bind]; [|discriminate].
  destruct (_download_link dom) as [link|]; cbn [bind]; [|discriminate].
  intros Hok; inversion Hok; subst metadata. clear Hok.
  assert (Hfresh : forall k, In k ["appId"; "url"] -> ~ In k (map fst DETAIL)).
  { intros k Hin Hdetail. simpl in Hin.
    destruct Hin as [<- | [<- | []]];
      (cbv in Hdetail; repeat (destruct Hdetail as [Heq | Hdetail]; [discriminate Heq|]);
       exact Hdetail). }
  split; [|split].
  - rewrite !dict_keys_set. rewrite (extract_fields_keys _ _ _ _ Hresult). reflexivity.
  - rewrite !dict_get_set_other by discriminate.
    rewrite (extract_fields_other _ _ _ _ "appId" (Hfresh "appId" ltac:(simpl; tauto)) Hresult).
    reflexivity.
  - rewrite !dict_get_set_other by discriminate.
    rewrite (extract_fields_other _ _ _ _ "url" (Hfresh "url" ltac:(simpl; tauto)) Hresult).
    reflexivity.
Qed.

(** [details] sends one GET for the page of the app, whatever comes back.  An
    HTTP status becomes [NotFoundError] (404) or [ExtraHTTPError]; on a page it
    raises nothing but [JSONDecodeError], [ValueError], [KeyError],
    [IndexError] or [TypeError]; and a record it returns has the fifty fields
    of [record_keys] in that order, with the app and the URL it asked for. *)
Theorem details_contract :
  forall (app_id : string) (lang country : option string) (tr : trace),
    snd (details net app_id lang country tr) = tr ++ [GET (details_url app_id lang country)] /\
    (forall code,
        net (List.length tr) (GET (details_url app_id lang country)) = HTTPError code ->
        fst (details net app_id lang country tr)
        = Raise (if (code =? 404)%Z then NotFoundError else ExtraHTTPError code)) /\
    (forall dom e,
        net (List.length tr) (GET (details_url app_id lang country)) = Body dom ->
        fst (details net app_id lang country tr) = Raise e ->
        e = JSONDecodeError \/ e = ValueError \/ e = KeyError \/ e = IndexError
        \/ e = TypeError) /\
    (forall metadata,
        fst (details net app_id lang country tr) = Ok metadata ->
        dict_keys metadata = record_keys /\
        dict_get metadata "appId" = Some (VStr app_id) /\
        dict_get metadata "url" = Some (VStr (details_url app_id lang country))).
Proof.
  intros app_id lang country tr. rewrite details_unfold. cbn [fst snd].
  split; [reflexivity|]. split; [|split].
  - intros code Hnet. rewrite Hnet. reflexivity.
  - intros dom e Hnet. rewrite Hnet. apply details_of_page_raises.
  - intros metadata.
    destruct (net (List.length tr) (GET (details_url app_id lang country))) as [dom|code|e];
      [apply details_of_page_record | discriminate | discriminate].
Qed.

End Details.

(** ** The metadata worker (metadata_crawl.py) *)

Section MetadataWorker.
Context {rt : Runtime} (net : network).

Lemma dict_remove_keys : forall (d : dict) (k : string),
  dict_keys (metadata_crawl.dict_remove d k) = remove_key (dict_keys d) k.
Proof.
  intros d k. induction d as [|[k' v'] d IH]; [reflexivity|].
  cbn [metadata_crawl.dict_remove dict_keys map fst remove_key].
  destruct (String.eqb k k'); [reflexivity|].
  cbn [dict_keys map fst]. f_equal. exact IH.
Qed.

Lemma dict_get_remove_other : forall (d : dict) (k k' : string),
  k' <> k -> dict_get (metadata_crawl.dict_remove d k) k' = dict_get d k'.
Proof.
  intros d k k' Hneq. induction d as [|[k0 v0] d IH]; [reflexivity|].
  cbn [metadata_crawl.dict_remove dict_get].
  destruct (String.eqb k k0) eqn:Heq.
  - apply String.eqb_eq in Heq. subst k0.
    destruct (String.eqb k' k) eqn:Heq'; [apply String.eqb_eq in Heq'; contradiction | reflexivity].
  - cbn [dict_get]. rewrite IH. reflexivity.
Qed.

Lemma mem_string_key : forall (d : dict) (k : string),
  mem_string k (dict_keys d) = true -> exists v, dict_get d k = Some v.
Proof.
  intros d k Hmem. apply dict_get_of_key. apply mem_string_In. exact Hmem.
Qed.

(** The pops of [keys] in turn, read off the keys of the dictionary. *)
Lemma pop_all_keys : forall (keys : list string) (d : dict) (left : list string),
  pop_keys (dict_keys d) keys = Some left ->
  exists d',
    metadata_crawl.pop_all d keys = Ok d' /\
    dict_keys d' = left /\
    forall k, ~ In k keys -> dict_get d' k = dict_get d k.
Proof.
  induction keys as [|k keys IH]; intros d left; cbn [pop_keys metadata_crawl.pop_all].
  - intros Hsome; inversion Hsome; subst. exists d. auto.
  - destruct (mem_string k (dict_keys d)) eqn:Hmem; [|discriminate].
    destruct (mem_string_key _ _ Hmem) as [v Hv].
    unfold metadata_crawl.dict_pop. rewrite Hv.
    rewrite <- dict_remove_keys. intros Hsome.
    destruct (IH _ _ Hsome) as [d' [Hpop [Hkeys Hsame]]].
    exists d'. split; [exact Hpop|]. split; [exact Hkeys|].
    intros k' Hnot. rewrite Hsame by (intros Hin; apply Hnot; right; exact Hin).
    apply dict_get_remove_other. intros ->. apply Hnot. left. reflexivity.
Qed.

Lemma record_field : forall (metadata : dict) (k : string),
  dict_keys metadata = record_keys -> In k record_keys ->
  exists v, dict_get metadata k = Some v.
Proof.
  intros metadata k Hkeys Hin. apply dict_get_of_key. rewrite Hkeys. exact Hin.
Qed.

(** With the fields of a record of [details], [save_metadata] succeeds. *)
Lemma save_metadata_record :
  forall (save_full : bool) (app : string) (metadata : dict) (q : metadata_crawl.queues),
    dict_keys metadata = record_keys ->
    exists item siteLocation,
      dict_get metadata "siteLocation" = Some siteLocation /\
      metadata_crawl.save_metadata save_full app metadata q
      = (Ok tt,
         metadata_crawl.put_log (metadata_crawl.put_metadata q item)
           (app +++ ": siteLocation " +++ str siteLocation +++ ", written" +++ metadata_crawl.nl)) /\
      (save_full = false ->
       exists row, item = metadata_crawl.Row row /\
                   metadata_crawl.reduced_row app metadata = Ok row) /\
      (save_full = true ->
       exists record, item = metadata_crawl.FullRecord record /\
                      dict_keys record = documented_columns /\
                      forall k, In k documented_columns ->
                                dict_get record k = dict_get metadata k).
Proof.
  intros save_full app metadata q Hkeys.
  destruct (record_field metadata "siteLocation" Hkeys ltac:(simpl; tauto))
    as [siteLocation Hlocation].
  unfold metadata_crawl.save_metadata. destruct save_full.
  - destruct (pop_all_keys metadata_crawl.remove metadata documented_columns)
      as [record [Hpop [Hcolumns Hsame]]]; [rewrite Hkeys; reflexivity|].
    assert (Hkept : forall k, In k documented_columns ->
                              dict_get record k = dict_get metadata k).
    { intros k Hin. apply Hsame. intros Hremoved.
      simpl in Hin, Hremoved.
      repeat (destruct Hremoved as [<- | Hremoved];
              [repeat (destruct Hin as [Heq | Hin]; [discriminate Heq|]); exact Hin|]).
      exact Hremoved. }
    exists (metadata_crawl.FullRecord record), siteLocation.
    split; [exact Hlocation|].
    rewrite Hpop. cbn [bind]. unfold dict_getitem.
    rewrite (Hkept "siteLocation" ltac:(simpl; tauto)), Hlocation.
    split; [reflexivity|]. split; [discriminate|].
    intros _. exists record. auto.
  - destruct (record_field metadata "version" Hkeys ltac:(simpl; tauto)) as [version Hversion].
    destruct (record_field metadata "updated" Hkeys ltac:(simpl; tauto)) as [updated Hupdated].
    destruct (record_field metadata "released" Hkeys ltac:(simpl; tauto)) as [released Hreleased].
    destruct (record_field metadata "downloadLink" Hkeys ltac:(simpl; tauto)) as [dl Hdl].
    destruct (record_field metadata "downloadLinkEnabled" Hkeys ltac:(simpl; tauto))
      as [dle Hdle].
    assert (Hrow : exists row, metadata_crawl.reduced_row app metadata = Ok row).
    { unfold metadata_crawl.reduced_row, dict_getitem.
      rewrite Hversion, Hupdated, Hreleased, Hdl, Hdle. cbn [bind].
      destruct (truthy released); eauto. }
    destruct Hrow as [row Hrow].
    exists (metadata_crawl.Row row), siteLocation.
    split; [exact Hlocation|].
    rewrite Hrow. cbn [bind]. unfold dict_getitem. rewrite Hlocation.
    split; [reflexivity|]. split; [|discriminate].
    intros _. exists row. auto.
Qed.

Lemma details_record_keys :
  forall (app : string) (tr tr' : trace) (metadata : dict),
    details net app None None tr = (Ok metadata, tr') ->
    dict_keys metadata = record_keys.
Proof.
  intros app tr tr' metadata Hdetails.
  pose proof (details_unfold net app None None tr) as Hunfold.
  rewrite Hdetails in Hunfold. inversion Hunfold as [[Hpage Htrace]].
  destruct (net (List.length tr) (GET (details_url app None None))) as [dom|code|e];
    [|discriminate|discriminate].
  symmetry in Hpage. apply details_of_page_record in Hpage. tauto.
Qed.

Lemma details_record_is_saved_aux :
  forall (save_full retry : bool) (app : string) (q : metadata_crawl.queues)
         (tr tr' : trace) (metadata : dict),
    details net app None None tr = (Ok metadata, tr') ->
    exists item line,
      metadata_crawl.try_metadata net save_full app retry q tr
      = (Ok true, metadata_crawl.put_log (metadata_crawl.put_metadata q item) line, tr').
Proof.
  intros save_full retry app q tr tr' metadata Hdetails.
  destruct (save_metadata_record save_full app metadata q
              (details_record_keys _ _ _ _ Hdetails))
    as [item [siteLocation [_ [Hsave _]]]].
  exists item. eexists.
  unfold metadata_crawl.try_metadata. rewrite Hdetails, Hsave. reflexivity.
Qed.

(** Whenever [details] returns a record, [try_metadata] saves it and logs the
    site location; it reports the app as done and puts nothing back on the queue
    of apps.  With [--full_metadata] the saved record has exactly the columns
    that the docstring of the script lists, in that order, each with the value
    [details] gave it; without, it is the row of [reduced_row]. *)
Theorem details_record_is_saved :
  forall (save_full retry : bool) (app : string) (q : metadata_crawl.queues)
         (tr tr' : trace) (metadata : dict),
    details net app None None tr = (Ok metadata, tr') ->
    exists item siteLocation,
      dict_get metadata "siteLocation" = Some siteLocation /\
      metadata_crawl.try_metadata net save_full app retry q tr
      = (Ok true,
         metadata_crawl.put_log (metadata_crawl.put_metadata q item)
           (app +++ ": siteLocation " +++ str siteLocation +++ ", written" +++ metadata_crawl.nl),
         tr') /\
      (save_full = false ->
       exists row, item = metadata_crawl.Row row /\
                   metadata_crawl.reduced_row app metadata = Ok row) /\
      (save_full = true ->
       exists record, item = metadata_crawl.FullRecord record /\
                      dict_keys record = documented_columns /\
                      forall k, In k documented_columns ->
                                dict_get record k = dict_get metadata k).
Proof.
  intros save_full retry app q tr tr' metadata Hdetails.
  destruct (save_metadata_record save_full app metadata q
              (details_record_keys _ _ _ _ Hdetails))
    as [item [siteLocation [Hlocation [Hsave Hitem]]]].
  exists item, siteLocation. split; [exact Hlocation|]. split; [|exact Hitem].
  unfold metadata_crawl.try_metadata. rewrite Hdetails, Hsave. reflexivity.
Qed.

(** What one call of [try_metadata] does, by the outcome of [details]. *)
Lemma try_metadata_cases :
  forall (save_full retry : bool) (app : string) (q q' : metadata_crawl.queues)
         (tr tr' : trace) (r : result bool),
    metadata_crawl.try_metadata net save_full app retry q tr = (r, q', tr') ->
    tr' = tr ++ [GET (details_url app None None)] /\
    ((r = Ok true /\
      exists item line, q' = metadata_crawl.put_log (metadata_crawl.put_metadata q item) line) \/
     (r = Ok false /\ retry = false /\ q' = q) \/
     (r = Ok true /\ retry = true /\
      exists e, exceptions.is_GooglePlayScraperException e = true /\
                q' = metadata_crawl.put_log q
                       (app +++ ": " +++ exceptions.message e +++ metadata_crawl.nl)) \/
     (r = Ok true /\ q' = metadata_crawl.put_app q app) \/
     (exists e, r = Raise e /\ uncaught e = true /\ q' = q)).
Proof.
  intros save_full retry app q q' tr tr' r Htry.
  destruct (details net app None None tr) as [answer tr1] eqn:Hdetails.
  assert (Htrace : tr1 = tr ++ [GET (details_url app None None)]).
  { pose proof (details_unfold net app None None tr) as Hunfold.
    rewrite Hdetails in Hunfold. inversion Hunfold; reflexivity. }
  destruct answer as [metadata|e].
  - destruct (details_record_is_saved_aux save_full retry app q tr tr1 metadata Hdetails)
      as [item [line Hsaved]].
    rewrite Hsaved in Htry. inversion Htry; subst.
    split; [reflexivity|]. left. eauto.
  - unfold metadata_crawl.try_metadata in Htry. rewrite Hdetails in Htry.
    unfold uncaught.
    destruct (exceptions.is_GooglePlayScraperException e) eqn:Hscraper.
    + destruct retry; cbn [negb] in Htry; inversion Htry; subst; (split; [reflexivity|]).
      * right. right. left. eauto.
      * right. left. auto.
    + destruct (exceptions.is_ValueError e || exceptions.is_OSError e) eqn:Hother;
        inversion Htry; subst; (split; [reflexivity|]).
      * right. right. right. left. auto.
      * right. right. right. right. exists e.
        apply orb_false_elim in Hother. destruct Hother as [-> ->].
        rewrite Hscraper. auto.
Qed.

(** Every app that the worker takes off the queue is accounted for.  It costs
    one request, or two when the first answer was a scraper exception.  Then a
    record and its log line are queued; or the error is logged, which happens
    only after two requests; or the app is put back on the queue of apps; or an
    exception that no handler catches leaves the worker, with the queues as
    they were. *)
Theorem process_app_accounts :
  forall (save_full : bool) (app : string) (q q' : metadata_crawl.queues)
         (tr tr' : trace) (r : result bool),
    metadata_crawl.process_app net save_full app q tr = (r, q', tr') ->
    (tr' = tr ++ [GET (details_url app None None)] \/
     tr' = tr ++ [GET (details_url app None None); GET (details_url app None None)]) /\
    r <> Ok false /\
    ((r = Ok true /\
      exists item line, q' = metadata_crawl.put_log (metadata_crawl.put_metadata q item) line) \/
     (r = Ok true /\
      tr' = tr ++ [GET (details_url app None None); GET (details_url app None None)] /\
      exists e, exceptions.is_GooglePlayScraperException e = true /\
                q' = metadata_crawl.put_log q
                       (app +++ ": " +++ exceptions.message e +++ metadata_crawl.nl)) \/
     (r = Ok true /\ q' = metadata_crawl.put_app q app) \/
     (exists e, r = Raise e /\ uncaught e = true /\ q' = q)).
Proof.
  intros save_full app q q' tr tr' r Hprocess.
  unfold metadata_crawl.process_app in Hprocess.
  destruct (metadata_crawl.try_metadata net save_full app false q tr)
    as [[r1 q1] tr1] eqn:Hfirst.
  destruct (try_metadata_cases _ _ _ _ _ _ _ _ Hfirst) as [Htrace Hcases].
  destruct Hcases as [[Hr Hq] | [[Hr [_ Hq]] | [[_ [Hretry _]] | [[Hr Hq] | [e [Hr [He Hq]]]]]]];
    try discriminate Hretry; subst r1.
  - inversion Hprocess; subst.
    split; [left; reflexivity|]. split; [discriminate|]. left. auto.
  - subst q1 tr1.
    destruct (try_metadata_cases _ _ _ _ _ _ _ _ Hprocess) as [Htrace Hcases].
    rewrite <- app_assoc in Htrace. cbn [List.app] in Htrace.
    split; [right; exact Htrace|].
    destruct Hcases as [[Hr Hq] | [[_ [Hretry _]] | [[Hr [_ Hq]] | [[Hr Hq] | [e [Hr [He Hq]]]]]]];
      try discriminate Hretry; subst r; (split; [discriminate|]).
    + left. auto.
    + right. left. auto.
    + right. right. left. auto.
    + right. right. right. eauto.
  - inversion Hprocess; subst.
    split; [left; reflexivity|]. split; [discriminate|]. right. right. left. auto.
  - inversion Hprocess; subst.
    split; [left; reflexivity|]. split; [discriminate|]. right. right. right. eauto.
Qed.

End MetadataWorker.

(** An instance: the record of [location_page] with
    [--full_metadata]. *)
Lemma details_record_is_saved_witness :
  exists item siteLocation,
    dict_get location_record "siteLocation" = Some siteLocation /\
    @metadata_crawl.try_metadata example.runtime location_pages true "com.a" false
      (metadata_crawl.mkQueues [] [] []) []
    = (Ok true,
       metadata_crawl.put_log
         (metadata_crawl.put_metadata (metadata_crawl.mkQueues [] [] []) item)
         ("com.a" +++ ": siteLocation " +++ @str example.runtime siteLocation
            +++ ", written" +++ metadata_crawl.nl),
       [GET (details_url "com.a" None None)]) /\
    (true = false ->
     exists row, item = metadata_crawl.Row row /\
                 @metadata_crawl.reduced_row example.runtime "com.a" location_record = Ok row) /\
    (true = true ->
     exists record, item = metadata_crawl.FullRecord record /\
                    dict_keys record = documented_columns /\
                    forall k, In k documented_columns ->
                              dict_get record k = dict_get location_record k).
Proof.
  refine (@details_record_is_saved example.runtime location_pages true false "com.a"
            (metadata_crawl.mkQueues [] [] []) [] [GET (details_url "com.a" None None)]
            location_record _).
  vm_compute. reflexivity.
Defined.

(** [process_app], an instance: a 404 and then a 503 cost two requests and
    leave one line in the log. *)
Lemma process_app_accounts_witness :
  @metadata_crawl.process_app example.runtime not_found_then_unavailable false "com.a"
    (metadata_crawl.mkQueues [] [] []) []
  = (Ok true,
     metadata_crawl.mkQueues [] ["com.a: Page not found. Status code 503 returned."
                                   +++ metadata_crawl.nl] [],
     [GET (details_url "com.a" None None); GET (details_url "com.a" None None)]) /\
  Ok true <> Ok false.
Proof.
  assert (Hrun :
    @metadata_crawl.process_app example.runtime not_found_then_unavailable false "com.a"
      (metadata_crawl.mkQueues [] [] []) []
    = (Ok true,
       metadata_crawl.mkQueues [] ["com.a: Page not found. Status code 503 returned."
                                     +++ metadata_crawl.nl] [],
       [GET (details_url "com.a" None None); GET (details_url "com.a" None None)]))
    by (vm_compute; reflexivity).
  split; [exact Hrun|].
  exact (proj1 (proj2 (@process_app_accounts example.runtime not_found_then_unavailable false
                         "com.a" _ _ _ _ _ Hrun))).
Defined.

(** ** The list functions (utils.py, api.py) *)

Section ListFunctions.
Context {rt : Runtime} (net : network).

Lemma cluster_seed_unfold : forall (url : string) (tr : trace),
  cluster_seed net url tr =
  (match net (List.length tr) (GET url) with
   | Body dom => seed_of_page dom
   | HTTPError code => Raise (http_exn code)
   | Failed e => Raise e
   end, tr ++ [GET url]).
Proof.
  intros url tr.
  unfold cluster_seed, bindM, lift, ret, _request, seed_of_page, http_exn.
  destruct (net (List.length tr) (GET url)) as [dom|code|e];
    [|destruct (code =? 404)%Z; reflexivity|reflexivity].
  destruct (_parse_response dom) as [res|]; cbn [bind]; [|reflexivity].
  destruct (extract_content CLUSTER_apps res) as [apps|]; cbn [bind]; [|reflexivity].
  destruct (extract_content CLUSTER_token res) as [token|]; cbn [bind]; [|reflexivity].
  destruct (_parse_app_list apps None) as [results|]; reflexivity.
Qed.

(** A specification without post-processor gives [None] when its dataset is
    not in the map. *)
Lemma extract_content_missing_dataset : forall (ds : Z) (path : list Z) (res : dict),
  dict_get res (dataset_key (spec ds path)) = None ->
  extract_content (spec ds path) res = Ok VNone.
Proof.
  intros ds path res Hmissing.
  rewrite extract_content_of_raw. unfold raw_content, dict_getitem.
  rewrite Hmissing. reflexivity.
Qed.

Lemma cluster_request_http_status :
  forall (fuel : nat) (url : string) (lang country : option string) (tr : trace) (code : Z),
    net (List.length tr) (GET url) = HTTPError code ->
    _cluster_request net fuel url lang country tr
    = Some (Raise (http_exn code), tr ++ [GET url]).
Proof.
  intros fuel url lang country tr code Hnet.
  unfold _cluster_request. rewrite cluster_seed_unfold, Hnet. reflexivity.
Qed.

Lemma cluster_request_without_apps :
  forall (fuel : nat) (url : string) (lang country : option string) (tr : trace)
         (dom : string) (res : dict),
    net (List.length tr) (GET url) = Body dom ->
    _parse_response dom = Ok res ->
    dict_get res "ds:3" = None ->
    _cluster_request net fuel url lang country tr = Some (Raise TypeError, tr ++ [GET url]).
Proof.
  intros fuel url lang country tr dom res Hnet Hparse Hmissing.
  unfold _cluster_request. rewrite cluster_seed_unfold, Hnet.
  unfold seed_of_page. rewrite Hparse. cbn [bind].
  unfold CLUSTER_apps, CLUSTER_token.
  rewrite !extract_content_missing_dataset by exact Hmissing.
  reflexivity.
Qed.

(** An exception leaves [_cluster_request] only from its first page, after one
    request and with any fuel: an HTTP status as [NotFoundError] (404) or
    [ExtraHTTPError], and a page without the dataset [ds:3], where the list of
    apps is looked up, as [TypeError]. *)
Theorem cluster_request_first_page :
  forall (fuel : nat) (url : string) (lang country : option string) (tr : trace),
    (forall code,
        net (List.length tr) (GET url) = HTTPError code ->
        _cluster_request net fuel url lang country tr
        = Some (Raise (if (code =? 404)%Z then NotFoundError else ExtraHTTPError code),
                tr ++ [GET url])) /\
    (forall dom res,
        net (List.length tr) (GET url) = Body dom ->
        _parse_response dom = Ok res ->
        dict_get res "ds:3" = None ->
        _cluster_request net fuel url lang country tr = Some (Raise TypeError, tr ++ [GET url])) /\
    (forall e tr',
        _cluster_request net fuel url lang country tr = Some (Raise e, tr') ->
        tr' = tr ++ [GET url]).
Proof.
  intros fuel url lang country tr.
  split; [|split].
  - intros code Hnet. apply cluster_request_http_status. exact Hnet.
  - intros dom res. apply cluster_request_without_apps.
  - intros e tr'. unfold _cluster_request. rewrite cluster_seed_unfold.
    destruct (net (List.length tr) (GET url)) as [dom|code|e0].
    + destruct (seed_of_page dom) as [[results token]|e0].
      * destruct (cluster_loop net fuel lang country results token (tr ++ [GET url]))
          as [[results' tr'']|]; discriminate.
      * intros Hraise; inversion Hraise; reflexivity.
    + intros Hraise; inversion Hraise; reflexivity.
    + intros Hraise; inversion Hraise; reflexivity.
Qed.

(** [similar] asks for the page of the app first.  An HTTP status is raised
    as by [details]; a page without the dataset [ds:7], where the link to the
    similar apps is looked up, gives the empty list after that one request; and
    a link that is found is followed from the storefront's host. *)
Theorem similar_outcomes :
  forall (fuel : nat) (app_id : string) (lang country : option string) (tr : trace),
    (forall code,
        net (List.length tr) (GET (details_url app_id lang country)) = HTTPError code ->
        similar net fuel app_id lang country tr
        = Some (Raise (if (code =? 404)%Z then NotFoundError else ExtraHTTPError code),
                tr ++ [GET (details_url app_id lang country)])) /\
    (forall dom res,
        net (List.length tr) (GET (details_url app_id lang country)) = Body dom ->
        _parse_response dom = Ok res ->
        dict_get res "ds:7" = None ->
        similar net fuel app_id lang country tr
        = Some (Ok [], tr ++ [GET (details_url app_id lang country)])) /\
    (forall dom res u,
        net (List.length tr) (GET (details_url app_id lang country)) = Body dom ->
        _parse_response dom = Ok res ->
        dict_get DETAIL "similarURL" = Some (spec 7 [1; 1; 0; 0; 3; 4; 2]%Z) /\
        (extract_content (spec 7 [1; 1; 0; 0; 3; 4; 2]%Z) res = Ok (VStr u) ->
         u <> EmptyString ->
         similar net fuel app_id lang country tr
         = _cluster_request net fuel ("https://play.google.com" +++ u) lang country
             (tr ++ [GET (details_url app_id lang country)]))).
Proof.
  intros fuel app_id lang country tr.
  unfold similar. rewrite build_details_url.
  unfold bindM, lift, _request.
  split; [|split].
  - intros code Hnet. rewrite Hnet. destruct (code =? 404)%Z; reflexivity.
  - intros dom res Hnet Hparse Hmissing. rewrite Hnet, Hparse.
    rewrite extract_content_missing_dataset by exact Hmissing. reflexivity.
  - intros dom res u Hnet Hparse. split; [reflexivity|].
    intros Hurl Hne. rewrite Hnet, Hparse, Hurl. cbn [truthy].
    destruct (String.eqb u EmptyString) eqn:Heq;
      [apply String.eqb_eq in Heq; contradiction | reflexivity].
Qed.

End ListFunctions.

(** An instance: a search answered with 404. *)
Lemma cluster_request_first_page_witness :
  @_cluster_request example.runtime all_not_found 0 search_url None None []
  = Some (Raise NotFoundError, [GET search_url]).
Proof.
  exact (proj1 (@cluster_request_first_page example.runtime all_not_found 0 search_url
                  None None []) 404%Z eq_refl).
Defined.

(** An instance: [location_page] has no dataset [ds:7]. *)
Lemma similar_outcomes_witness :
  @similar example.runtime location_pages 0 "com.a" None None []
  = Some (Ok [], [GET (details_url "com.a" None None)]).
Proof.
  refine (proj1 (proj2 (@similar_outcomes example.runtime location_pages 0 "com.a"
                          None None [])) location_page _ eq_refl _ _).
  - vm_compute. reflexivity.
  - reflexivity.
Defined.

(** ** Pagination: what it costs and when it returns (utils.py) *)

Section PaginationCost.
Context {rt : Runtime} (net : network).

Lemma get_ui_request_token_trace :
  forall (url : string) (param : value) (tr tr' : trace) (r : result value),
    _get_ui_request net url "token" param tr = (r, tr') ->
    exists n, (1 <= n <= 6)%nat /\ tr' = tr ++ repeat (POST url "token" param) n.
Proof.
  intros url param tr tr' r Hrequest. unfold _get_ui_request in Hrequest.
  cbn [String.eqb Ascii.eqb Bool.eqb orb] in Hrequest. unfold bindM in Hrequest.
  destruct (_request net (POST url "token" param) tr) as [[resp|e] tr1] eqn:Hfirst;
    apply request_recorded in Hfirst; subst tr1.
  - destruct (ui_retry net 5 (POST url "token" param) resp (tr ++ [POST url "token" param]))
      as [[[resp' gave_up]|e] tr2] eqn:Hretry;
      destruct (ui_retry_budget _ _ _ _ _ _ _ Hretry) as [n [Hn Htr]]; subst tr2.
    + exists (S n). split; [lia|].
      destruct gave_up; unfold ret, lift in Hrequest; inversion Hrequest; subst;
        rewrite <- app_assoc; reflexivity.
    + exists (S n). split; [lia|]. inversion Hrequest; subst.
      rewrite <- app_assoc. reflexivity.
  - exists 1%nat. split; [lia|]. inversion Hrequest; reflexivity.
Qed.

(** A turn of the loop sends the request for its token, once and at most five
    times more, and nothing else. *)
Lemma cluster_page_trace :
  forall (lang country : option string) (token : value) (tr tr' : trace)
         (r : result (list value * value)),
    cluster_page net lang country token tr = (r, tr') ->
    exists n, (1 <= n <= 6)%nat /\
              tr' = tr ++ repeat (POST (ui_url lang country) "token" token) n.
Proof.
  intros lang country token tr tr' r Hpage. unfold cluster_page in Hpage.
  rewrite build_ui_url in Hpage. unfold bindM at 1 in Hpage. cbn [lift] in Hpage.
  unfold bindM at 1 in Hpage.
  destruct (_get_ui_request net (ui_url lang country) "token" token tr) as [answer tr1]
    eqn:Hrequest.
  destruct (get_ui_request_token_trace _ _ _ _ _ Hrequest) as [n [Hn Htr]].
  exists n. split; [exact Hn|].
  destruct answer as [resp|e]; [|inversion Hpage; subst; reflexivity].
  unfold bindM, lift, ret in Hpage.
  destruct (nested_lookup resp [0; 0; 0]%Z) as [apps|]; [|inversion Hpage; subst; reflexivity].
  destruct (_parse_app_list apps None); inversion Hpage; subst; reflexivity.
Qed.

Lemma run_pages_trace :
  forall (k : nat) (lang country : option string) (results : list value) (token : value)
         (tr : trace) (acc : list value) (token' : value) (tr1 : trace),
    run_pages net k lang country results token tr = Some (acc, token', tr1) ->
    exists posts,
      tr1 = tr ++ posts /\
      (k <= List.length posts <= 6 * k)%nat /\
      Forall is_batch_request posts.
Proof.
  induction k as [|k IH]; intros lang country results token tr acc token' tr1 Hrun.
  - simpl in Hrun. inversion Hrun; subst. exists []. rewrite app_nil_r.
    split; [reflexivity|]. split; [simpl; lia | constructor].
  - cbn [run_pages] in Hrun.
    destruct (truthy token); [|discriminate].
    destruct (cluster_page net lang country token tr) as [[[page resp]|e] tr0] eqn:Hpage;
      [|discriminate].
    destruct (cluster_page_trace _ _ _ _ _ _ Hpage) as [n [Hn Htr0]]. subst tr0.
    destruct (nested_lookup resp [0; 0; 7; 1]%Z) as [next|e]; [|discriminate].
    destruct (IH _ _ _ _ _ _ _ _ Hrun) as [posts [Htr1 [Hlength Hposts]]].
    exists (repeat (POST (ui_url lang country) "token" token) n ++ posts).
    split; [rewrite Htr1, <- app_assoc; reflexivity|]. split.
    + rewrite length_app, repeat_length. lia.
    + apply Forall_app. split; [|exact Hposts].
      apply Forall_forall. intros req Hin. apply repeat_spec in Hin. subst req. reflexivity.
Qed.

(** Pagination that runs to its end: after [k] pages the token is gone, and
    the call returns the results of the seed page and of the [k] pages in the
    order they were loaded.  It has sent the request for the seed page and then
    only requests to the batch endpoint, at least [k] and at most [6 * k] of
    them: one for each page, and up to five repetitions each time the answer
    carries the retry marker. *)
Theorem pagination_completes :
  forall (url : string) (lang country : option string) (fuel k : nat) (tr tr0 tr1 : trace)
         (seed acc : list value) (token token' : value),
    cluster_seed net url tr = (Ok (seed, token), tr0) ->
    run_pages net k lang country seed token tr0 = Some (acc, token', tr1) ->
    truthy token' = false ->
    (k <= fuel)%nat ->
    _cluster_request net fuel url lang country tr = Some (Ok acc, tr1) /\
    (exists pages, acc = seed ++ pages) /\
    exists posts,
      tr1 = tr ++ GET url :: posts /\
      (k <= List.length posts <= 6 * k)%nat /\
      Forall is_batch_request posts.
Proof.
  intros url lang country fuel k tr tr0 tr1 seed acc token token' Hseed Hrun Htoken Hfuel.
  split; [|split].
  - unfold _cluster_request. rewrite Hseed.
    replace fuel with (k + (fuel - k))%nat by lia.
    rewrite (cluster_loop_after_pages net _ _ _ _ _ _ _ _ _ _ Hrun).
    rewrite cluster_loop_no_token by exact Htoken. reflexivity.
  - exact (run_pages_extends net _ _ _ _ _ _ _ _ _ Hrun).
  - destruct (run_pages_trace _ _ _ _ _ _ _ _ _ Hrun) as [posts [Htr1 Hposts]].
    exists posts. split; [|exact Hposts].
    rewrite cluster_seed_unfold in Hseed. inversion Hseed; subst.
    rewrite <- app_assoc. reflexivity.
Qed.

Lemma cluster_loop_returns :
  forall (fuel : nat) (lang country : option string) (results : list value) (token : value)
         (tr : trace),
    (exists extra tr',
        cluster_loop net fuel lang country results token tr = Some (results ++ extra, tr')) \/
    (cluster_loop net fuel lang country results token tr = None /\
     exists acc token' tr1,
       run_pages net fuel lang country results token tr = Some (acc, token', tr1) /\
       truthy token' = true).
Proof.
  induction fuel as [|fuel IH]; intros lang country results token tr.
  - cbn [cluster_loop run_pages]. destruct (truthy token) eqn:Htoken.
    + right. split; [reflexivity|]. eauto.
    + left. exists [], tr. rewrite app_nil_r. reflexivity.
  - rewrite cluster_loop_S. cbn [run_pages]. destruct (truthy token).
    + destruct (cluster_page net lang country token tr) as [[[page resp]|e] tr0].
      * destruct (nested_lookup resp [0; 0; 7; 1]%Z) as [next|e].
        -- destruct (IH lang country (results ++ page) next tr0)
             as [[extra [tr' Hloop]] | [Hloop Hpages]].
           ++ left. exists (page ++ extra), tr'. rewrite Hloop, app_assoc. reflexivity.
           ++ right. split; [exact Hloop | exact Hpages].
        -- left. exists page, tr0. reflexivity.
      * left. exists [], tr0. rewrite app_nil_r. reflexivity.
    + left. exists [], tr. rewrite app_nil_r. reflexivity.
Qed.

(** Once the seed page is fetched and parsed, [_cluster_request] raises
    nothing and loses nothing of that page: it returns a list that starts with
    the results of the seed page.  The one way for the loop to go on is that the
    server hands out a token with every page: the fuel of the model runs out
    only when all of its turns loaded a page and the last page still carries a
    token. *)
Theorem cluster_request_keeps_seed :
  forall (url : string) (lang country : option string) (fuel : nat) (tr tr0 : trace)
         (seed : list value) (token : value),
    cluster_seed net url tr = (Ok (seed, token), tr0) ->
    (exists extra tr',
        _cluster_request net fuel url lang country tr = Some (Ok (seed ++ extra), tr')) \/
    (_cluster_request net fuel url lang country tr = None /\
     exists acc token' tr1,
       run_pages net fuel lang country seed token tr0 = Some (acc, token', tr1) /\
       truthy token' = true).
Proof.
  intros url lang country fuel tr tr0 seed token Hseed.
  unfold _cluster_request. rewrite Hseed.
  destruct (cluster_loop_returns fuel lang country seed token tr0)
    as [[extra [tr' Hloop]] | [Hloop Hpages]]; rewrite Hloop.
  - left. exists extra, tr'. reflexivity.
  - right. split; [reflexivity | exact Hpages].
Qed.

End PaginationCost.

(** Three pages in load order: the seed page, [com.c], [com.d]; the last page
    carries no token, and one request went to the store and two to the batch
    endpoint. *)
Lemma three_pages_in_load_order :
  @_cluster_request example.runtime three_pages 5 search_url None None []
    = Some (Ok [VStr "com.a"; VStr "com.b"; VStr "com.c"; VStr "com.d"],
            [GET search_url; POST (ui_url None None) "token" (VStr "TOKEN");
             POST (ui_url None None) "token" (VStr "T2")]) /\
  exists posts,
    [GET search_url; POST (ui_url None None) "token" (VStr "TOKEN");
     POST (ui_url None None) "token" (VStr "T2")] = [] ++ GET search_url :: posts /\
    (2 <= List.length posts <= 6 * 2)%nat /\
    Forall is_batch_request posts.
Proof.
  assert (Hseed : @cluster_seed example.runtime three_pages search_url []
                  = (Ok ([VStr "com.a"; VStr "com.b"], VStr "TOKEN"), [GET search_url]))
    by (vm_compute; reflexivity).
  assert (Hrun : @run_pages example.runtime three_pages 2 None None
                   [VStr "com.a"; VStr "com.b"] (VStr "TOKEN") [GET search_url]
                 = Some ([VStr "com.a"; VStr "com.b"; VStr "com.c"; VStr "com.d"], VNone,
                         [GET search_url; POST (ui_url None None) "token" (VStr "TOKEN");
                          POST (ui_url None None) "token" (VStr "T2")]))
    by (vm_compute; reflexivity).
  pose proof (@pagination_completes example.runtime three_pages search_url None None 5 2
                [] _ _ _ _ _ _ Hseed Hrun eq_refl ltac:(lia)) as [Hreturns [_ Hposts]].
  split; [exact Hreturns | exact Hposts].
Defined.

(** On [marker_network] the call returns, with the two results of the seed
    page in front. *)
Lemma cluster_request_keeps_seed_witness :
  exists extra tr',
    @_cluster_request example.runtime marker_network 3 search_url None None []
    = Some (Ok ([VStr "com.a"; VStr "com.b"] ++ extra), tr').
Proof.
  assert (Hseed : @cluster_seed example.runtime marker_network search_url []
                  = (Ok ([VStr "com.a"; VStr "com.b"], VStr "TOKEN"), [GET search_url]))
    by (vm_compute; reflexivity).
  destruct (@cluster_request_keeps_seed example.runtime marker_network search_url None None
              3 [] [GET search_url] [VStr "com.a"; VStr "com.b"] (VStr "TOKEN") Hseed)
    as [Hreturns | [Hnone _]].
  - exact Hreturns.
  - vm_compute in Hnone. discriminate Hnone.
Defined.

(** ** The download crawler (crawler.py) *)

Section Resume.
Import crawler.

Lemma split_without_separator : forall (sep s : string),
  contains sep s = false -> split sep s = [s].
Proof.
  intros sep s. unfold contains, split.
  destruct (find_sub sep s) as [p|] eqn:Hfind; [discriminate|]. intros _.
  destruct (String.length s); simpl; [reflexivity | rewrite Hfind; reflexivity].
Qed.



Lemma lstrip_all : forall (p : ascii -> bool) (s : string),
  all_chars p s = true -> lstrip_with p s = EmptyString.
Proof.
  intros p s. induction s as [|c s IH]; simpl; [reflexivity|].
  destruct (p c); simpl; [exact IH | discriminate].
Qed.

Lemma lstrip_with_append : forall (p : ascii -> bool) (s t : string),
  lstrip_with p (s +++ t) =
  if all_chars p s then lstrip_with p t else lstrip_with p s +++ t.
Proof.
  intros p s t. induction s as [|c s IH]; simpl; [reflexivity|].
  destruct (p c); simpl; [exact IH | reflexivity].
Qed.

Lemma rstrip_with_append_one : forall (p : ascii -> bool) (s : string) (c : ascii),
  p c = true -> rstrip_with p (s +++ String c EmptyString) = rstrip_with p s.
Proof.
  intros p s c Hc. induction s as [|a s IH]; simpl.
  - rewrite Hc. reflexivity.
  - rewrite IH. reflexivity.
Qed.

(** The newline that ends a line of a file does not survive [strip]. *)
Lemma strip_newline : forall (s : string), strip (s +++ nl) = strip s.
Proof.
  intros s. unfold strip, nl. rewrite lstrip_with_append.
  destruct (all_chars is_space s) eqn:Hall.
  - rewrite (lstrip_all _ _ Hall). reflexivity.
  - apply rstrip_with_append_one. reflexivity.
Qed.

Lemma rstrip_with_idempotent : forall (p : ascii -> bool) (s : string),
  rstrip_with p (rstrip_with p s) = rstrip_with p s.
Proof.
  intros p s. induction s as [|c s IH]; [reflexivity|].
  cbn [rstrip_with].
  destruct (rstrip_with p s) as [|d r] eqn:Hr.
  - destruct (p c) eqn:Hc; [reflexivity|]. cbn [rstrip_with]. rewrite Hc. reflexivity.
  - cbn [rstrip_with]. cbn [rstrip_with] in IH. rewrite IH. reflexivity.
Qed.

Lemma lstrip_with_head : forall (p : ascii -> bool) (s : string),
  lstrip_with p s = EmptyString \/
  exists c t, lstrip_with p s = String c t /\ p c = false.
Proof.
  intros p s. induction s as [|c s IH]; simpl; [left; reflexivity|].
  destruct (p c) eqn:Hc; [exact IH|]. right. eauto.
Qed.

Lemma strip_idempotent : forall (s : string), strip (strip s) = strip s.
Proof.
  intros s. unfold strip.
  destruct (lstrip_with_head is_space s) as [-> | [c [t [-> Hc]]]]; [reflexivity|].
  assert (Hhead : exists r, rstrip_with is_space (String c t) = String c r).
  { cbn [rstrip_with]. destruct (rstrip_with is_space t); [rewrite Hc|]; eauto. }
  destruct Hhead as [r Hr].
  replace (lstrip_with is_space (rstrip_with is_space (String c t)))
    with (rstrip_with is_space (String c t))
    by (rewrite Hr; cbn [lstrip_with]; rewrite Hc; reflexivity).
  apply rstrip_with_idempotent.
Qed.

(** An identifier read from an input file and written to the resumable log is
    found there by the next run. *)
Lemma finished_line_read_back : forall (lines finished : list string) (app : string),
  In app (app_lines lines) ->
  In (finished_line app) finished ->
  In app (app_lines finished).
Proof.
  intros lines finished app Hread Hwritten.
  unfold app_lines in *. apply filter_In in Hread. destruct Hread as [Hstripped Happ].
  apply filter_In. split; [|exact Happ].
  apply in_map_iff in Hstripped. destruct Hstripped as [line [Hline _]].
  apply in_map_iff. exists (finished_line app). split; [|exact Hwritten].
  unfold finished_line. rewrite strip_newline, <- Hline. apply strip_idempotent.
Qed.

Lemma queued_apps_put_unique : forall (apps : list string) (app : string),
  In app (queued_apps (put_unique apps [] [])) <-> In app apps.
Proof.
  intros apps app. rewrite put_unique_first_occurrences. cbn [List.app].
  unfold queued_apps. rewrite map_map. cbn [fst]. rewrite map_id.
  rewrite first_occurrences_In. simpl. tauto.
Qed.

(** Resuming a crawl.  Without [--random] the queue holds exactly the input
    apps that the resumable log does not list; and whatever the order, an
    identifier that came from an input file and that a run has written to the
    log is not queued again. *)
Theorem resume_skips_finished :
  forall (input : input_apps) (finished : list string),
    (forall app,
        In app (queued_apps (initial_queue input (Some finished) None)) <->
        In app (read_input_apps input) /\ ~ In app (app_lines finished)) /\
    (forall (lines : list string) (app : string)
            (shuffle : option (list string -> list string)),
        In app (app_lines lines) ->
        In (finished_line app) finished ->
        (forall f, shuffle = Some f -> forall l x, In x (f l) -> In x l) ->
        ~ In app (queued_apps (initial_queue input (Some finished) shuffle))).
Proof.
  intros input finished.
  assert (Hkept : forall apps app,
            In app (remove_finished_apps apps (Some finished)) <->
            In app apps /\ ~ In app (app_lines finished)).
  { intros apps app. unfold remove_finished_apps. rewrite filter_In, negb_true_iff.
    split; intros [Hin Hnot]; (split; [exact Hin|]).
    - intros Hfinished. apply mem_string_In in Hfinished. congruence.
    - destruct (mem_string app (app_lines finished)) eqn:Hmem; [|reflexivity].
      apply mem_string_In in Hmem. contradiction. }
  split.
  - intros app. unfold initial_queue.
    destruct (read_input_apps input) as [|a apps] eqn:Hinput.
    + simpl. tauto.
    + rewrite queued_apps_put_unique. apply Hkept.
  - intros lines app shuffle Hread Hwritten Hshuffle Hqueued.
    pose proof (finished_line_read_back _ _ _ Hread Hwritten) as Hfinished.
    unfold initial_queue in Hqueued.
    destruct (read_input_apps input) as [|a apps] eqn:Hinput; [contradiction|].
    rewrite queued_apps_put_unique in Hqueued.
    destruct shuffle as [f|].
    + apply (Hshuffle f eq_refl) in Hqueued. apply Hkept in Hqueued. tauto.
    + apply Hkept in Hqueued. tauto.
Qed.

End Resume.


(** An instance: [com.a] was finished by an earlier
    run, [com.b] was not. *)
Lemma resume_skips_finished_witness :
  ~ In "com.a"
      (queued_apps
         (crawler.initial_queue (crawler.InputFile ["com.a"; " com.b "])
            (Some ["com.a" +++ crawler.nl]) (Some (@rev string)))).
Proof.
  refine (proj2 (resume_skips_finished (crawler.InputFile ["com.a"; " com.b "])
                   ["com.a" +++ crawler.nl])
            ["com.a"; " com.b "] "com.a" (Some (@rev string)) _ _ _).
  - vm_compute. tauto.
  - left. reflexivity.
  - intros f Hf l x Hin. inversion Hf; subst f. apply in_rev. exact Hin.
Defined.

Section Probe.
Context {rt : Runtime}.
Import crawler.

(** The probe of the site location.  A refused request (an HTTP status or
    another [OSError]) and a dataset that is no JSON give the text
    [Error getting location]; so does a location dataset that is a dictionary.
    A page without any dataset is not covered by the handler: [max] raises
    [ValueError].  What the probe raises on a page is [ValueError],
    [IndexError] or [TypeError], never one of the classes it catches; and when
    [api.google_location] returns a location for the same answer, the probe
    returns it too. *)
Theorem google_location_outcomes :
  forall (answer : response),
    (forall code, answer = HTTPError code ->
                  google_location answer = Ok (VStr "Error getting location")) /\
    (forall e, answer = Failed e -> exceptions.is_OSError e = true ->
               google_location answer = Ok (VStr "Error getting location")) /\
    (forall dom, answer = Body dom -> _parse_response dom = Raise JSONDecodeError ->
                 google_location answer = Ok (VStr "Error getting location")) /\
    (forall dom, answer = Body dom -> _parse_response dom = Ok [] ->
                 google_location answer = Raise ValueError) /\
    (forall e, google_location answer = Raise e -> is_location_failure e = false) /\
    (forall dom e, answer = Body dom -> google_location answer = Raise e ->
                   e = ValueError \/ e = IndexError \/ e = TypeError) /\
    (forall (net : network) (tr : trace) (location : value),
        net (List.length tr) (GET "https://play.google.com/store/apps") = answer ->
        fst (api.google_location net tr) = Ok location ->
        google_location answer = Ok location).
Proof.
  intros answer. unfold google_location.
  split; [|split; [|split; [|split; [|split; [|split]]]]].
  - intros code ->. reflexivity.
  - intros e -> Hos. unfold is_location_failure. rewrite Hos. destruct e; reflexivity.
  - intros dom -> Hparse. rewrite Hparse. reflexivity.
  - intros dom -> Hparse. rewrite Hparse. reflexivity.
  - intros e.
    match goal with
    | |- match ?attempt with _ => _ end = _ -> _ => destruct attempt as [location|e0]
    end; [discriminate|].
    destruct (is_location_failure e0) eqn:Hcaught; [discriminate|].
    intros Hraise; inversion Hraise; subst. exact Hcaught.
  - intros dom e ->.
    destruct (_parse_response dom) as [res|e0] eqn:Hparse; cbn [bind].
    2: { apply parse_matches_raises in Hparse. subst e0. discriminate. }
    destruct (api.location_key res) as [key|e0] eqn:Hkey; cbn [bind].
    2: { apply location_key_raises in Hkey. subst e0.
         intros Hraise; inversion Hraise; auto. }
    destruct (dict_get_of_key _ _ _ (location_key_in _ _ Hkey)) as [site Hsite].
    unfold dict_getitem. rewrite Hsite. cbn [bind].
    destruct (getitem site 4) as [location|e0] eqn:Hget; [discriminate|].
    apply getitem_raises in Hget.
    destruct e0; try discriminate Hget; cbn; intros Hraise; inversion Hraise; auto.
  - intros net tr location Hnet. unfold api.google_location, bindM, lift, _request.
    rewrite Hnet. destruct answer as [dom|code|e0].
    + destruct (_parse_response dom) as [res|]; cbn [bind fst]; [|discriminate].
      destruct (api.location_key res) as [key|]; cbn [bind fst]; [|discriminate].
      destruct (dict_getitem res key) as [site|]; cbn [bind fst]; [|discriminate].
      intros Hlocation. rewrite Hlocation. reflexivity.
    + destruct (code =? 404)%Z; discriminate.
    + discriminate.
Qed.

Lemma crawl_loop_probed_quiet :
  forall (download : nat -> string -> option string) (location : nat -> response)
         (fuel count : nat) (st : state),
    (forall n, (n mod 50 = 0)%nat -> exists v, google_location (location n) = Ok v) ->
    crawl_loop_probed download location fuel count st = crawl_loop download fuel count st.
Proof.
  intros download location fuel. induction fuel as [|fuel IH]; intros count st Hquiet.
  - reflexivity.
  - cbn [crawl_loop_probed crawl_loop].
    destruct (DOWNLOAD_QUEUE st) as [|i rest]; [reflexivity|].
    assert (Hprobe : exists v,
              (if (count mod 50 =? 0)%nat then google_location (location count) else Ok VNone)
              = Ok v).
    { destruct (count mod 50 =? 0)%nat eqn:Hturn; [|eauto].
      apply Nat.eqb_eq in Hturn. exact (Hquiet count Hturn). }
    destruct Hprobe as [v ->].
    destruct (crawl_item i (download count (fst (fst i))) (set_queue st rest)) as [[u|e] st1];
      [apply IH; exact Hquiet | reflexivity].
Qed.

(** The probe in the loop of [crawl].  As long as every probe returns, the
    loop does what it does without the probe.  A probe that raises ends the
    crawl: the app just taken from the queue is dropped without a download and
    without a line in any file.  In particular a run whose first probe meets a
    page without any dataset ends with [ValueError] before the first
    download. *)
Theorem crawl_probe :
  forall (download : nat -> string -> option string) (location : nat -> response)
         (fuel count : nat) (st : state),
    ((forall n, (n mod 50 = 0)%nat -> exists v, google_location (location n) = Ok v) ->
     crawl_loop_probed download location fuel count st = crawl_loop download fuel count st) /\
    (forall i rest e,
        DOWNLOAD_QUEUE st = i :: rest -> (count mod 50 = 0)%nat ->
        google_location (location count) = Raise e ->
        crawl_loop_probed download location (S fuel) count st = Crashed e (set_queue st rest)) /\
    (forall input shuffle failure transient finished i rest dom,
        initial_queue input finished shuffle = i :: rest ->
        location 0%nat = Body dom -> _parse_response dom = Ok [] ->
        crawl input shuffle failure transient finished download location (S fuel)
        = Crashed ValueError
            (mkState rest failure transient
               (match finished with Some lines => lines | None => [] end))).
Proof.
  intros download location fuel count st.
  assert (Hcrash : forall fuel0 count0 st0 i rest e,
            DOWNLOAD_QUEUE st0 = i :: rest -> (count0 mod 50 = 0)%nat ->
            google_location (location count0) = Raise e ->
            crawl_loop_probed download location (S fuel0) count0 st0
            = Crashed e (set_queue st0 rest)).
  { intros fuel0 count0 st0 i rest e Hqueue Hturn Hraise.
    cbn [crawl_loop_probed]. rewrite Hqueue.
    apply Nat.eqb_eq in Hturn. rewrite Hturn, Hraise. reflexivity. }
  split; [apply crawl_loop_probed_quiet|]. split; [apply Hcrash|].
  intros input shuffle failure transient finished i rest dom Hqueue Hlocation Hparse.
  unfold crawl. rewrite (Hcrash fuel 0%nat _ i rest ValueError).
  - reflexivity.
  - cbn [DOWNLOAD_QUEUE]. exact Hqueue.
  - reflexivity.
  - unfold google_location. rewrite Hlocation, Hparse. reflexivity.
Qed.

End Probe.

(** An instance: the store answers the probe with an empty page,
    and the crawl of two apps ends before the first download. *)
Lemma crawl_probe_witness :
  @crawler.crawl example.runtime (crawler.CommandLine ["com.a"; "com.b"]) None [] [] None
    success_then_timeouts blank_answer 1
  = crawler.Crashed ValueError (crawler.mkState [("com.b", false, None)] [] [] []).
Proof.
  exact (proj2 (proj2 (@crawl_probe example.runtime success_then_timeouts blank_answer
                         0%nat 0%nat (fresh [])))
           (crawler.CommandLine ["com.a"; "com.b"]) None [] [] None
           ("com.a", false, None) [("com.b", false, None)] EmptyString
           eq_refl eq_refl eq_refl).
Defined.

(** ** The scripts that call the list functions (top250.py) *)

Section Scripts.
Context {rt : Runtime} (net : network).

Lemma strings_of_texts : forall (ids : list string),
  top250.strings_of (map VStr ids) = Ok ids.
Proof.
  induction ids as [|id ids IH]; simpl; [reflexivity|]. rewrite IH. reflexivity.
Qed.

Lemma strings_of_other : forall (items : list value),
  existsb (fun v => negb (is_text v)) items = true ->
  top250.strings_of items = Raise TypeError.
Proof.
  induction items as [|v items IH]; simpl; [discriminate|].
  destruct v; simpl; try reflexivity.
  intros Hother. rewrite IH by exact Hother. reflexivity.
Qed.

(** How [top250.py] ends.  An HTTP status on the first request is printed as a
    scraper exception, and no file is made.  A first page without the dataset
    [ds:3] raises [TypeError], which the script does not catch.  A list of
    identifiers is written one per line, without a newline at the end.  And a
    list with an entry that is no text, such as the [None] that
    [_cluster_request] appends after it gives up on a page, raises [TypeError]
    after the output file was opened, which leaves the file empty. *)
Theorem top250_outcomes :
  forall (fuel : nat) (tr : trace),
    (forall code,
        net (List.length tr) (GET top_url) = HTTPError code ->
        top250.main net fuel tr
        = Some (top250.Printed
                  (if (code =? 404)%Z then NotFoundError else ExtraHTTPError code),
                tr ++ [GET top_url])) /\
    (forall dom res,
        net (List.length tr) (GET top_url) = Body dom ->
        _parse_response dom = Ok res ->
        dict_get res "ds:3" = None ->
        top250.main net fuel tr = Some (top250.Raised TypeError, tr ++ [GET top_url])) /\
    (forall ids tr',
        _cluster_request net fuel top_url None None tr = Some (Ok (map VStr ids), tr') ->
        top250.main net fuel tr
        = Some (top250.Written (join (String regex.newline EmptyString) ids), tr')) /\
    (forall top_apps tr',
        _cluster_request net fuel top_url None None tr = Some (Ok top_apps, tr') ->
        existsb (fun v => negb (is_text v)) top_apps = true ->
        top250.main net fuel tr = Some (top250.RaisedWithEmptyFile TypeError, tr')).
Proof.
  intros fuel tr.
  assert (Hmain : top250.main net fuel tr =
            match _cluster_request net fuel top_url None None tr with
            | None => None
            | Some (Ok top_apps, tr') =>
                match top250.join_lines top_apps with
                | Ok content => Some (top250.Written content, tr')
                | Raise e => Some (top250.RaisedWithEmptyFile e, tr')
                end
            | Some (Raise e, tr') =>
                if exceptions.is_GooglePlayScraperException e
                then Some (top250.Printed e, tr') else Some (top250.Raised e, tr')
            end) by reflexivity.
  rewrite Hmain. clear Hmain.
  split; [|split; [|split]].
  - intros code Hnet. rewrite (cluster_request_http_status net _ _ _ _ _ _ Hnet).
    unfold http_exn. destruct (code =? 404)%Z; reflexivity.
  - intros dom res Hnet Hparse Hmissing.
    rewrite (cluster_request_without_apps net _ _ _ _ _ _ _ Hnet Hparse Hmissing).
    reflexivity.
  - intros ids tr' Hrequest. rewrite Hrequest.
    unfold top250.join_lines. rewrite strings_of_texts. reflexivity.
  - intros top_apps tr' Hrequest Hother. rewrite Hrequest.
    unfold top250.join_lines. rewrite strings_of_other by exact Hother. reflexivity.
Qed.

End Scripts.

(** Two instances: the store answers 404; and the store
    keeps answering the continuation with the retry marker, so the list ends
    with [None]. *)
Lemma top250_outcomes_witness :
  @top250.main example.runtime all_not_found 0 []
  = Some (top250.Printed NotFoundError, [GET top_url]) /\
  exists tr',
    @top250.main example.runtime marker_network 1 []
    = Some (top250.RaisedWithEmptyFile TypeError, tr').
Proof.
  split.
  - exact (proj1 (@top250_outcomes example.runtime all_not_found 0 []) 404%Z eq_refl).
  - eexists.
    refine (proj2 (proj2 (proj2 (@top250_outcomes example.runtime marker_network 1 [])))
              [VStr "com.a"; VStr "com.b"; VNone] _ _ eq_refl).
    vm_compute. reflexivity.
Defined.

(** ** The log of categories (generate_app_list.py) *)

Section Categories.
Context {rt : Runtime} (net : network).

Lemma contains_tail : forall (sep : string) (c : ascii) (s : string),
  contains sep (String c s) = false -> contains sep s = false.
Proof.
  intros sep c s. unfold contains. cbn [find_sub].
  destruct (prefix sep (String c s)); [discriminate|].
  destruct (find_sub sep s) as [[b a]|]; [discriminate | reflexivity].
Qed.

Lemma find_sub_separator : forall (a c : string),
  contains ": " a = false -> find_sub ": " (a +++ ": " +++ c) = Some (a, c).
Proof.
  induction a as [|x a IH]; intros c Hnone.
  { change (EmptyString +++ ": " +++ c) with (String ":" (String " " c)).
    cbn [find_sub prefix].
    destruct (ascii_dec ":"%char ":"%char) as [_|Hne]; [|contradiction Hne; reflexivity].
    destruct (ascii_dec " "%char " "%char) as [_|Hne]; [|contradiction Hne; reflexivity].
    destruct c; reflexivity. }
  pose proof (contains_tail _ _ _ Hnone) as Htail.
  change (String x a +++ ": " +++ c) with (String x (a +++ ": " +++ c)).
  cbn [find_sub].
  assert (Hprefix : prefix ": " (String x (a +++ ": " +++ c)) = false).
  { destruct (prefix ": " (String x (a +++ ": " +++ c))) eqn:Hp; [|reflexivity].
    exfalso. cbn [prefix] in Hp.
    destruct (ascii_dec ":"%char x) as [Hx|]; [subst x|discriminate].
    destruct a as [|y a].
    - cbn in Hp. discriminate.
    - change (String y a +++ ": " +++ c) with (String y (a +++ ": " +++ c)) in Hp.
      cbn [prefix] in Hp.
      destruct (ascii_dec " "%char y) as [Hy|]; [subst y|discriminate].
      assert (Hstarts : prefix ": " (String ":" (String " " a)) = true).
      { cbn [prefix].
        destruct (ascii_dec ":"%char ":"%char) as [_|Hne]; [|contradiction Hne; reflexivity].
        destruct (ascii_dec " "%char " "%char) as [_|Hne]; [|contradiction Hne; reflexivity].
        destruct a; reflexivity. }
      unfold contains in Hnone. cbn [find_sub] in Hnone. rewrite Hstarts in Hnone.
      discriminate. }
  rewrite Hprefix, (IH c Htail). reflexivity.
Qed.

Lemma prefix_append : forall (p s : string), prefix p (p +++ s) = true.
Proof.
  induction p as [|c p IH]; intros s.
  - destruct s; reflexivity.
  - change (String c p +++ s) with (String c (p +++ s)). cbn [prefix].
    destruct (ascii_dec c c) as [_|Hne]; [apply IH | contradiction Hne; reflexivity].
Qed.

Lemma split_fuel_without_separator : forall (fuel : nat) (sep s : string),
  contains sep s = false -> split_fuel fuel sep s = [s].
Proof.
  intros fuel sep s. unfold contains.
  destruct (find_sub sep s) as [p|] eqn:Hfind; [discriminate|]. intros _.
  destruct fuel; simpl; [reflexivity | rewrite Hfind; reflexivity].
Qed.

Lemma split_entry : forall (a c : string),
  contains ": " a = false -> contains ": " c = false ->
  split ": " (a +++ ": " +++ c) = [a; c].
Proof.
  intros a c Ha Hc. unfold split.
  destruct (String.length (a +++ ": " +++ c)) as [|fuel] eqn:Hlength.
  - exfalso. destruct a; discriminate.
  - cbn [split_fuel]. rewrite find_sub_separator by exact Ha.
    rewrite split_fuel_without_separator by exact Hc. reflexivity.
Qed.

Lemma setdefault_append_get :
  forall (apps : list (string * list string)) (category app_id c : string),
    dict_get (generate_app_list.setdefault_append apps category app_id) c =
    if String.eqb c category
    then Some (match dict_get apps category with Some l => l ++ [app_id] | None => [app_id] end)
    else dict_get apps c.
Proof.
  induction apps as [|[c0 ids] apps IH]; intros category app_id c.
  - cbn [generate_app_list.setdefault_append dict_get].
    destruct (String.eqb c category); reflexivity.
  - cbn [generate_app_list.setdefault_append dict_get].
    destruct (String.eqb category c0) eqn:Hhit.
    + apply String.eqb_eq in Hhit. subst c0. cbn [dict_get].
      destruct (String.eqb c category); reflexivity.
    + cbn [dict_get]. rewrite IH.
      destruct (String.eqb c category) eqn:Hc.
      * apply String.eqb_eq in Hc. subst c. rewrite Hhit. reflexivity.
      * reflexivity.
Qed.

Lemma group_apps_entries :
  forall (entries : list (string * string)) (apps : list (string * list string)),
    (forall e, In e entries ->
               contains ": " (fst e) = false /\ contains ": " (snd e) = false) ->
    exists apps',
      generate_app_list.group_apps (map details_line entries) apps = Ok apps' /\
      forall c, dict_get apps' c =
                match dict_get apps c, apps_of c entries with
                | None, [] => None
                | None, l => Some l
                | Some l0, l => Some (l0 ++ l)
                end.
Proof.
  induction entries as [|[a category] entries IH]; intros apps Hwell.
  - exists apps. split; [reflexivity|]. intros c. cbn.
    destruct (dict_get apps c); [rewrite app_nil_r|]; reflexivity.
  - destruct (Hwell (a, category) (or_introl eq_refl)) as [Ha Hc]. cbn [fst snd] in Ha, Hc.
    destruct (IH (generate_app_list.setdefault_append apps category a)) as [apps' [Hrun Hget]].
    { intros e Hin. apply Hwell. right. exact Hin. }
    exists apps'. split.
    + cbn [map generate_app_list.group_apps].
      change (details_line (a, category)) with ("DETAILS| " +++ a +++ ": " +++ category).
      unfold startswith. rewrite prefix_append.
      change (drop 9 ("DETAILS| " +++ a +++ ": " +++ category)) with (a +++ ": " +++ category).
      cbv iota. rewrite split_entry by assumption. exact Hrun.
    + intros c. rewrite Hget, setdefault_append_get.
      unfold apps_of. cbn [filter snd].
      destruct (String.eqb category c) eqn:Hhit.
      * apply String.eqb_eq in Hhit. subst c. rewrite String.eqb_refl. cbn [map fst].
        destruct (dict_get apps category) as [l0|].
        -- rewrite <- app_assoc. reflexivity.
        -- reflexivity.
      * rewrite String.eqb_sym, Hhit. reflexivity.
Qed.

Lemma group_apps_raises :
  forall (lines : list string) (apps : list (string * list string)) (line : string),
    In line lines ->
    startswith "DETAILS| " line = true ->
    contains ": " (drop 9 line) = false ->
    generate_app_list.group_apps lines apps = Raise ValueError.
Proof.
  induction lines as [|l lines IH]; intros apps line Hin Hstart Hnone; [contradiction|].
  cbn [generate_app_list.group_apps].
  destruct Hin as [-> | Hin].
  - rewrite Hstart, split_without_separator by exact Hnone. reflexivity.
  - destruct (startswith "DETAILS| " l); [|eapply IH; eassumption].
    destruct (split ": " (drop 9 l)) as [|p1 [|p2 [|p3 ps]]]; try reflexivity.
    eapply IH; eassumption.
Qed.

(** The log of categories is read back as it was written.  [get_category]
    logs the line [details_line] for the category that [details] found.  From
    such lines, whose apps and categories hold no [: ], [organize_apps] groups
    every app under its category in the order of the log, and writes what
    [write_categories] makes of the groups.  A line [DETAILS| ...] without the
    separator makes it raise [ValueError] before any file is opened. *)
Theorem category_log_round_trip :
  forall (CATEGORIES : list string),
    (forall app tr tr' metadata,
        details net app None None tr = (Ok metadata, tr') ->
        exists category,
          dict_get metadata "genreId" = Some category /\
          generate_app_list.get_category net app tr
          = (Ok (details_line (app, str category)), tr')) /\
    (forall entries,
        (forall e, In e entries ->
                   contains ": " (fst e) = false /\ contains ": " (snd e) = false /\
                   strip (details_line e) = details_line e) ->
        exists apps,
          generate_app_list.organize_apps CATEGORIES
            (map (fun e => details_line e +++ generate_app_list.nl) entries)
          = Ok (generate_app_list.write_categories CATEGORIES apps) /\
          forall c, dict_get apps c =
                    match apps_of c entries with [] => None | l => Some l end) /\
    (forall lines line,
        In line (map strip lines) ->
        startswith "DETAILS| " line = true ->
        contains ": " (drop 9 line) = false ->
        generate_app_list.organize_apps CATEGORIES lines = Raise ValueError).
Proof.
  intros CATEGORIES. split; [|split].
  - intros app tr tr' metadata Hdetails.
    destruct (record_field metadata "genreId" (details_record_keys net _ _ _ _ Hdetails)
                ltac:(simpl; tauto)) as [category Hcategory].
    exists category. split; [exact Hcategory|].
    unfold generate_app_list.get_category. rewrite Hdetails. cbn [bind].
    unfold dict_getitem. rewrite Hcategory. reflexivity.
  - intros entries Hwell.
    destruct (group_apps_entries entries []) as [apps [Hrun Hget]].
    { intros e Hin. destruct (Hwell e Hin) as [Ha [Hc _]]. auto. }
    exists apps. split.
    + unfold generate_app_list.organize_apps, generate_app_list.get_from_file.
      rewrite map_map.
      replace (map (fun e => strip (details_line e +++ generate_app_list.nl)) entries)
        with (map details_line entries).
      * rewrite Hrun. reflexivity.
      * apply map_ext_in. intros e Hin.
        change generate_app_list.nl with crawler.nl.
        rewrite (strip_newline (details_line e)). symmetry. apply (Hwell e Hin).
    + intros c. rewrite Hget. cbn [dict_get]. reflexivity.
  - intros lines line Hin Hstart Hnone.
    unfold generate_app_list.organize_apps, generate_app_list.get_from_file.
    rewrite (group_apps_raises _ [] line Hin Hstart Hnone). reflexivity.
Qed.

End Categories.

(** An instance: the log of [logged_entries]. *)
Lemma category_log_round_trip_witness :
  exists apps,
    generate_app_list.organize_apps ["TOOLS"; "GAME"]
      (map (fun e => details_line e +++ generate_app_list.nl) logged_entries)
    = Ok (generate_app_list.write_categories ["TOOLS"; "GAME"] apps) /\
    forall c, dict_get apps c =
              match apps_of c logged_entries with [] => None | l => Some l end.
Proof.
  refine (proj1 (proj2 (@category_log_round_trip example.runtime empty_pages ["TOOLS"; "GAME"]))
            logged_entries _).
  intros e Hin. simpl in Hin.
  destruct Hin as [<- | [<- | [<- | []]]]; vm_compute; auto.
Defined.

(** ** The fields of a record (element.py, api.py) *)

Section Fields.
Context {rt : Runtime} (net : network).

Lemma extract_fields_lookup :
  forall (registry : list (string * ElementSpec)) (res result r : dict),
    extract_fields registry res result = Ok r ->
    NoDup (map fst registry) ->
    forall key spec, In (key, spec) registry ->
      exists v, extract_content spec res = Ok v /\ dict_get r key = Some v.
Proof.
  induction registry as [|[key0 spec0] registry IH]; intros res result r Hrun Hnodup key spec Hin;
    [contradiction|].
  cbn [extract_fields] in Hrun. cbn [map fst] in Hnodup.
  inversion Hnodup as [|k l Hfresh Hrest]; subst.
  destruct (extract_content spec0 res) as [content|] eqn:Hcontent; [|discriminate].
  destruct Hin as [Heq | Hin].
  - inversion Heq; subst. exists content. split; [exact Hcontent|].
    rewrite (extract_fields_other _ _ _ _ key Hfresh Hrun). apply dict_get_set_same.
  - exact (IH _ _ _ Hrun Hrest key spec Hin).
Qed.

Lemma detail_keys_distinct : NoDup (map fst DETAIL).
Proof.
  assert (Hsame : first_occurrences [] (map fst DETAIL) = map fst DETAIL) by reflexivity.
  rewrite <- Hsame. apply first_occurrences_NoDup.
Qed.

(** What [extract_content] gives for a specification with a post-processor:
    [None], the fallback, or a value of the post-processor. *)
Lemma extract_content_shape :
  forall (ds : Z) (path : list Z) (f : value -> result value) (fallback v : value)
         (shape : value -> bool) (res : dict),
    extract_content (spec_with ds path f fallback) res = Ok v ->
    shape VNone = true -> shape fallback = true ->
    (forall raw w, f raw = Ok w -> shape w = true) ->
    shape v = true.
Proof.
  intros ds path f fallback v shape res Hcontent Hnone Hfallback Hpost.
  rewrite extract_content_of_raw in Hcontent.
  destruct (raw_content (spec_with ds path f fallback) res) as [raw|e].
  - destruct (is_None raw) eqn:Hraw.
    + inversion Hcontent; subst. destruct v; try discriminate Hraw. exact Hnone.
    + cbn [post_processor spec_with post_processor_except_fallback] in Hcontent.
      destruct (f raw) as [w|e] eqn:Hf; inversion Hcontent; subst.
      * exact (Hpost raw v Hf).
      * exact Hfallback.
  - inversion Hcontent; subst. exact Hnone.
Qed.

(** In a record of [details], the fields with a post-processor keep to the
    shapes of [field_shapes]: a text, a number, a flag or a list, or [None]
    when the page does not hold the element; the histogram, when it is there,
    has five entries.  The fallback [False] of [containsAds] never shows:
    [containsAds] and [adSupported] are always equal. *)
Theorem details_field_shapes :
  forall (app_id : string) (lang country : option string) (tr tr' : trace) (metadata : dict),
    details net app_id lang country tr = (Ok metadata, tr') ->
    (forall key shape, In (key, shape) field_shapes ->
       exists v, dict_get metadata key = Some v /\ shape v = true) /\
    dict_get metadata "containsAds" = dict_get metadata "adSupported".
Proof.
  intros app_id lang country tr tr' metadata Hdetails.
  pose proof (details_unfold net app_id lang country tr) as Hunfold.
  rewrite Hdetails in Hunfold. inversion Hunfold as [[Hpage Htrace]]. clear Hunfold.
  destruct (net (List.length tr) (GET (details_url app_id lang country))) as [dom|code|e];
    [|discriminate|discriminate].
  symmetry in Hpage. unfold details_of_page in Hpage.
  destruct (_parse_response dom) as [res|]; cbn [bind] in Hpage; [|discriminate].
  destruct (location_key res) as [key0|]; cbn [bind] in Hpage; [|discriminate].
  destruct (dict_getitem res key0) as [site|]; cbn [bind] in Hpage; [|discriminate].
  destruct (getitem site 4) as [siteLocation|]; cbn [bind] in Hpage; [|discriminate].
  destruct (getitem site 5) as [siteLanguage|]; cbn [bind] in Hpage; [|discriminate].
  destruct (extract_fields DETAIL res _) as [result|] eqn:Hresult; cbn [bind] in Hpage;
    [|discriminate].
  destruct (_download_link dom) as [[link enabled]|] eqn:Hlink; cbn [bind] in Hpage;
    [|discriminate].
  inversion Hpage; subst metadata. clear Hpage. cbn [fst snd].
  pose proof (extract_fields_lookup _ _ _ _ Hresult detail_keys_distinct) as Hfield.
  assert (Hkept : forall key, key <> "downloadLink" -> key <> "downloadLinkEnabled" ->
            dict_get (dict_set (dict_set result "downloadLink" link)
                               "downloadLinkEnabled" enabled) key
            = dict_get result key).
  { intros key Hlink' Henabled. rewrite !dict_get_set_other by assumption. reflexivity. }
  assert (Hshape : forall key ds path f fallback shape,
            In (key, spec_with ds path f fallback) DETAIL ->
            shape VNone = true -> shape fallback = true ->
            (forall raw w, f raw = Ok w -> shape w = true) ->
            exists v, dict_get result key = Some v /\ shape v = true).
  { intros key ds path f fallback shape Hin Hnone Hfallback Hpost.
    destruct (Hfield key _ Hin) as [v [Hcontent Hget]].
    exists v. split; [exact Hget|].
    exact (extract_content_shape _ _ _ _ _ shape _ Hcontent Hnone Hfallback Hpost). }
  assert (Htext : forall raw w, unescape_text raw = Ok w -> none_or_text w = true).
  { intros raw w. destruct raw; simpl; intros Hw; inversion Hw; reflexivity. }
  assert (Hflag : forall raw w, bool_post raw = Ok w -> none_or_bool w = true).
  { intros raw w Hw. inversion Hw; reflexivity. }
  split.
  - intros key shape Hin. simpl in Hin.
    repeat (destruct Hin as [Heq | Hin]; [inversion Heq; subst key shape; clear Heq|]);
      try contradiction.
    + rewrite Hkept by discriminate.
      eapply Hshape; [simpl; tauto | reflexivity | reflexivity | exact Htext].
    + rewrite Hkept by discriminate.
      eapply Hshape; [simpl; tauto | reflexivity | reflexivity | exact Htext].
    + rewrite Hkept by discriminate.
      eapply Hshape; [simpl; tauto | reflexivity | reflexivity |].
      intros raw w. unfold minInstalls_post.
      destruct (truthy raw); [|intros Hw; inversion Hw; reflexivity].
      destruct raw; try discriminate.
      destruct (py_int _); cbn [bind]; intros Hw; inversion Hw; reflexivity.
    + rewrite Hkept by discriminate.
      eapply Hshape; [simpl; tauto | reflexivity | reflexivity |].
      intros raw w. unfold histogram_post.
      repeat (match goal with
              | |- context [getitem2 raw ?i ?j] => destruct (getitem2 raw i j); cbn [bind]
              end; [|discriminate]).
      intros Hw; inversion Hw; reflexivity.
    + rewrite Hkept by discriminate.
      eapply Hshape; [simpl; tauto | reflexivity | reflexivity |].
      intros raw w. unfold price_post.
      destruct raw; cbn [bind]; try discriminate;
        match goal with
        | |- context [truthy (VFloat ?q)] => destruct (truthy (VFloat q))
        end; intros Hw; inversion Hw; reflexivity.
    + rewrite Hkept by discriminate.
      eapply Hshape; [simpl; tauto | reflexivity | reflexivity |].
      intros raw w Hw. inversion Hw; reflexivity.
    + rewrite Hkept by discriminate.
      eapply Hshape; [simpl; tauto | reflexivity | reflexivity | exact Hflag].
    + rewrite Hkept by discriminate.
      eapply Hshape; [simpl; tauto | reflexivity | reflexivity |].
      intros raw w. unfold androidVersion_post.
      destruct raw; try discriminate.
      destruct (seq_index _ 0); cbn [bind]; intros Hw; inversion Hw; reflexivity.
    + rewrite Hkept by discriminate.
      eapply Hshape; [simpl; tauto | reflexivity | reflexivity |].
      intros raw w. unfold developerId_post.
      destruct raw; try discriminate.
      destruct (seq_index _ 1); cbn [bind]; intros Hw; inversion Hw; reflexivity.
    + rewrite Hkept by discriminate.
      eapply Hshape; [simpl; tauto | reflexivity | reflexivity |].
      intros raw w. unfold screenshots_post.
      destruct (iter raw) as [items|]; cbn [bind]; [|discriminate].
      destruct (mapM _ items); cbn [bind]; intros Hw; inversion Hw; reflexivity.
    + rewrite Hkept by discriminate.
      eapply Hshape; [simpl; tauto | reflexivity | reflexivity | exact Hflag].
    + rewrite Hkept by discriminate.
      eapply Hshape; [simpl; tauto | reflexivity | reflexivity | exact Hflag].
    + rewrite Hkept by discriminate.
      eapply Hshape; [simpl; tauto | reflexivity | reflexivity | exact Htext].
    + rewrite Hkept by discriminate.
      eapply Hshape; [simpl; tauto | reflexivity | reflexivity |].
      intros raw w. unfold comments_post.
      destruct (iter raw) as [items|]; cbn [bind]; [|discriminate].
      destruct (mapM _ items); cbn [bind]; intros Hw; inversion Hw; reflexivity.
    + exists link. rewrite dict_get_set_other by discriminate.
      rewrite dict_get_set_same. split; [reflexivity|].
      unfold _download_link in Hlink.
      induction (regex.BUTTON_findall dom) as [|i button IH]; cbn [download_link_loop] in Hlink.
      * inversion Hlink; reflexivity.
      * destruct (regex.OFFER_findall i); [exact (IH Hlink)|].
        unfold download_of_button in Hlink.
        destruct (seq_index (regex.DOWNLOAD_findall i) 0); cbn [bind] in Hlink; [|discriminate].
        destruct (seq_index (split "content=" _) 1); cbn [bind] in Hlink; [|discriminate].
        inversion Hlink; reflexivity.
    + exists enabled. rewrite dict_get_set_same. split; [reflexivity|].
      unfold _download_link in Hlink.
      induction (regex.BUTTON_findall dom) as [|i button IH]; cbn [download_link_loop] in Hlink.
      * inversion Hlink; reflexivity.
      * destruct (regex.OFFER_findall i); [exact (IH Hlink)|].
        unfold download_of_button in Hlink.
        destruct (seq_index (regex.DOWNLOAD_findall i) 0); cbn [bind] in Hlink; [|discriminate].
        destruct (seq_index (split "content=" _) 1); cbn [bind] in Hlink; [|discriminate].
        inversion Hlink; reflexivity.
  - rewrite !Hkept by discriminate.
    destruct (Hfield "containsAds" (spec_with 5 [0; 12; 14; 0]%Z bool_post (VBool false))
                ltac:(simpl; tauto)) as [v1 [Hcontent1 ->]].
    destruct (Hfield "adSupported" (spec_with 5 [0; 12; 14; 0]%Z bool_post VNone)
                ltac:(simpl; tauto)) as [v2 [Hcontent2 ->]].
    f_equal. rewrite extract_content_of_raw in Hcontent1, Hcontent2.
    change (raw_content (spec_with 5 [0; 12; 14; 0]%Z bool_post (VBool false)) res)
      with (raw_content (spec_with 5 [0; 12; 14; 0]%Z bool_post VNone) res) in Hcontent1.
    destruct (raw_content (spec_with 5 [0; 12; 14; 0]%Z bool_post VNone) res) as [raw|e];
      [|congruence].
    destruct (is_None raw); [congruence|].
    cbn [post_processor spec_with bool_post] in Hcontent1, Hcontent2. congruence.
Qed.

End Fields.

(** An instance: the record of [location_page], where
    no element is found. *)
Lemma details_field_shapes_witness :
  (forall key shape, In (key, shape) field_shapes ->
     exists v, dict_get location_record key = Some v /\ shape v = true) /\
  dict_get location_record "containsAds" = dict_get location_record "adSupported".
Proof.
  refine (@details_field_shapes example.runtime location_pages "com.a" None None []
            [GET (details_url "com.a" None None)] location_record _).
  vm_compute. reflexivity.
Defined.
